(** * Resume optimizer: the matching and scoring pipeline

    A shallow embedding of [utils/resume_analyzer.py] (feature extraction
    and the two scorers), [utils/embeddings.py] (the vector index front end),
    of the role selection and the matching loop of [app.py], of
    [utils/resume_parser.py] and of the reply handling of
    [utils/claude_helper.py], with the properties of the specification and
    further properties of the code stated over it.

    Conventions of the embedding.
    - A Python [str] is a [string]; the functions below agree with Python on
      ASCII text.  The non-ASCII characters of the source's patterns, the en
      dash and the bullet, are matched as their UTF-8 bytes.
    - A Python [float] is an exact rational ([Q]); scores are compared with
      [==].  No rounding is modelled.
    - A [dict] read with [d.get(k, default)] is a record whose field [k] is an
      [option]; a field read with [d[k]] is mandatory.
    - [re] patterns are values of [Re.regex], run by a backtracking matcher
      that tries alternatives in Python's order. *)

From Stdlib Require Import ZArith QArith Qminmax List Bool Ascii String Lia Lqa.
From Stdlib Require Import Permutation Sorted.
Import ListNotations.

Set Implicit Arguments.

(** ** Python strings *)

Module PyStr.

Local Open Scope char_scope.

Definition chars (s : string) : list ascii := list_ascii_of_string s.

Definition is_upper (c : ascii) : bool :=
  (65 <=? nat_of_ascii c)%nat && (nat_of_ascii c <=? 90)%nat.

Definition is_lower (c : ascii) : bool :=
  (97 <=? nat_of_ascii c)%nat && (nat_of_ascii c <=? 122)%nat.

Definition is_digit (c : ascii) : bool :=
  (48 <=? nat_of_ascii c)%nat && (nat_of_ascii c <=? 57)%nat.

(** [\s]: the characters for which [str.isspace] holds. *)
Definition is_space (c : ascii) : bool :=
  let n := nat_of_ascii c in
  (n =? 32)%nat || ((9 <=? n)%nat && (n <=? 13)%nat)
  || ((28 <=? n)%nat && (n <=? 31)%nat).

(** [\w]: letters, digits and the underscore. *)
Definition is_word (c : ascii) : bool :=
  is_upper c || is_lower c || is_digit c || (nat_of_ascii c =? 95)%nat.

Definition lower_char (c : ascii) : ascii :=
  if is_upper c then ascii_of_nat (nat_of_ascii c + 32) else c.

(** [s.lower()] *)
Fixpoint lower (s : string) : string :=
  match s with
  | EmptyString => EmptyString
  | String c s' => String (lower_char c) (lower s')
  end.

(** [sub in s] for two strings *)
Fixpoint contains (sub s : string) : bool :=
  String.prefix sub s ||
  match s with
  | EmptyString => false
  | String _ s' => contains sub s'
  end.

(** [x in l] for a list of strings *)
Definition mem (x : string) (l : list string) : bool :=
  existsb (String.eqb x) l.

(** [" ".join(l)] *)
Definition join (l : list string) : string := String.concat " " l.

(** The value of a run of decimal digits, as [int] and [float] read it. *)
Definition digit_val (c : ascii) : Z := Z.of_nat (nat_of_ascii c - 48).

Definition int_of_digits (ds : list ascii) : Z :=
  fold_left (fun acc c => 10 * acc + digit_val c)%Z ds 0%Z.

(** [s.split(sep)] for a one-character separator, on characters. *)
Fixpoint split_chars (sep : ascii) (s : list ascii) : list (list ascii) :=
  match s with
  | [] => [[]]
  | c :: s' =>
      if Ascii.eqb c sep then [] :: split_chars sep s'
      else
        match split_chars sep s' with
        | part :: parts => (c :: part) :: parts
        | [] => [[c]]
        end
  end.

Definition newline : ascii := ascii_of_nat 10.

(** [s.split('\n')] *)
Definition split_lines (s : string) : list string :=
  map string_of_list_ascii (split_chars newline (chars s)).

(** [s.strip()]: white space removed at both ends. *)
Fixpoint lstrip_chars (s : list ascii) : list ascii :=
  match s with
  | c :: s' => if is_space c then lstrip_chars s' else s
  | [] => []
  end.

Fixpoint rstrip_chars (s : list ascii) : list ascii :=
  match s with
  | [] => []
  | c :: s' =>
      match rstrip_chars s' with
      | [] => if is_space c then [] else [c]
      | kept => c :: kept
      end
  end.

Definition strip_chars (s : list ascii) : list ascii :=
  rstrip_chars (lstrip_chars s).

Definition strip (s : string) : string :=
  string_of_list_ascii (strip_chars (chars s)).

(** [s[a:b]] for 0 <= a <= b *)
Definition slice (a b : nat) (s : list ascii) : list ascii :=
  firstn (b - a) (skipn a s).

End PyStr.

(** ** The fragment of [re] used by the source *)

Module Re.

Import PyStr.

(** Every repetition in the source's patterns is over one character class
    ([\d+], [\s*], [\s+]), so [Star] takes a class. *)
Inductive regex : Type :=
| Eps : regex
| Chr : (ascii -> bool) -> regex
| Seq : regex -> regex -> regex
| Alt : regex -> regex -> regex
| Opt : regex -> regex
| Star : (ascii -> bool) -> regex
| WordB : regex
| Group : nat -> regex -> regex.

Definition Plus (c : ascii -> bool) : regex := Seq (Chr c) (Star c).

Definition seqs (rs : list regex) : regex := fold_right Seq Eps rs.

(** A literal character, and the same under [re.IGNORECASE]. *)
Definition chr (c : ascii) : regex := Chr (Ascii.eqb c).

Definition ichr (c : ascii) : regex :=
  Chr (fun x => Ascii.eqb (lower_char x) (lower_char c)).

Definition lit (s : string) : regex := seqs (map chr (chars s)).

Definition ilit (s : string) : regex := seqs (map ichr (chars s)).

(** [re.escape(s)] followed by compilation: every character is literal. *)
Definition escape (s : string) : regex := lit s.

Definition captures := list (nat * list ascii).

(** [\b]: exactly one of the two neighbours is a word character. *)
Definition at_boundary (prev : option ascii) (s : list ascii) : bool :=
  xorb (match prev with Some c => is_word c | None => false end)
       (match s with c :: _ => is_word c | [] => false end).

Section Matcher.

Variable A : Type.

(** Greedy repetition: take one more character first, give it back when the
    rest of the pattern fails. *)
Fixpoint star_k (c : ascii -> bool) (prev : option ascii) (s : list ascii)
    (k : option ascii -> list ascii -> option A) : option A :=
  match s with
  | x :: s' =>
      if c x then
        match star_k c (Some x) s' k with
        | Some r => Some r
        | None => k prev s
        end
      else k prev s
  | [] => k prev s
  end.

(** [exec r prev s g k]: match [r] at the front of [s] ([prev] is the
    character before it), then continue with [k]. *)
Fixpoint exec (r : regex) (prev : option ascii) (s : list ascii) (g : captures)
    (k : option ascii -> list ascii -> captures -> option A) : option A :=
  match r with
  | Eps => k prev s g
  | Chr c =>
      match s with
      | x :: s' => if c x then k (Some x) s' g else None
      | [] => None
      end
  | Seq a b => exec a prev s g (fun p' s' g' => exec b p' s' g' k)
  | Alt a b =>
      match exec a prev s g k with
      | Some r => Some r
      | None => exec b prev s g k
      end
  | Opt a =>
      match exec a prev s g k with
      | Some r => Some r
      | None => k prev s g
      end
  | Star c => star_k c prev s (fun p' s' => k p' s' g)
  | WordB => if at_boundary prev s then k prev s g else None
  | Group n a =>
      exec a prev s g
        (fun p' s' g' => k p' s' ((n, firstn (List.length s - List.length s') s) :: g'))
  end.

End Matcher.

(** A match: the matched text and the groups. *)
Record rmatch := { whole : list ascii; groups : captures }.

Definition match_at (r : regex) (prev : option ascii) (s : list ascii)
  : option rmatch :=
  exec r prev s []
    (fun _ s' g => Some {| whole := firstn (List.length s - List.length s') s; groups := g |}).

(** Left-to-right scan for non-overlapping matches; [skip] counts the
    characters of the last match still to step over. *)
Fixpoint scan (r : regex) (prev : option ascii) (s : list ascii) (skip : nat)
  : list rmatch :=
  match s with
  | [] =>
      match skip with
      | O => match match_at r prev [] with Some m => [m] | None => [] end
      | S _ => []
      end
  | c :: s' =>
      match skip with
      | S n => scan r (Some c) s' n
      | O =>
          match match_at r prev s with
          | Some m => m :: scan r (Some c) s' (List.length (whole m) - 1)
          | None => scan r (Some c) s' 0
          end
      end
  end.

Definition finditer (r : regex) (text : string) : list rmatch :=
  scan r None (chars text) 0.

(** [re.search(r, text)] used as a truth value *)
Definition search (r : regex) (text : string) : bool :=
  match finditer r text with
  | [] => false
  | _ :: _ => true
  end.

Fixpoint group (n : nat) (g : captures) : list ascii :=
  match g with
  | [] => []
  | (i, t) :: g' => if Nat.eqb i n then t else group n g'
  end.

(** [re.findall] for a pattern without group, with one and with two. *)
Definition findall0 (r : regex) (text : string) : list (list ascii) :=
  map whole (finditer r text).

Definition findall1 (r : regex) (text : string) : list (list ascii) :=
  map (fun m => group 1 (groups m)) (finditer r text).

Definition findall2 (r : regex) (text : string)
  : list (list ascii * list ascii) :=
  map (fun m => (group 1 (groups m), group 2 (groups m))) (finditer r text).

(** [re.search]: the position and the match of the first match. *)
Fixpoint find_first (r : regex) (prev : option ascii) (s : list ascii)
    (pos : nat) : option (nat * rmatch) :=
  match match_at r prev s with
  | Some m => Some (pos, m)
  | None =>
      match s with
      | [] => None
      | c :: s' => find_first r (Some c) s' (S pos)
      end
  end.

(** [$]: the end of the text, or the newline that ends it. *)
Definition at_end (s : list ascii) : bool :=
  match s with
  | [] => true
  | [c] => Ascii.eqb c newline
  | _ => false
  end.

Section Lazy.

Variable A : Type.

(** A lazy repetition [c+?] before the continuation [k]: one character,
    then the continuation, one more character only when it fails. *)
Fixpoint lazy_plus_k (c : ascii -> bool) (prev : option ascii) (s : list ascii)
    (k : option ascii -> list ascii -> option A) : option A :=
  match s with
  | x :: s' =>
      if c x then
        match k (Some x) s' with
        | Some r => Some r
        | None => lazy_plus_k c (Some x) s' k
        end
      else None
  | [] => None
  end.

End Lazy.

End Re.

(** ** Data model *)

(** [d.get(k, default)] *)
Definition get_or (A : Type) (o : option A) (default : A) : A :=
  match o with
  | Some v => v
  | None => default
  end.

(** A job posting of the catalog.  [id], [title], [company], [description]
    and [requirements] are read with [job[k]], the others with [job.get]. *)
Module Job.
Record t : Type := {
  id : Z;
  title : string;
  company : string;
  description : string;
  requirements : string;
  experience : option string;
  education_required : option string;
  projects_required : option string
}.
End Job.

(** The [education] dict of a parsed resume; the scorers read [level] and
    [summary]. *)
Module Education.
Record t : Type := {
  level : option string;
  summary : option string
}.
End Education.

(** The dict returned by [extract_education]. *)
Module EducationInfo.
Record t : Type := {
  degree : string;
  field : string;
  institution : string;
  level : string;
  summary : string
}.
End EducationInfo.

Module Project.
Record t : Type := {
  title : string;
  description : string
}.
End Project.

(** The dict returned by [parse_resume]. *)
Module Resume.
Record t : Type := {
  skills : option (list string);
  education : option Education.t;
  years_of_experience : option Q;
  projects : option (list Project.t);
  full_text : option string
}.
End Resume.

(** The ["breakdown"] and ["weights"] dicts of [calculate_smart_score]. *)
Module Breakdown.
Record t : Type := {
  exact_skills : Q;
  related_skills : Q;
  experience : Q;
  education : Q;
  projects : Q;
  semantic : Q
}.
End Breakdown.

Module Weights.
Record t : Type := {
  skills_total : Q;
  experience : Q;
  semantic : Q;
  education : Q;
  projects : Q
}.
End Weights.

Module Smart.
Record t : Type := {
  final_score : Q;
  breakdown : Breakdown.t;
  weights : Weights.t;
  experience_gap : Q;
  education_sufficient : bool;
  exact_matches : nat;
  related_matches : nat
}.
End Smart.

(** The nested dicts of [calculate_detailed_breakdown]. *)
Module SkillsDetail.
Record t : Type := {
  score : Q;
  matched : nat;
  total : nat;
  missing : list string
}.
End SkillsDetail.

Module EducationDetail.
Record t : Type := {
  score : Q;
  candidate : string;
  required : string;
  candidate_level : Z;
  required_level : Z
}.
End EducationDetail.

Module ExperienceDetail.
Record t : Type := {
  score : Q;
  candidate_years : Q;
  required_years : Q;
  gap : Q
}.
End ExperienceDetail.

Module ProjectsDetail.
Record t : Type := {
  score : Q;
  count : nat;
  required : string
}.
End ProjectsDetail.

(** [smart_score] is the key that [show_job_results] adds afterwards. *)
Module Detailed.
Record t : Type := {
  overall : Q;
  skills : SkillsDetail.t;
  education : EducationDetail.t;
  experience : ExperienceDetail.t;
  projects : ProjectsDetail.t;
  smart_score : option Smart.t
}.
End Detailed.

(** ** [utils/resume_analyzer.py]: class [ResumeAnalyzer] *)

Module ResumeAnalyzer.

Import PyStr.
Local Open Scope string_scope.

Definition skill_keywords : list string := [
  "Python"; "Java"; "JavaScript"; "TypeScript"; "C++"; "C#"; "Ruby"; "Go";
  "Rust"; "PHP"; "Swift"; "Kotlin"; "R"; "Scala"; "Perl"; "MATLAB"; "C";
  "Objective-C";
  "React"; "Angular"; "Vue"; "Vue.js"; "Node.js"; "Django"; "Flask";
  "Spring"; "Express"; "HTML"; "CSS"; "SASS"; "LESS"; "Bootstrap";
  "Tailwind"; "REST"; "GraphQL"; "WebSocket"; "Next.js"; "Nuxt.js";
  "jQuery"; "Redux"; "MobX";
  "SQL"; "MySQL"; "PostgreSQL"; "MongoDB"; "Redis"; "Cassandra"; "DynamoDB";
  "Oracle"; "SQLite"; "ElasticSearch"; "Neo4j"; "CouchDB"; "MariaDB";
  "AWS"; "Azure"; "GCP"; "Google Cloud"; "Docker"; "Kubernetes"; "K8s";
  "Jenkins"; "GitLab"; "CI/CD"; "Terraform"; "Ansible"; "Chef"; "Puppet";
  "Linux"; "Git"; "GitHub"; "Bitbucket"; "CircleCI"; "Travis CI";
  "Machine Learning"; "Deep Learning"; "TensorFlow"; "PyTorch"; "Keras";
  "scikit-learn"; "NLP"; "Natural Language Processing"; "Computer Vision";
  "Neural Networks"; "Data Science"; "Pandas"; "NumPy"; "Spark"; "Hadoop";
  "Tableau"; "Power BI"; "MLOps"; "AI"; "Artificial Intelligence";
  "Data Mining"; "Statistical Analysis";
  "iOS"; "Android"; "React Native"; "Flutter"; "SwiftUI"; "UIKit";
  "Testing"; "Unit Testing"; "Integration Testing"; "Jest"; "Mocha";
  "Pytest"; "Selenium"; "Cypress"; "JUnit"; "TestNG";
  "Agile"; "Scrum"; "Microservices"; "API"; "RESTful API"; "Serverless";
  "Blockchain"; "Solidity"; "Web3" ].

(** [r'\b' + re.escape(skill.lower()) + r'\b'] *)
Definition skill_pattern (skill : string) : Re.regex :=
  Re.seqs [Re.WordB; Re.escape (lower skill); Re.WordB].

(** The second loop of [extract_skills]: drop a skill whose lower-case form
    was seen before. *)
Fixpoint unique_skills (found_skills seen : list string) : list string :=
  match found_skills with
  | [] => []
  | skill :: rest =>
      let skill_lower := lower skill in
      if mem skill_lower seen then unique_skills rest seen
      else skill :: unique_skills rest (skill_lower :: seen)
  end.

Definition extract_skills_from (keywords : list string) (resume_text : string)
  : list string :=
  let text_lower := lower resume_text in
  let found_skills :=
    filter (fun skill => Re.search (skill_pattern skill) text_lower) keywords in
  unique_skills found_skills [].

Definition extract_skills (resume_text : string) : list string :=
  extract_skills_from skill_keywords resume_text.

(** The four [experience_patterns], compiled with [re.IGNORECASE]. *)
Definition year_s : list Re.regex := [Re.ilit "year"; Re.Opt (Re.ichr "s")].
Definition yr_s : list Re.regex := [Re.ilit "yr"; Re.Opt (Re.ichr "s")].
Definition opt_of : Re.regex :=
  Re.Opt (Re.Seq (Re.Plus is_space) (Re.ilit "of")).
Definition experience_or_exp : Re.regex :=
  Re.Alt (Re.ilit "experience") (Re.ilit "exp").
Definition number_plus : list Re.regex :=
  [Re.Group 1 (Re.Plus is_digit); Re.Opt (Re.chr "+"); Re.Star is_space].

Definition experience_patterns : list Re.regex := [
  (* (\d+)\+?\s*years?(?:\s+of)?\s+(?:experience|exp) *)
  Re.seqs (number_plus ++ year_s ++ [opt_of; Re.Plus is_space; experience_or_exp]);
  (* (\d+)\+?\s*yrs?(?:\s+of)?\s+(?:experience|exp) *)
  Re.seqs (number_plus ++ yr_s ++ [opt_of; Re.Plus is_space; experience_or_exp]);
  (* experience[:\s]+(\d+)\+?\s*years? *)
  Re.seqs ([Re.ilit "experience";
            Re.Plus (fun c => Ascii.eqb c ":" || is_space c)]
           ++ number_plus ++ year_s);
  (* (\d+)\+?\s*years?\s+in *)
  Re.seqs (number_plus ++ year_s ++ [Re.Plus is_space; Re.ilit "in"]) ].

(** The en dash (U+2013) as its UTF-8 bytes. *)
Definition en_dash : string :=
  String (ascii_of_nat 226) (String (ascii_of_nat 128)
    (String (ascii_of_nat 147) EmptyString)).

Definition year_20xx : Re.regex :=
  Re.seqs [Re.lit "20"; Re.Chr is_digit; Re.Chr is_digit].

(** (20\d{2})\s*[-en dash]\s*(20\d{2}|present|current), [re.IGNORECASE] *)
Definition date_pattern : Re.regex :=
  Re.seqs [Re.Group 1 year_20xx; Re.Star is_space;
           Re.Alt (Re.chr "-") (Re.lit en_dash); Re.Star is_space;
           Re.Group 2 (Re.Alt year_20xx
                        (Re.Alt (Re.ilit "present") (Re.ilit "current")))].

(** [float(match)] and [int(match)] of a run of digits *)
Definition float_of_digits (ds : list ascii) : Q := inject_Z (int_of_digits ds).

(** The year a date range ends in. *)
Definition end_year (e : list ascii) : Z :=
  if mem (lower (string_of_list_ascii e)) ["present"; "current"]
  then 2024%Z else int_of_digits e.

(** The list [years] at the end of the two loops. *)
Definition years_found (resume_text : string) : list Q :=
  flat_map (fun pattern => map float_of_digits (Re.findall1 pattern resume_text))
           experience_patterns
  ++ map (fun se => inject_Z (end_year (snd se) - int_of_digits (fst se)))
         (Re.findall2 date_pattern resume_text).

(** [max(l)] of a non-empty list, the first element given apart *)
Definition py_max (x : Q) (l : list Q) : Q := fold_left Qmax l x.

Definition extract_years_of_experience (resume_text : string) : Q :=
  match years_found resume_text with
  | [] => 2
  | y :: ys => py_max y ys
  end.

(** [identify_missing_skills] *)
Definition identify_missing_skills (resume_data : Resume.t) (job : Job.t)
  : list string :=
  let job_requirements := lower (Job.requirements job) in
  let resume_skills_lower := map lower (get_or (Resume.skills resume_data) []) in
  let missing :=
    filter (fun skill =>
              let skill_lower := lower skill in
              contains skill_lower job_requirements
              && negb (contains skill_lower (join resume_skills_lower)))
           skill_keywords in
  firstn 5 missing.

(** *** The two scorers *)

Local Open Scope Q_scope.

Definition Qnat (n : nat) : Q := inject_Z (Z.of_nat n).

(** [x >= y] *)
Definition Qge_bool (x y : Q) : bool := Qle_bool y x.

(** The number of the candidate's skills that occur in the requirements
    text (the loop counting [exact_matches], and [skills_matched]). *)
Definition count_exact (resume_skills_lower : list string)
    (job_requirements_lower : string) : nat :=
  List.length
    (filter (fun skill => contains skill job_requirements_lower)
            resume_skills_lower).

(** [len(resume_skills_lower) if resume_skills_lower else 1] *)
Definition total_skills (resume_skills_lower : list string) : nat :=
  match resume_skills_lower with
  | [] => 1%nat
  | _ :: _ => List.length resume_skills_lower
  end.

Definition skill_synonyms : list (string * list string) := [
  ("python", ["py"; "python3"]);
  ("javascript", ["js"; "typescript"; "ts"]);
  ("machine learning", ["ml"; "deep learning"; "dl"; "ai"]);
  ("react", ["reactjs"; "react.js"]);
  ("node", ["nodejs"; "node.js"]);
  ("tensorflow", ["tf"]);
  ("pytorch", ["torch"]);
  ("kubernetes", ["k8s"]) ]%string.

(** The inner loop over [skill_synonyms.items()]: [true] when it reaches
    [related_matches += 1] (and breaks). *)
Fixpoint related_hit (skill job_requirements_lower : string)
    (items : list (string * list string)) : bool :=
  match items with
  | [] => false
  | (key, synonyms) :: rest =>
      if String.eqb skill key || mem skill synonyms then
        if contains key job_requirements_lower then true
        else related_hit skill job_requirements_lower rest
      else related_hit skill job_requirements_lower rest
  end.

Definition count_related (resume_skills_lower : list string)
    (job_requirements_lower : string) : nat :=
  List.length
    (filter (fun skill => related_hit skill job_requirements_lower skill_synonyms)
            resume_skills_lower).

(** [float(re.findall(r'\d+', s)[0]) if re.findall(r'\d+', s) else 0] on
    [job.get('experience', '0+')], as an integer *)
Definition required_years_int (job : Job.t) : Z :=
  let required_exp_str := get_or (Job.experience job) "0+"%string in
  match Re.findall0 (Re.Plus is_digit) required_exp_str with
  | ds :: _ => int_of_digits ds
  | [] => 0%Z
  end.

Definition required_years (job : Job.t) : Q := inject_Z (required_years_int job).

Definition candidate_years (resume_data : Resume.t) : Q :=
  get_or (Resume.years_of_experience resume_data) 0.

(** The experience ladder of [calculate_smart_score], with its final
    [min(experience_score, 1.0)]. *)
Definition smart_experience_score (required_years candidate_years : Q) : Q :=
  let experience_score :=
    if Qeq_bool required_years 0 then 0.8
    else if Qge_bool candidate_years required_years then 1
    else if Qge_bool candidate_years (required_years * 0.7) then 0.85
    else if Qge_bool candidate_years (required_years * 0.5) then 0.65
    else candidate_years / Qmax required_years 1 in
  Qmin experience_score 1.

Definition edu_hierarchy : list (string * Z) := [
  ("phd", 5); ("ph.d", 5); ("doctorate", 5);
  ("masters", 4); ("master's", 4); ("ms", 4); ("m.s", 4); ("mba", 4);
  ("bachelor", 3); ("bachelor's", 3); ("bs", 3); ("b.s", 3); ("ba", 3);
  ("associate", 2);
  ("diploma", 1) ]%string%Z.

(** The loop over [edu_hierarchy.items()] for one of the two texts. *)
Definition edu_level (text : string) : Z :=
  fold_left (fun lvl kv => if contains (fst kv) text then Z.max lvl (snd kv) else lvl)
            edu_hierarchy 0%Z.

Definition candidate_level (resume_data : Resume.t) : Z :=
  let edu_data := get_or (Resume.education resume_data)
                         {| Education.level := None; Education.summary := None |} in
  edu_level (lower (get_or (Education.level edu_data) ""%string)).

Definition required_level (job : Job.t) : Z :=
  edu_level (lower (get_or (Job.education_required job) ""%string)).

Definition smart_education_score (candidate_level required_level : Z) : Q :=
  if (required_level =? 0)%Z then 0.8
  else if (candidate_level >=? required_level)%Z then 1
  else if (candidate_level =? required_level - 1)%Z then 0.85
  else 0.6.

(** ['portfolio' in projects_required or 'projects' in projects_required] *)
Definition asks_for_projects (job : Job.t) : bool :=
  let projects_required := lower (get_or (Job.projects_required job) ""%string) in
  contains "portfolio" projects_required || contains "projects" projects_required.

Definition calculate_smart_score (resume_data : Resume.t) (job : Job.t)
    (ml_semantic_score : Q) : Smart.t :=
  (* 1. exact skills *)
  let job_requirements_lower := lower (Job.requirements job) in
  let resume_skills_lower := map lower (get_or (Resume.skills resume_data) []) in
  let exact_matches := count_exact resume_skills_lower job_requirements_lower in
  let total_resume_skills := total_skills resume_skills_lower in
  let exact_skills_score :=
    Qmin (Qnat exact_matches / Qmax (Qnat total_resume_skills * 0.5) 1) 1 in
  (* 2. related skills *)
  let related_matches := count_related resume_skills_lower job_requirements_lower in
  let related_skills_score :=
    Qmin (Qnat related_matches / Qmax (Qnat total_resume_skills * 0.3) 1) 1 in
  (* 3. experience *)
  let required_years := required_years job in
  let candidate_years := candidate_years resume_data in
  let experience_score := smart_experience_score required_years candidate_years in
  (* 4. education *)
  let candidate_level := candidate_level resume_data in
  let required_level := required_level job in
  let education_score := smart_education_score candidate_level required_level in
  (* 5. projects *)
  let projects := get_or (Resume.projects resume_data) [] in
  let projects_score :=
    if asks_for_projects job then
      match projects with
      | [] => 0.4
      | _ :: _ => Qmin (Qnat (List.length projects) / 2) 1
      end
    else 0.7 in
  (* 6. semantic similarity *)
  let semantic_score := ml_semantic_score in
  (* final weighted score *)
  let base_score :=
    exact_skills_score * 0.25 + related_skills_score * 0.15
    + experience_score * 0.40 + semantic_score * 0.20 in
  let education_weight := if (required_level >? 0)%Z then 0.05 else 0 in
  let projects_weight := if asks_for_projects job then 0.05 else 0 in
  let conditional_score :=
    education_score * education_weight + projects_score * projects_weight in
  let final_score := Qmin (base_score + conditional_score) 1 in
  {| Smart.final_score := final_score;
     Smart.breakdown :=
       {| Breakdown.exact_skills := exact_skills_score;
          Breakdown.related_skills := related_skills_score;
          Breakdown.experience := experience_score;
          Breakdown.education := education_score;
          Breakdown.projects := projects_score;
          Breakdown.semantic := semantic_score |};
     Smart.weights :=
       {| Weights.skills_total := 0.40;
          Weights.experience := 0.40;
          Weights.semantic := 0.20;
          Weights.education := education_weight;
          Weights.projects := projects_weight |};
     Smart.experience_gap := Qmax 0 (required_years - candidate_years);
     Smart.education_sufficient :=
       if (required_level >? 0)%Z then (candidate_level >=? required_level)%Z
       else true;
     Smart.exact_matches := exact_matches;
     Smart.related_matches := related_matches |}.

Definition detailed_education_score (candidate_level required_level : Z) : Q :=
  if (required_level =? 0)%Z then 0.8
  else if (candidate_level >=? required_level)%Z then 1
  else if (candidate_level =? required_level - 1)%Z then 0.8
  else 0.5.

Definition detailed_experience_score (required_years candidate_years : Q) : Q :=
  let experience_score :=
    if Qeq_bool required_years 0 then 0.8
    else if Qge_bool candidate_years required_years then 1
    else if Qge_bool candidate_years (required_years * 0.7) then 0.8
    else candidate_years / Qmax required_years 1 in
  Qmin experience_score 1.

Definition calculate_detailed_breakdown (resume_data : Resume.t) (job : Job.t)
  : Detailed.t :=
  (* 1. skills *)
  let job_requirements := lower (Job.requirements job) in
  let resume_skills_lower := map lower (get_or (Resume.skills resume_data) []) in
  let skills_matched := count_exact resume_skills_lower job_requirements in
  let total_resume_skills := total_skills resume_skills_lower in
  let skills_score :=
    Qmin (Qnat skills_matched / Qmax (Qnat total_resume_skills * 0.5) 1) 1 in
  (* 2. education *)
  let edu_data := get_or (Resume.education resume_data)
                         {| Education.level := None; Education.summary := None |} in
  let candidate_level := candidate_level resume_data in
  let required_level := required_level job in
  let education_score := detailed_education_score candidate_level required_level in
  (* 3. experience *)
  let required_years := required_years job in
  let candidate_years := candidate_years resume_data in
  let experience_score := detailed_experience_score required_years candidate_years in
  (* 4. projects *)
  let projects := get_or (Resume.projects resume_data) [] in
  let projects_score :=
    match projects with
    | [] => 0.5
    | _ :: _ => Qmin (Qnat (List.length projects) / 2) 1
    end in
  let overall_score :=
    skills_score * 0.40 + education_score * 0.25
    + experience_score * 0.25 + projects_score * 0.10 in
  {| Detailed.overall := overall_score;
     Detailed.skills :=
       {| SkillsDetail.score := skills_score;
          SkillsDetail.matched := skills_matched;
          SkillsDetail.total := total_resume_skills;
          SkillsDetail.missing := identify_missing_skills resume_data job |};
     Detailed.education :=
       {| EducationDetail.score := education_score;
          EducationDetail.candidate :=
            get_or (Education.summary edu_data) "Not specified"%string;
          EducationDetail.required :=
            get_or (Job.education_required job) "Not specified"%string;
          EducationDetail.candidate_level := candidate_level;
          EducationDetail.required_level := required_level |};
     Detailed.experience :=
       {| ExperienceDetail.score := experience_score;
          ExperienceDetail.candidate_years := candidate_years;
          ExperienceDetail.required_years := required_years;
          ExperienceDetail.gap := Qmax 0 (required_years - candidate_years) |};
     Detailed.projects :=
       {| ProjectsDetail.score := projects_score;
          ProjectsDetail.count := List.length projects;
          ProjectsDetail.required :=
            get_or (Job.projects_required job)
                   "Portfolio of relevant projects"%string |};
     Detailed.smart_score := None |}.

(** *** [extract_education], [extract_projects] and [parse_resume] *)

Local Open Scope string_scope.

Definition education_levels : list string := [
  "PhD"; "Ph.D"; "Doctorate"; "Masters"; "Master's"; "MS"; "M.S"; "MBA";
  "Bachelor"; "Bachelor's"; "BS"; "B.S"; "BA"; "B.A"; "Associate"; "Diploma" ].

Definition project_indicators : list string := [
  "project"; "built"; "developed"; "created"; "designed"; "implemented";
  "deployed"; "launched"; "architected"; "led" ].

(** [\b(w1|w2|...)\b] *)
Definition word_among (words : list Re.regex) : Re.regex :=
  Re.seqs [Re.WordB; Re.Group 1 (fold_right Re.Alt (Re.Chr (fun _ => false)) words);
           Re.WordB].

(** \b(education|academic|qualifications)\b *)
Definition education_header : Re.regex :=
  word_among [Re.lit "education"; Re.lit "academic"; Re.lit "qualifications"].

(** \b(experience|skills|projects|work history)\b *)
Definition education_end : Re.regex :=
  word_among [Re.lit "experience"; Re.lit "skills"; Re.lit "projects";
              Re.lit "work history"].

(** The first loop of [extract_education]: the lines after a header line,
    up to the next section. *)
Fixpoint education_section (text_lines : list string) (in_education : bool)
  : list string :=
  match text_lines with
  | [] => []
  | line :: rest =>
      let line_lower := lower line in
      if Re.search education_header line_lower then education_section rest true
      else if in_education && Re.search education_end line_lower then []
      else if in_education then line :: education_section rest in_education
      else education_section rest in_education
  end.

(** [r'\b' + re.escape(level) + r'\b'] under [re.IGNORECASE] *)
Definition level_pattern (level : string) : Re.regex :=
  Re.seqs [Re.WordB; Re.ilit level; Re.WordB].

(** [A-Za-z\s] *)
Definition field_class (c : ascii) : bool :=
  is_upper c || is_lower c || is_space c.

(** The alternatives \s+from, \s+at, \s*, and \s*\n of the field pattern;
    its last alternative, $, is tried after them. *)
Definition field_tail : Re.regex :=
  Re.Alt (Re.Seq (Re.Plus is_space) (Re.ilit "from"))
    (Re.Alt (Re.Seq (Re.Plus is_space) (Re.ilit "at"))
       (Re.Alt (Re.Seq (Re.Star is_space) (Re.chr ","))
               (Re.Seq (Re.Star is_space) (Re.chr newline)))).

(** in\s+([A-Za-z\s]+)(?:\s+from|\s+at|\s*,|\s*\n|$) at one position:
    group 1 of the match. *)
Definition field_at (prev : option ascii) (s : list ascii) : option (list ascii) :=
  Re.exec (Re.seqs [Re.ilit "in"; Re.Plus is_space;
                    Re.Group 1 (Re.Plus field_class)])
    prev s []
    (fun prev' s' g' =>
       match Re.exec field_tail prev' s' g' (fun _ _ g => Some (Re.group 1 g)) with
       | Some found => Some found
       | None => if Re.at_end s' then Some (Re.group 1 g') else None
       end).

(** [re.search] of the field pattern: group 1 of the first match. *)
Fixpoint field_search (prev : option ascii) (s : list ascii)
  : option (list ascii) :=
  match field_at prev s with
  | Some found => Some found
  | None =>
      match s with
      | [] => None
      | c :: s' => field_search (Some c) s'
      end
  end.

(** The loop over [education_levels]: the first level whose pattern
    matches, with the field found in the 100 characters from the match. *)
Fixpoint find_level (levels : list string) (education_text : string)
  : option (string * string) :=
  match levels with
  | [] => None
  | level :: rest =>
      match Re.find_first (level_pattern level) None (chars education_text) 0 with
      | Some (start, _) =>
          let context := slice start (start + 100) (chars education_text) in
          match field_search None context with
          | Some found =>
              Some (level, string_of_list_ascii (strip_chars found))
          | None => Some (level, "")
          end
      | None => find_level rest education_text
      end
  end.

Definition extract_education (resume_text : string) : EducationInfo.t :=
  let text_lines := split_lines resume_text in
  let section := education_section text_lines false in
  let education_text :=
    match section with
    | [] => resume_text
    | _ :: _ => join section
    end in
  let found := get_or (find_level education_levels education_text) ("", "") in
  let degree := fst found in
  let field := snd found in
  {| EducationInfo.degree := degree;
     EducationInfo.field := field;
     EducationInfo.institution := "";
     EducationInfo.level := degree;
     EducationInfo.summary :=
       match degree with
       | EmptyString => "Education details from resume"
       | String _ _ =>
           match field with
           | EmptyString => degree
           | String _ _ => degree ++ " in " ++ field
           end
       end |}.

(** \b(projects?|portfolio|work samples)\b *)
Definition projects_header : Re.regex :=
  word_among [Re.Seq (Re.lit "project") (Re.Opt (Re.chr "s"));
              Re.lit "portfolio"; Re.lit "work samples"].

(** \b(experience|education|skills|work history)\b *)
Definition projects_end : Re.regex :=
  word_among [Re.lit "experience"; Re.lit "education"; Re.lit "skills";
              Re.lit "work history"].

(** The first loop of [extract_projects]. *)
Fixpoint project_section (text_lines : list string) (in_projects : bool)
  : list string :=
  match text_lines with
  | [] => []
  | line :: rest =>
      let line_lower := strip (lower line) in
      if Re.search projects_header line_lower then project_section rest true
      else if in_projects && Re.search projects_end line_lower then []
      else if in_projects && negb (String.eqb (strip line) "")
           then line :: project_section rest in_projects
      else project_section rest in_projects
  end.

(** The fallback loop: the lines longer than 20 characters that contain a
    project indicator. *)
Definition indicator_lines (text_lines : list string) : list string :=
  filter (fun line =>
            existsb (fun indicator =>
                       contains indicator (lower line)
                       && (20 <? String.length line)%nat)
                    project_indicators)
         text_lines.

(** The bullet (U+2022) as its UTF-8 bytes. *)
Definition bullet : string :=
  String (ascii_of_nat 226) (String (ascii_of_nat 128)
    (String (ascii_of_nat 162) EmptyString)).

(** [A-Za-z0-9\s\-:] *)
Definition title_class (c : ascii) : bool :=
  is_upper c || is_lower c || is_digit c || is_space c
  || Ascii.eqb c "-" || Ascii.eqb c ":".

(** The alternatives \s*[-en dash], \s*: and \s*\( of the title pattern;
    its last alternative, $, is tried after them. *)
Definition title_tail : Re.regex :=
  Re.Alt (Re.Seq (Re.Star is_space) (Re.Alt (Re.chr "-") (Re.lit en_dash)))
    (Re.Alt (Re.Seq (Re.Star is_space) (Re.chr ":"))
            (Re.Seq (Re.Star is_space) (Re.chr "("))).

(** [re.match] of ^[bullet\-\*]?\s*([A-Za-z0-9\s\-:]+?)(?:\s*[-en dash]|\s*:|\s*\(|$):
    group 1 of the match. *)
Definition title_match (line : list ascii) : option (list ascii) :=
  Re.exec
    (Re.Seq (Re.Opt (Re.Alt (Re.lit bullet) (Re.Alt (Re.chr "-") (Re.chr "*"))))
            (Re.Star is_space))
    None line []
    (fun prev1 s1 _ =>
       Re.lazy_plus_k title_class prev1 s1
         (fun prev2 s2 =>
            let captured := firstn (List.length s1 - List.length s2) s1 in
            match Re.exec title_tail prev2 s2 [] (fun _ _ _ => Some captured) with
            | Some found => Some found
            | None => if Re.at_end s2 then Some captured else None
            end)).

(** The body of the last loop for one line of the section. *)
Definition project_of_line (line : string) : option Project.t :=
  let line := strip line in
  if (10 <? String.length line)%nat then
    match title_match (chars line) with
    | Some found =>
        Some {| Project.title := string_of_list_ascii (strip_chars found);
                Project.description :=
                  if (100 <? String.length line)%nat
                  then string_of_list_ascii (firstn 100 (chars line)) ++ "..."
                  else line |}
    | None => None
    end
  else None.

Definition extract_projects (resume_text : string) : list Project.t :=
  let text_lines := split_lines resume_text in
  let section := project_section text_lines false in
  let section :=
    match section with
    | [] => indicator_lines text_lines
    | _ :: _ => section
    end in
  flat_map (fun line => match project_of_line line with
                        | Some project => [project]
                        | None => []
                        end)
           (firstn 5 section).

(** The [education] entry as the scorers read it. *)
Definition education_view (info : EducationInfo.t) : Education.t :=
  {| Education.level := Some (EducationInfo.level info);
     Education.summary := Some (EducationInfo.summary info) |}.

Definition parse_resume (resume_text : string) : Resume.t :=
  let skills := extract_skills resume_text in
  let education := extract_education resume_text in
  let years_exp := extract_years_of_experience resume_text in
  let projects := extract_projects resume_text in
  {| Resume.skills := Some skills;
     Resume.education := Some (education_view education);
     Resume.years_of_experience := Some years_exp;
     Resume.projects := Some projects;
     Resume.full_text := Some resume_text |}.

End ResumeAnalyzer.

(** ** Exceptions *)

Inductive exn : Type :=
| ValueError : string -> exn
| IndexError : exn.

Inductive result (A : Type) : Type :=
| Ok : A -> result A
| Raise : exn -> result A.

Arguments Ok {A} _.
Arguments Raise {A} _.

Definition bind (A B : Type) (m : result A) (f : A -> result B) : result B :=
  match m with
  | Ok a => f a
  | Raise e => Raise e
  end.

(** [l[i]] for a Python list and an integer that may be negative *)
Definition py_index (A : Type) (l : list A) (i : Z) : result A :=
  let n := Z.of_nat (List.length l) in
  let j := if (i <? 0)%Z then (i + n)%Z else i in
  if ((0 <=? j)%Z && (j <? n)%Z)%bool then
    match nth_error l (Z.to_nat j) with
    | Some x => Ok x
    | None => Raise IndexError
    end
  else Raise IndexError.

(** ** [utils/embeddings.py]: class [JobMatcher] *)

(** The profile dict handed to [find_matching_jobs]. *)
Module Profile.
Record t : Type := {
  title : option string;
  skills : option string;
  experience : option string
}.
End Profile.

Module JobMatcher.

Local Open Scope string_scope.

Definition not_built : exn :=
  ValueError "Index not built. Call build_job_index() first.".

Section WithModel.

(** The sentence-transformer and the FAISS index are external: [encode] is
    [model.encode], [index_of] builds an [IndexFlatL2] holding the given
    vectors, and [index_search ix v k] is the list
    [zip(indices[0], distances[0])] of [ix.search([v], k)]. *)
Variables Vec Index : Type.
Variable encode : string -> Vec.
Variable index_of : list Vec -> Index.
Variable index_search : Index -> Vec -> nat -> list (Z * Q).

(** The attributes [self.index] and [self.jobs]. *)
Record t : Type := {
  index : option Index;
  jobs : list Job.t
}.

(** The state after [__init__] *)
Definition init : t := {| index := None; jobs := [] |}.

Definition create_job_embedding (job : Job.t) : Vec :=
  encode (Job.title job ++ " " ++ Job.company job ++ " "
          ++ Job.description job ++ " " ++ Job.requirements job).

Definition create_profile_embedding (profile : Profile.t) : Vec :=
  encode (get_or (Profile.title profile) "" ++ " "
          ++ get_or (Profile.skills profile) "" ++ " "
          ++ get_or (Profile.experience profile) "").

(** The error of [self.index.add(embeddings)] for an empty list of jobs:
    [np.array([])] has a single dimension, and [add] unpacks the shape of
    its argument into [n, d]. *)
Definition add_rejected : exn :=
  ValueError "not enough values to unpack (expected 2, got 1)".

(** The matcher after the call, and what the call returns: [self.index], or
    the exception.  [self.jobs] and [self.index] are assigned before
    [self.index.add(embeddings)]; with no job the index is still the empty
    [IndexFlatL2] when [add] raises. *)
Definition build_job_index (self : t) (new_jobs : list Job.t)
  : t * result Index :=
  let embeddings := map create_job_embedding new_jobs in
  match embeddings with
  | [] =>
      ({| index := Some (index_of []); jobs := new_jobs |}, Raise add_rejected)
  | _ :: _ =>
      let ix := index_of embeddings in
      ({| index := Some ix; jobs := new_jobs |}, Ok ix)
  end.

(** The loop over [zip(indices[0], distances[0])]. *)
Fixpoint collect_results (stored : list Job.t) (hits : list (Z * Q))
  : result (list (Job.t * Q)) :=
  match hits with
  | [] => Ok []
  | (idx, distance) :: rest =>
      if (idx <? Z.of_nat (List.length stored))%Z then
        bind (py_index stored idx) (fun job =>
        bind (collect_results stored rest) (fun results =>
        Ok ((job, 1 / (1 + distance)) :: results)))
      else collect_results stored rest
  end.

Definition find_matching_jobs (self : t) (profile : Profile.t) (top_k : nat)
  : result (list (Job.t * Q)) :=
  match index self, jobs self with
  | None, _ => Raise not_built
  | Some _, [] => Raise not_built
  | Some ix, _ :: _ =>
      let profile_emb := create_profile_embedding profile in
      collect_results (jobs self)
        (index_search ix profile_emb (Nat.min top_k (List.length (jobs self))))
  end.

End WithModel.

End JobMatcher.

(** ** [app.py]: the matching loop of [show_job_results] *)

Module App.

Import PyStr.
Local Open Scope Q_scope.

(** One element of [matches]: [(job, final_score, breakdown)]. *)
Definition scored : Type := (Job.t * Q * Detailed.t)%type.

Definition score_of (m : scored) : Q := snd (fst m).
Definition job_of (m : scored) : Job.t := fst (fst m).

(** [role.lower() in job['title'].lower()] for some selected role *)
Definition role_matches (selected_roles : list string) (job : Job.t) : bool :=
  existsb (fun role => contains (lower role) (lower (Job.title job)))
          selected_roles.

Definition filter_jobs (selected_roles : list string) (jobs : list Job.t)
  : list Job.t :=
  filter (role_matches selected_roles) jobs.

(** The search for this job's score among the semantic results, from the
    default 0.5. *)
Fixpoint lookup_semantic (ml_matches : list (Job.t * Q)) (job : Job.t) : Q :=
  match ml_matches with
  | [] => 0.5
  | (matched_job, score) :: rest =>
      if (Job.id matched_job =? Job.id job)%Z then score
      else lookup_semantic rest job
  end.

(** [matches.sort(key=lambda x: x[1], reverse=True)]: a stable sort, the
    larger score first. *)
Fixpoint insert_desc (x : scored) (l : list scored) : list scored :=
  match l with
  | [] => [x]
  | y :: l' =>
      if Qle_bool (score_of y) (score_of x) then x :: l
      else y :: insert_desc x l'
  end.

Definition sort_desc (l : list scored) : list scored :=
  fold_right insert_desc [] l.

(** The order of the sorted list: no later score is larger. *)
Definition by_score_desc (a b : scored) : Prop := score_of b <= score_of a.

Section WithModel.

Variables Vec Index : Type.
Variable encode : string -> Vec.
Variable index_of : list Vec -> Index.
Variable index_search : Index -> Vec -> nat -> list (Z * Q).

Local Abbreviation matcher := (JobMatcher.t Index).

(** The part of [st.session_state] the loop reads and writes. *)
Record session : Type := {
  job_matcher : option matcher;
  selected_roles : list string;
  parsed_resume_data : Resume.t
}.

(** [matcher = JobMatcher(); matcher.build_job_index(jobs); return matcher]:
    an exception of [build_job_index] is not caught. *)
Definition initialize_matcher (jobs : list Job.t) : result matcher :=
  let built :=
    JobMatcher.build_job_index encode index_of (JobMatcher.init Index) jobs in
  bind (snd built) (fun _ => Ok (fst built)).

(** The [profile] dict built in the loop; it is the same for every job. *)
Definition profile_of (st : session) : Profile.t :=
  let resume_data := parsed_resume_data st in
  {| Profile.title := Some (join (selected_roles st));
     Profile.skills := Some (join (get_or (Resume.skills resume_data) []));
     Profile.experience :=
       Some (get_or (Resume.full_text resume_data) ""%string) |}.

(** Steps 1 to 3 of the loop body once the semantic results are there. *)
Definition scored_entry (resume_data : Resume.t) (ml_matches : list (Job.t * Q))
    (job : Job.t) : scored :=
  let ml_semantic_score := lookup_semantic ml_matches job in
  let smart_score_result :=
    ResumeAnalyzer.calculate_smart_score resume_data job ml_semantic_score in
  let final_score := Smart.final_score smart_score_result in
  let breakdown := ResumeAnalyzer.calculate_detailed_breakdown resume_data job in
  let breakdown :=
    {| Detailed.overall := final_score;
       Detailed.skills := Detailed.skills breakdown;
       Detailed.education := Detailed.education breakdown;
       Detailed.experience := Detailed.experience breakdown;
       Detailed.projects := Detailed.projects breakdown;
       Detailed.smart_score := Some smart_score_result |} in
  (job, final_score, breakdown).

(** The body of the loop [for job in filtered_jobs]. *)
Definition score_job (m : matcher) (st : session) (n_filtered : nat)
    (job : Job.t) : result scored :=
  bind (JobMatcher.find_matching_jobs encode index_search m (profile_of st)
          n_filtered)
    (fun ml_matches => Ok (scored_entry (parsed_resume_data st) ml_matches job)).

Fixpoint score_all (m : matcher) (st : session) (n_filtered : nat)
    (filtered_jobs : list Job.t) : result (list scored) :=
  match filtered_jobs with
  | [] => Ok []
  | job :: rest =>
      bind (score_job m st n_filtered job) (fun x =>
      bind (score_all m st n_filtered rest) (fun xs => Ok (x :: xs)))
  end.

(** The matcher of the session, built over the whole catalog when the
    session has none yet; building may raise. *)
Definition matcher_of (st : session) (jobs : list Job.t) : result matcher :=
  match job_matcher st with
  | Some m => Ok m
  | None => initialize_matcher jobs
  end.

(** [show_job_results] up to the sorted list [matches]: the session after
    the call, and the list (empty on the early return).  When
    [initialize_matcher] raises, nothing has been assigned to
    [st.session_state.job_matcher] and the roles are not looked at. *)
Definition show_job_results (st : session) (jobs : list Job.t)
  : session * result (list scored) :=
  match matcher_of st jobs with
  | Raise e => (st, Raise e)
  | Ok m =>
      let st' := {| job_matcher := Some m;
                    selected_roles := selected_roles st;
                    parsed_resume_data := parsed_resume_data st |} in
      let filtered_jobs := filter_jobs (selected_roles st) jobs in
      match filtered_jobs with
      | [] => (st', Ok [])
      | _ :: _ =>
          (st', bind (score_all m st (List.length filtered_jobs) filtered_jobs)
                     (fun matches => Ok (sort_desc matches)))
      end
  end.

End WithModel.

End App.

(** ** [app.py]: the role selection of [show_role_selection] *)

Module RoleSelection.

Import PyStr.
Local Open Scope string_scope.

(** [config.JOB_ROLES] *)
Definition JOB_ROLES : list string := [
  "Machine Learning Engineer"; "ML Engineer"; "Software Engineer";
  "Senior Software Engineer"; "Data Scientist"; "Senior Data Scientist";
  "Frontend Developer"; "Backend Developer"; "Full Stack Developer";
  "DevOps Engineer"; "Data Engineer"; "AI/ML Researcher";
  "Product Manager - Tech"; "Cloud Engineer";
  "Mobile Developer (iOS/Android)" ].

(** The roles shown for a search query; an empty query shows all. *)
Definition filter_roles (search_query : string) : list string :=
  match search_query with
  | EmptyString => JOB_ROLES
  | String _ _ =>
      filter (fun role => contains (lower search_query) (lower role)) JOB_ROLES
  end.

(** [l.remove(x)]: the first occurrence goes (the code calls it only when
    [x in l]). *)
Fixpoint remove_first (x : string) (l : list string) : list string :=
  match l with
  | [] => []
  | y :: rest => if String.eqb x y then rest else y :: remove_first x rest
  end.

(** One round of the checkbox loop: [checked] is what [st.checkbox]
    returns for the role. *)
Definition checkbox_step (checked : bool) (role : string)
    (selected_roles : list string) : list string :=
  if checked then
    if mem role selected_roles then selected_roles
    else selected_roles ++ [role]
  else
    if mem role selected_roles then remove_first role selected_roles
    else selected_roles.

(** The loop [for idx, role in enumerate(filtered_roles)] on
    [st.session_state.selected_roles]. *)
Definition sync_roles (checkbox : string -> bool)
    (filtered_roles selected_roles : list string) : list string :=
  fold_left (fun selected role => checkbox_step (checkbox role) role selected)
            filtered_roles selected_roles.

End RoleSelection.

(** ** [utils/resume_parser.py]: class [ResumeParser] *)

Module ResumeParser.

Import PyStr.
Local Open Scope string_scope.

(** An uploaded file, as the code sees it: its name, and what the three
    readers give for it, each either the text of the exception it raises
    ([str(e)]) or its result: the texts of the pages of [PyPDF2.PdfReader],
    the texts of the paragraphs of [docx.Document], the decoded content of
    [file.read()]. *)
Record file : Type := {
  name : string;
  pdf_pages : sum string (list string);
  docx_paragraphs : sum string (list string);
  txt_content : sum string string
}.

(** [s.endswith(suffix)] *)
Fixpoint endswith (suffix s : string) : bool :=
  String.eqb suffix s ||
  match s with
  | EmptyString => false
  | String _ s' => endswith suffix s'
  end.

Definition extract_text_from_pdf (f : file) : result string :=
  match pdf_pages f with
  | inr pages => Ok (strip (String.concat "" pages))
  | inl e => Raise (ValueError ("Error parsing PDF: " ++ e))
  end.

Definition extract_text_from_docx (f : file) : result string :=
  match docx_paragraphs f with
  | inr paragraphs => Ok (strip (String.concat (String newline "") paragraphs))
  | inl e => Raise (ValueError ("Error parsing DOCX: " ++ e))
  end.

Definition extract_text_from_txt (f : file) : result string :=
  match txt_content f with
  | inr content => Ok (strip content)
  | inl e => Raise (ValueError ("Error parsing TXT: " ++ e))
  end.

Definition unsupported : exn :=
  ValueError "Unsupported file format. Please upload PDF, DOCX, or TXT file.".

Definition parse_resume (f : file) : result string :=
  let filename := lower (name f) in
  if endswith ".pdf" filename then extract_text_from_pdf f
  else if endswith ".docx" filename then extract_text_from_docx f
  else if endswith ".txt" filename then extract_text_from_txt f
  else Raise unsupported.

End ResumeParser.

(** ** [utils/claude_helper.py]: the reply of [optimize_resume_with_diff] *)

Module ClaudeAssistant.

Import PyStr.
Local Open Scope string_scope.

(** The dict returned by [optimize_resume_with_diff]. *)
Record optimized : Type := {
  optimized_resume : string;
  changes : list string;
  success : bool;
  error : option string
}.

Definition changes_marker : string := "### CHANGES MADE:".

(** The text before the first occurrence of [sep] and the text after it. *)
Fixpoint split_once (sep : string) (s : list ascii)
  : option (list ascii * list ascii) :=
  if String.prefix sep (string_of_list_ascii s)
  then Some ([], skipn (String.length sep) s)
  else
    match s with
    | [] => None
    | c :: s' =>
        match split_once sep s' with
        | Some (before, after) => Some (c :: before, after)
        | None => None
        end
    end.

(** [line.startswith(p)] *)
Definition startswith (p : string) (line : list ascii) : bool :=
  String.prefix p (string_of_list_ascii line).

(** The bullet (U+2022) as its UTF-8 bytes. *)
Definition bullet : string := ResumeAnalyzer.bullet.

(** The loop over the lines of the changes section. *)
Definition change_of_line (line : list ascii) : list string :=
  let line := strip_chars line in
  if startswith "-" line then
    [string_of_list_ascii (strip_chars (skipn 1 line))]
  else if startswith bullet line then
    [string_of_list_ascii (strip_chars (skipn 3 line))]
  else
    match line with
    | [] => []
    | _ :: _ => if startswith "#" line then [] else [string_of_list_ascii line]
    end.

(** What [optimize_resume_with_diff] returns, given the outcome of
    [self.client.messages.create(...)]: the text of the reply, or the text
    of the exception. *)
Definition optimize_resume_with_diff (reply : sum string string) : optimized :=
  match reply with
  | inr response_text =>
      match split_once changes_marker (chars response_text) with
      | Some (part0, rest) =>
          let part1 :=
            match split_once changes_marker rest with
            | Some (before, _) => before
            | None => rest
            end in
          let optimized_text := strip_chars part0 in
          let changes_section := strip_chars part1 in
          let found := flat_map change_of_line (split_chars newline changes_section) in
          {| optimized_resume := string_of_list_ascii optimized_text;
             changes := firstn 7 found;
             success := true;
             error := None |}
      | None =>
          {| optimized_resume := response_text;
             changes := ["Resume optimized for this position"];
             success := true;
             error := None |}
      end
  | inl e =>
      {| optimized_resume := ""; changes := []; success := false;
         error := Some e |}
  end.

End ClaudeAssistant.

(** ** The ladder and the parse of the specification *)

(** The experience policy and the "first integer found" of the
    specification, written from its words, to be compared with the scorer. *)
Module Spec.

Import PyStr.
Local Open Scope Q_scope.

Fixpoint take_digits (s : list ascii) : list ascii :=
  match s with
  | c :: s' => if is_digit c then c :: take_digits s' else []
  | [] => []
  end.

Fixpoint drop_digits (s : list ascii) : list ascii :=
  match s with
  | c :: s' => if is_digit c then drop_digits s' else s
  | [] => []
  end.

(** The first maximal run of digits of a text, if it has a digit. *)
Fixpoint first_digits (s : list ascii) : option (list ascii) :=
  match s with
  | [] => None
  | c :: s' => if is_digit c then Some (c :: take_digits s') else first_digits s'
  end.

Definition first_integer (s : string) : option Z :=
  option_map int_of_digits (first_digits (chars s)).

(** Required years: the first integer of the experience string, 0 when the
    job has no such string or the string has no integer. *)
Definition required (job : Job.t) : Q :=
  match Job.experience job with
  | Some s => inject_Z (get_or (first_integer s) 0%Z)
  | None => 0
  end.

(** The character before the position reached after reading [a], when the
    character before [a] is [prev]. *)
Definition last_char (prev : option ascii) (a : list ascii) : option ascii :=
  fold_left (fun _ c => Some c) a prev.

Definition is_word_opt (c : option ascii) : bool :=
  match c with
  | Some x => is_word x
  | None => false
  end.

(** A skill whose lower-case form starts and ends with a word character. *)
Definition word_shaped (skill : string) : bool :=
  match chars (lower skill) with
  | [] => false
  | c :: r => is_word c && is_word_opt (last_char (Some c) r)
  end.

(** [occurs_as_word skill text a b]: the lower-cased text is [a], the
    lower-cased skill, then [b], with no word character right before or
    right after the skill. *)
Definition occurs_as_word (skill text : string) (a b : list ascii) : Prop :=
  chars (lower text) = a ++ chars (lower skill) ++ b
  /\ is_word_opt (last_char None a) = false
  /\ is_word_opt (hd_error b) = false.

(** No string occurs twice in the list. *)
Fixpoint nodupb (l : list string) : bool :=
  match l with
  | [] => true
  | x :: r => negb (mem x r) && nodupb r
  end.

(** A text that neither starts nor ends with white space. *)
Definition no_outer_space (s : list ascii) : bool :=
  match s with
  | [] => true
  | c :: r => negb (is_space c) && negb (is_space (last r c))
  end.

(** Some tier keyword of the education ranking occurs in the job's
    [education_required] text (lower-cased; empty when the job has none). *)
Definition tier_keyword_detected (job : Job.t) : bool :=
  existsb
    (fun kv => contains (fst kv)
                 (lower (get_or (Job.education_required job) ""%string)))
    ResumeAnalyzer.edu_hierarchy.

Definition experience_ladder (required candidate : Q) : Q :=
  if Qeq_dec required 0 then 0.8
  else if Qlt_le_dec candidate required then
    if Qlt_le_dec candidate (0.7 * required) then
      if Qlt_le_dec candidate (0.5 * required) then
        Qmin (candidate / Qmax required 1) 1
      else 0.65
    else 0.85
  else 1.

End Spec.

(** ** Properties *)

Definition in_unit (x : Q) : Prop := 0 <= x /\ x <= 1.

Definition breakdown_in_unit (b : Breakdown.t) : Prop :=
  in_unit (Breakdown.exact_skills b) /\ in_unit (Breakdown.related_skills b) /\
  in_unit (Breakdown.experience b) /\ in_unit (Breakdown.education b) /\
  in_unit (Breakdown.projects b) /\ in_unit (Breakdown.semantic b).

(** Sample records used by the examples below. *)
Definition backend_job : Job.t :=
  {| Job.id := 1; Job.title := "Backend Developer"; Job.company := "";
     Job.description := ""; Job.requirements := "Python SQL Docker";
     Job.experience := Some "3+"%string; Job.education_required := None;
     Job.projects_required := None |}.

Definition resume_of (skills : list string) (level : string) (years : Q)
    (projects : list Project.t) : Resume.t :=
  {| Resume.skills := Some skills;
     Resume.education :=
       Some {| Education.level := Some level; Education.summary := None |};
     Resume.years_of_experience := Some years;
     Resume.projects := Some projects;
     Resume.full_text := None |}.

Definition python_sql_resume : Resume.t :=
  {| Resume.skills := Some ["Python"; "SQL"]%string; Resume.education := None;
     Resume.years_of_experience := Some 5; Resume.projects := None;
     Resume.full_text := None |}.

(** A job that asks for ten years, a doctorate and a portfolio. *)
Definition senior_job : Job.t :=
  {| Job.id := 2; Job.title := "Senior Data Scientist"; Job.company := "";
     Job.description := ""; Job.requirements := "Python";
     Job.experience := Some "10+ years"%string;
     Job.education_required := Some "PhD"%string;
     Job.projects_required := Some "Portfolio of projects"%string |}.

(** Another posting that asks for the same as [senior_job]. *)
Definition staff_job : Job.t :=
  {| Job.id := 3; Job.title := "Staff Data Scientist"; Job.company := "";
     Job.description := ""; Job.requirements := "Python";
     Job.experience := Some "10+ years"%string;
     Job.education_required := Some "PhD"%string;
     Job.projects_required := Some "Portfolio of projects"%string |}.

(** A toy model of the external parts: texts are their own vectors, an
    index is the list of its vectors, and a search returns the first [k]
    positions at distance 1. *)
Definition toy_encode (text : string) : string := text.
Definition toy_index_of (vs : list string) : list string := vs.
Definition toy_search (ix : list string) (v : string) (k : nat) : list (Z * Q) :=
  map (fun i => (Z.of_nat i, 1)) (seq 0 (Nat.min k (List.length ix))).

Definition toy_session : App.session (list string) :=
  {| App.job_matcher := None;
     App.selected_roles := ["developer"; "scientist"]%string;
     App.parsed_resume_data := python_sql_resume |}.

(** A search whose distances differ: position [i] is at distance [3 * i]. *)
Definition toy_search_spread (ix : list string) (v : string) (k : nat)
  : list (Z * Q) :=
  map (fun i => (Z.of_nat i, inject_Z (3 * Z.of_nat i)))
      (seq 0 (Nat.min k (List.length ix))).

(** A search that finds nothing and answers with the label -1. *)
Definition toy_search_none (ix : list string) (v : string) (k : nat)
  : list (Z * Q) := [((-1)%Z, 3)].

(** The same resume with another [years_of_experience] entry. *)
Definition with_years (r : Resume.t) (y : option Q) : Resume.t :=
  {| Resume.skills := Resume.skills r;
     Resume.education := Resume.education r;
     Resume.years_of_experience := y;
     Resume.projects := Resume.projects r;
     Resume.full_text := Resume.full_text r |}.

(** A resume dict without any key. *)
Definition empty_resume : Resume.t :=
  {| Resume.skills := None; Resume.education := None;
     Resume.years_of_experience := None; Resume.projects := None;
     Resume.full_text := None |}.

(** The same resume with another [education] entry. *)
Definition with_education (r : Resume.t) (e : option Education.t) : Resume.t :=
  {| Resume.skills := Resume.skills r;
     Resume.education := e;
     Resume.years_of_experience := Resume.years_of_experience r;
     Resume.projects := Resume.projects r;
     Resume.full_text := Resume.full_text r |}.

Section Arithmetic.

Local Open Scope Q_scope.

Lemma Qge_bool_iff (x y : Q) : ResumeAnalyzer.Qge_bool x y = true <-> y <= x.
Proof. unfold ResumeAnalyzer.Qge_bool. apply Qle_bool_iff. Qed.

Lemma Qge_bool_false (x y : Q) : ResumeAnalyzer.Qge_bool x y = false -> x < y.
Proof.
  intros H. apply Qnot_le_lt. intros Hle.
  apply Qge_bool_iff in Hle. congruence.
Qed.

Lemma Qnat_nonneg (n : nat) : 0 <= ResumeAnalyzer.Qnat n.
Proof.
  unfold ResumeAnalyzer.Qnat, Qle. simpl. lia.
Qed.

Lemma Qmax_1_pos (x : Q) : 0 < Qmax x 1.
Proof.
  apply Qlt_le_trans with 1; [reflexivity | apply Q.le_max_r].
Qed.

Lemma Qdiv_max1_nonneg (a x : Q) : 0 <= a -> 0 <= a / Qmax x 1.
Proof.
  intros Ha. apply Qle_shift_div_l; [apply Qmax_1_pos | ].
  rewrite Qmult_0_l. exact Ha.
Qed.

Lemma Qmin1_unit (x : Q) : 0 <= x -> in_unit (Qmin x 1).
Proof.
  intros Hx. split.
  - apply Q.min_glb; [exact Hx | discriminate].
  - apply Q.le_min_r.
Qed.

Lemma ratio_unit (n : nat) (x : Q) :
  in_unit (Qmin (ResumeAnalyzer.Qnat n / Qmax x 1) 1).
Proof. apply Qmin1_unit, Qdiv_max1_nonneg, Qnat_nonneg. Qed.

End Arithmetic.

(** *** The experience ladder *)

Section Experience.

Import ResumeAnalyzer.
Local Open Scope Q_scope.

Lemma int_of_digits_from_nonneg (ds : list ascii) (acc : Z) :
  (0 <= acc)%Z ->
  (0 <= fold_left (fun a c => 10 * a + PyStr.digit_val c) ds acc)%Z.
Proof.
  revert acc. induction ds as [|d ds IH]; intros acc Hacc.
  - exact Hacc.
  - change (0 <= fold_left (fun a c => 10 * a + PyStr.digit_val c) ds
                   (10 * acc + PyStr.digit_val d))%Z.
    apply IH. unfold PyStr.digit_val. lia.
Qed.

Lemma int_of_digits_nonneg (ds : list ascii) : (0 <= PyStr.int_of_digits ds)%Z.
Proof. apply int_of_digits_from_nonneg. lia. Qed.

Lemma required_years_int_nonneg (job : Job.t) : (0 <= required_years_int job)%Z.
Proof.
  unfold required_years_int.
  destruct (Re.findall0 _ _); [lia | apply int_of_digits_nonneg].
Qed.

(** A required number of years is 0 or at least 1. *)
Lemma required_years_cases (job : Job.t) :
  required_years job == 0 \/ 1 <= required_years job.
Proof.
  unfold required_years.
  pose proof (required_years_int_nonneg job) as H.
  destruct (Z.eq_dec (required_years_int job) 0) as [E|E].
  - left. rewrite E. reflexivity.
  - right. unfold Qle. simpl. lia.
Qed.

Lemma smart_experience_unit (r c : Q) :
  0 <= c -> in_unit (smart_experience_score r c).
Proof.
  intros Hc. unfold smart_experience_score.
  apply Qmin1_unit.
  destruct (Qeq_bool r 0); [discriminate | ].
  destruct (Qge_bool c r); [discriminate | ].
  destruct (Qge_bool c (r * 0.7)); [discriminate | ].
  destruct (Qge_bool c (r * 0.5)); [discriminate | ].
  apply Qdiv_max1_nonneg, Hc.
Qed.

Lemma low_ratio_bound (r c : Q) :
  1 <= r -> c < r * 0.5 -> c / Qmax r 1 <= 0.5.
Proof.
  intros Hr Hc.
  apply Qle_shift_div_r; [apply Qmax_1_pos | ].
  rewrite (Q.max_l r 1 Hr). lra.
Qed.

Lemma ratio_monotone (r a b : Q) : a <= b -> a / Qmax r 1 <= b / Qmax r 1.
Proof.
  intros Hab. unfold Qdiv.
  apply Qmult_le_compat_r; [exact Hab | ].
  apply Qlt_le_weak, Qinv_lt_0_compat, Qmax_1_pos.
Qed.

Lemma smart_experience_monotone (r a b : Q) :
  r == 0 \/ 1 <= r -> a <= b ->
  smart_experience_score r a <= smart_experience_score r b.
Proof.
  intros Hr Hab. unfold smart_experience_score.
  apply Q.min_le_compat_r.
  destruct (Qeq_bool r 0) eqn:E0; [apply Qle_refl | ].
  destruct Hr as [Hr|Hr].
  { apply Qeq_bool_iff in Hr. congruence. }
  destruct (Qge_bool b r) eqn:Eb1.
  { destruct (Qge_bool a r); [apply Qle_refl | ].
    destruct (Qge_bool a (r * 0.7)); [discriminate | ].
    destruct (Qge_bool a (r * 0.5)) eqn:Ea3; [discriminate | ].
    apply Qge_bool_false in Ea3.
    pose proof (low_ratio_bound Hr Ea3). lra. }
  apply Qge_bool_false in Eb1.
  destruct (Qge_bool a r) eqn:Ea1.
  { apply Qge_bool_iff in Ea1. lra. }
  destruct (Qge_bool b (r * 0.7)) eqn:Eb2.
  { destruct (Qge_bool a (r * 0.7)); [apply Qle_refl | ].
    destruct (Qge_bool a (r * 0.5)) eqn:Ea3; [discriminate | ].
    apply Qge_bool_false in Ea3.
    pose proof (low_ratio_bound Hr Ea3). lra. }
  apply Qge_bool_false in Eb2.
  destruct (Qge_bool a (r * 0.7)) eqn:Ea2.
  { apply Qge_bool_iff in Ea2. lra. }
  destruct (Qge_bool b (r * 0.5)) eqn:Eb3.
  { destruct (Qge_bool a (r * 0.5)) eqn:Ea3; [apply Qle_refl | ].
    apply Qge_bool_false in Ea3.
    pose proof (low_ratio_bound Hr Ea3). lra. }
  apply Qge_bool_false in Eb3.
  destruct (Qge_bool a (r * 0.5)) eqn:Ea3.
  { apply Qge_bool_iff in Ea3. lra. }
  apply ratio_monotone, Hab.
Qed.

End Experience.

(** *** Bounds of the smart score *)

Section SmartScoreBounds.

Import ResumeAnalyzer.
Local Open Scope Q_scope.

Lemma smart_education_unit (cl rl : Z) : in_unit (smart_education_score cl rl).
Proof.
  unfold smart_education_score.
  destruct (rl =? 0)%Z; [split; discriminate | ].
  destruct (cl >=? rl)%Z; [split; discriminate | ].
  destruct (cl =? rl - 1)%Z; split; discriminate.
Qed.

Lemma project_count_unit (A : Type) (l : list A) :
  in_unit (Qmin (Qnat (List.length l) / 2) 1).
Proof.
  apply Qmin1_unit. apply Qle_shift_div_l; [reflexivity | ].
  rewrite Qmult_0_l. apply Qnat_nonneg.
Qed.

(** The final score never exceeds 1, whatever the inputs. *)
Lemma final_score_capped (resume_data : Resume.t) (job : Job.t) (sem : Q) :
  Smart.final_score (calculate_smart_score resume_data job sem) <= 1.
Proof.
  unfold calculate_smart_score. cbn [Smart.final_score].
  apply Q.le_min_r.
Qed.

(** A weighted sum of scores in the unit interval is not negative. *)
Lemma blend_nonneg (ex re xp se ed pr we wp : Q) :
  0 <= ex -> 0 <= re -> 0 <= xp -> 0 <= se -> 0 <= ed -> 0 <= pr ->
  (we == 0.05 \/ we == 0) -> (wp == 0.05 \/ wp == 0) ->
  0 <= ex * 0.25 + re * 0.15 + xp * 0.40 + se * 0.20 + (ed * we + pr * wp).
Proof.
  intros Hex Hre Hxp Hse Hed Hpr [Hwe|Hwe] [Hwp|Hwp];
    rewrite Hwe, Hwp; lra.
Qed.

(** C1 (amended): for a profile whose years of experience are not negative
    and a semantic score in [0,1], every component score of the breakdown of
    [calculate_smart_score] lies in [0,1], and so does [final_score]. *)
Theorem smart_score_in_unit (resume_data : Resume.t) (job : Job.t) (sem : Q) :
  0 <= candidate_years resume_data -> 0 <= sem -> sem <= 1 ->
  breakdown_in_unit (Smart.breakdown (calculate_smart_score resume_data job sem))
  /\ in_unit (Smart.final_score (calculate_smart_score resume_data job sem)).
Proof.
  intros Hyears Hsem0 Hsem1.
  assert (Hex := ratio_unit
    (count_exact (map PyStr.lower (get_or (Resume.skills resume_data) []))
                 (PyStr.lower (Job.requirements job)))
    (Qnat (total_skills (map PyStr.lower (get_or (Resume.skills resume_data) [])))
     * 0.5)).
  assert (Hre := ratio_unit
    (count_related (map PyStr.lower (get_or (Resume.skills resume_data) []))
                   (PyStr.lower (Job.requirements job)))
    (Qnat (total_skills (map PyStr.lower (get_or (Resume.skills resume_data) [])))
     * 0.3)).
  assert (Hxp := smart_experience_unit (required_years job) Hyears).
  assert (Hed := smart_education_unit (candidate_level resume_data)
                                      (required_level job)).
  assert (Hpr : in_unit
    (if asks_for_projects job then
       match get_or (Resume.projects resume_data) [] with
       | [] => 0.4
       | _ :: _ =>
           Qmin (Qnat (List.length (get_or (Resume.projects resume_data) [])) / 2) 1
       end
     else 0.7)).
  { destruct (asks_for_projects job); [ | split; discriminate].
    destruct (get_or (Resume.projects resume_data) []) as [|p ps] eqn:E;
      [split; discriminate | ].
    apply project_count_unit. }
  unfold calculate_smart_score, breakdown_in_unit.
  cbn [Smart.breakdown Smart.final_score Breakdown.exact_skills
       Breakdown.related_skills Breakdown.experience Breakdown.education
       Breakdown.projects Breakdown.semantic].
  repeat split; try apply Hex; try apply Hre; try apply Hxp; try apply Hed;
    try apply Hpr; try assumption.
  - apply Q.min_glb; [ | discriminate].
    apply blend_nonneg; try apply Hex; try apply Hre; try apply Hxp;
      try apply Hed; try apply Hpr; try assumption.
    + destruct (required_level job >? 0)%Z; [left | right]; reflexivity.
    + destruct (asks_for_projects job); [left | right]; reflexivity.
  - apply Q.le_min_r.
Qed.

(** The hypotheses hold for the sample resume, job and a score of 1/2. *)
Lemma smart_score_in_unit_witness :
  breakdown_in_unit
    (Smart.breakdown (calculate_smart_score python_sql_resume backend_job 0.5))
  /\ in_unit (Smart.final_score
                (calculate_smart_score python_sql_resume backend_job 0.5)).
Proof.
  apply (@smart_score_in_unit python_sql_resume backend_job 0.5);
    vm_compute; discriminate.
Defined.

(** The semantic score is copied into the breakdown unchanged: with 2 the
    semantic component is 2, and with -10 the final score is negative. *)
Lemma smart_score_not_in_unit :
  ~ breakdown_in_unit
      (Smart.breakdown (calculate_smart_score python_sql_resume backend_job 2))
  /\ ~ in_unit
      (Smart.final_score (calculate_smart_score python_sql_resume backend_job (-10))).
Proof.
  split.
  - intros (_ & _ & _ & _ & _ & _ & H). vm_compute in H. apply H. reflexivity.
  - intros [H _]. vm_compute in H. apply H. reflexivity.
Qed.

(** Years of experience below zero give a negative experience score. *)
Lemma negative_years_negative_score :
  Breakdown.experience
    (Smart.breakdown
       (calculate_smart_score (resume_of [] "" (-3) []) senior_job 0.5)) < 0.
Proof. vm_compute. reflexivity. Qed.

(** With every sub-score at 1 and both conditional weights applied the
    weighted sum is 1.10, and the final score is 1. *)
Lemma smart_score_saturates :
  let r := calculate_smart_score
             (resume_of ["Python"]%string "PhD" 12
                [ {| Project.title := "a"; Project.description := "a" |};
                  {| Project.title := "b"; Project.description := "b" |} ])
             senior_job 1 in
  Breakdown.exact_skills (Smart.breakdown r) == 1 /\
  Breakdown.related_skills (Smart.breakdown r) == 1 /\
  Breakdown.experience (Smart.breakdown r) == 1 /\
  Breakdown.education (Smart.breakdown r) == 1 /\
  Breakdown.projects (Smart.breakdown r) == 1 /\
  Breakdown.semantic (Smart.breakdown r) == 1 /\
  Weights.education (Smart.weights r) == 0.05 /\
  Weights.projects (Smart.weights r) == 0.05 /\
  Smart.final_score r == 1.
Proof. vm_compute. repeat split. Qed.

End SmartScoreBounds.

(** *** Conditional weights, the two ladders, monotonicity *)

Section Ladders.

Import ResumeAnalyzer.
Local Open Scope Q_scope.

Lemma edu_fold_ge (text : string) (l : list (string * Z)) (acc : Z) :
  (acc <= fold_left (fun lvl kv => if PyStr.contains (fst kv) text
                                   then Z.max lvl (snd kv) else lvl) l acc)%Z.
Proof.
  revert acc. induction l as [|kv l IH]; intros acc; cbn [fold_left].
  - lia.
  - destruct (PyStr.contains (fst kv) text).
    + apply Z.le_trans with (Z.max acc (snd kv)); [lia | apply IH].
    + apply IH.
Qed.

Lemma edu_fold_zero (text : string) (l : list (string * Z)) (acc : Z) :
  (0 <= acc)%Z -> Forall (fun kv => 0 < snd kv)%Z l ->
  (fold_left (fun lvl kv => if PyStr.contains (fst kv) text
                            then Z.max lvl (snd kv) else lvl) l acc = 0%Z
   <-> acc = 0%Z /\ existsb (fun kv => PyStr.contains (fst kv) text) l = false).
Proof.
  revert acc. induction l as [|kv l IH]; intros acc Hacc Hpos;
    cbn [fold_left existsb].
  - tauto.
  - inversion Hpos as [|? ? Hkv Hl]; subst.
    destruct (PyStr.contains (fst kv) text) eqn:E; cbn [orb].
    + split.
      * intros H. pose proof (edu_fold_ge text l (Z.max acc (snd kv))). lia.
      * intros [_ H]. discriminate H.
    + apply IH; assumption.
Qed.

(** The required level is 0 exactly when no tier keyword is detected. *)
Lemma required_level_zero_iff (job : Job.t) :
  required_level job = 0%Z <-> Spec.tier_keyword_detected job = false.
Proof.
  unfold required_level, edu_level, Spec.tier_keyword_detected.
  rewrite edu_fold_zero.
  - tauto.
  - lia.
  - unfold edu_hierarchy. repeat constructor.
Qed.

(** No tier keyword occurs in an empty or absent text. *)
Lemma no_tier_keyword_in_empty (job : Job.t) :
  Job.education_required job = None \/ Job.education_required job = Some ""%string ->
  Spec.tier_keyword_detected job = false.
Proof.
  unfold Spec.tier_keyword_detected. intros [H|H]; rewrite H; reflexivity.
Qed.

(** C5: when no education tier keyword is detected in the job's
    [education_required] text (as when the text is empty or absent), the
    education weight returned by [calculate_smart_score] is 0, the final
    score is the capped sum of the other terms, and it is the same for every
    education entry of the resume. *)
Theorem education_weight_zero (resume_data : Resume.t) (job : Job.t) (sem : Q) :
  Spec.tier_keyword_detected job = false ->
  let r := calculate_smart_score resume_data job sem in
  Weights.education (Smart.weights r) = 0
  /\ Smart.final_score r ==
       Qmin (Breakdown.exact_skills (Smart.breakdown r) * 0.25
             + Breakdown.related_skills (Smart.breakdown r) * 0.15
             + Breakdown.experience (Smart.breakdown r) * 0.40
             + Breakdown.semantic (Smart.breakdown r) * 0.20
             + Breakdown.projects (Smart.breakdown r)
               * Weights.projects (Smart.weights r)) 1
  /\ (forall e : option Education.t,
        Smart.final_score (calculate_smart_score (with_education resume_data e) job sem)
        = Smart.final_score r).
Proof.
  intros Hnone r. apply required_level_zero_iff in Hnone. rename Hnone into Hlevel.
  subst r. unfold calculate_smart_score.
  cbn [Smart.final_score Smart.breakdown Smart.weights Weights.education
       Weights.projects Breakdown.exact_skills Breakdown.related_skills
       Breakdown.experience Breakdown.semantic Breakdown.projects
       with_education Resume.skills Resume.years_of_experience Resume.projects].
  rewrite Hlevel. cbn [Z.gtb Z.compare].
  split; [reflexivity | split].
  - apply Q.min_compat; [ | reflexivity]. ring.
  - intros e. unfold smart_education_score, candidate_years.
    cbn [Z.eqb Resume.years_of_experience]. reflexivity.
Qed.

(** A job without [education_required] text satisfies the hypothesis. *)
Lemma education_weight_zero_witness :
  let r := calculate_smart_score python_sql_resume backend_job 0.5 in
  Weights.education (Smart.weights r) = 0
  /\ Smart.final_score r ==
       Qmin (Breakdown.exact_skills (Smart.breakdown r) * 0.25
             + Breakdown.related_skills (Smart.breakdown r) * 0.15
             + Breakdown.experience (Smart.breakdown r) * 0.40
             + Breakdown.semantic (Smart.breakdown r) * 0.20
             + Breakdown.projects (Smart.breakdown r)
               * Weights.projects (Smart.weights r)) 1
  /\ (forall e : option Education.t,
        Smart.final_score
          (calculate_smart_score (with_education python_sql_resume e) backend_job 0.5)
        = Smart.final_score r).
Proof.
  apply (@education_weight_zero python_sql_resume backend_job 0.5).
  reflexivity.
Defined.

(** With a tier keyword in the text the weight is 0.05: the condition of C5
    is the only way to a zero weight. *)
Lemma education_weight_applied (resume_data : Resume.t) (job : Job.t) (sem : Q) :
  Spec.tier_keyword_detected job = true ->
  Weights.education (Smart.weights (calculate_smart_score resume_data job sem))
  = 0.05.
Proof.
  intros Hsome. unfold calculate_smart_score.
  cbn [Smart.weights Weights.education].
  destruct (required_level job >? 0)%Z eqn:E; [reflexivity | ].
  assert (H0 : required_level job = 0%Z).
  { pose proof (edu_fold_ge
      (PyStr.lower (get_or (Job.education_required job) ""%string))
      edu_hierarchy 0) as Hge.
    fold (edu_level (PyStr.lower (get_or (Job.education_required job) ""%string)))
      in Hge.
    fold (required_level job) in Hge.
    rewrite Z.gtb_ltb in E.
    apply Z.ltb_ge in E. lia. }
  apply required_level_zero_iff in H0. congruence.
Qed.

(** C6: for a candidate whose tier is exactly one below the tier the job
    requires, the education sub-score of [calculate_smart_score] is 0.85 and
    the education score of [calculate_detailed_breakdown] is 0.8; the two
    scorers are different functions of the tier pair. *)
Theorem education_one_tier_below (resume_data : Resume.t) (job : Job.t) (sem : Q) :
  (0 < required_level job)%Z ->
  candidate_level resume_data = (required_level job - 1)%Z ->
  Breakdown.education (Smart.breakdown (calculate_smart_score resume_data job sem))
    = 0.85
  /\ EducationDetail.score
       (Detailed.education (calculate_detailed_breakdown resume_data job)) = 0.8
  /\ ~ (forall cl rl : Z,
          smart_education_score cl rl == detailed_education_score cl rl).
Proof.
  intros Hreq Hcand.
  unfold calculate_smart_score, calculate_detailed_breakdown.
  cbn [Smart.breakdown Breakdown.education Detailed.education
       EducationDetail.score].
  unfold smart_education_score, detailed_education_score.
  rewrite Hcand.
  destruct (required_level job =? 0)%Z eqn:E0; [lia | ].
  destruct (required_level job - 1 >=? required_level job)%Z eqn:E1; [lia | ].
  rewrite Z.eqb_refl.
  split; [reflexivity | split; [reflexivity | ]].
  intros H. specialize (H 4%Z 5%Z). vm_compute in H. discriminate H.
Qed.

(** A candidate with a master's degree and a job asking for a doctorate. *)
Lemma education_one_tier_below_witness :
  Breakdown.education
    (Smart.breakdown
       (calculate_smart_score (resume_of [] "Masters" 3 []) senior_job 0.5))
    = 0.85
  /\ EducationDetail.score
       (Detailed.education
          (calculate_detailed_breakdown (resume_of [] "Masters" 3 []) senior_job))
     = 0.8
  /\ ~ (forall cl rl : Z,
          smart_education_score cl rl == detailed_education_score cl rl).
Proof.
  apply (@education_one_tier_below (resume_of [] "Masters" 3 []) senior_job 0.5);
    vm_compute; reflexivity.
Defined.

(** C8: the experience sub-score of [calculate_smart_score] does not decrease
    when the candidate's years grow, the job being fixed. *)
Theorem experience_score_monotone
    (resume_a resume_b : Resume.t) (job : Job.t) (sem_a sem_b : Q) :
  candidate_years resume_a <= candidate_years resume_b ->
  Breakdown.experience
    (Smart.breakdown (calculate_smart_score resume_a job sem_a))
  <= Breakdown.experience
       (Smart.breakdown (calculate_smart_score resume_b job sem_b)).
Proof.
  intros Hab. unfold calculate_smart_score.
  cbn [Smart.breakdown Breakdown.experience].
  apply smart_experience_monotone; [apply required_years_cases | exact Hab].
Qed.

(** Four and seven years against a requirement of ten. *)
Lemma experience_score_monotone_witness :
  Breakdown.experience
    (Smart.breakdown
       (calculate_smart_score (resume_of [] "" 4 []) senior_job 0.5))
  <= Breakdown.experience
       (Smart.breakdown
          (calculate_smart_score (resume_of [] "" 7 []) senior_job 0.5)).
Proof.
  apply (@experience_score_monotone
           (resume_of [] "" 4 []) (resume_of [] "" 7 []) senior_job 0.5 0.5).
  vm_compute. discriminate.
Defined.

(** C10: the projects score of [calculate_detailed_breakdown] is
    [min(count / 2, 1)] when the resume has a project and 0.5 when it has
    none, whatever the job: there is no trigger on [projects_required] and
    no 0.4 or 0.7 fallback. *)
Theorem detailed_projects_score (resume_data : Resume.t) (job : Job.t) :
  let projects := get_or (Resume.projects resume_data) [] in
  ProjectsDetail.score (Detailed.projects (calculate_detailed_breakdown resume_data job))
  = (if (0 <? List.length projects)%nat
     then Qmin (Qnat (List.length projects) / 2) 1 else 0.5)
  /\ (forall job' : Job.t,
        ProjectsDetail.score
          (Detailed.projects (calculate_detailed_breakdown resume_data job'))
        = ProjectsDetail.score
            (Detailed.projects (calculate_detailed_breakdown resume_data job))).
Proof.
  unfold calculate_detailed_breakdown.
  cbn [Detailed.projects ProjectsDetail.score].
  split; [ | reflexivity].
  destruct (get_or (Resume.projects resume_data) []); reflexivity.
Qed.

(** The smart score does depend on [projects_required]: for a resume
    without projects it gives 0.4 or 0.7 where the detailed breakdown gives
    0.5. *)
Lemma projects_scores_differ :
  Breakdown.projects
    (Smart.breakdown (calculate_smart_score (resume_of [] "" 1 []) senior_job 0.5))
    == 0.4
  /\ Breakdown.projects
       (Smart.breakdown (calculate_smart_score (resume_of [] "" 1 []) backend_job 0.5))
     == 0.7
  /\ ProjectsDetail.score
       (Detailed.projects (calculate_detailed_breakdown (resume_of [] "" 1 []) senior_job))
     == 0.5.
Proof. vm_compute. repeat split. Qed.

End Ladders.

(** *** Required years: the pattern [\d+] finds the first integer *)

Section RequiredYears.

Import ResumeAnalyzer.
Local Open Scope Q_scope.

Lemma drop_digits_length (s : list ascii) :
  (List.length (Spec.drop_digits s) <= List.length s)%nat.
Proof.
  induction s as [|c s IH]; simpl; [lia | ].
  destruct (PyStr.is_digit c); simpl; lia.
Qed.

Lemma firstn_take_digits (s : list ascii) :
  firstn (List.length s - List.length (Spec.drop_digits s)) s = Spec.take_digits s.
Proof.
  induction s as [|c s IH]; [reflexivity | ].
  cbn [Spec.drop_digits Spec.take_digits].
  destruct (PyStr.is_digit c) eqn:E.
  - pose proof (drop_digits_length s) as Hlen.
    replace (List.length (c :: s) - List.length (Spec.drop_digits s))%nat
      with (S (List.length s - List.length (Spec.drop_digits s)))
      by (cbn [List.length]; lia).
    cbn [firstn]. rewrite IH. reflexivity.
  - rewrite Nat.sub_diag. reflexivity.
Qed.

(** A greedy [\d*] before a continuation that always succeeds takes every
    digit. *)
Lemma star_digits (B : Type) (f : list ascii -> B) (s : list ascii)
    (prev : option ascii) :
  Re.star_k PyStr.is_digit prev s (fun _ s' => Some (f s'))
  = Some (f (Spec.drop_digits s)).
Proof.
  revert prev. induction s as [|c s IH]; intros prev; simpl; [reflexivity | ].
  destruct (PyStr.is_digit c); [ | reflexivity].
  rewrite IH. reflexivity.
Qed.

Lemma match_digits_cons (prev : option ascii) (c : ascii) (s : list ascii) :
  Re.match_at (Re.Plus PyStr.is_digit) prev (c :: s)
  = if PyStr.is_digit c
    then Some {| Re.whole := c :: Spec.take_digits s; Re.groups := [] |}
    else None.
Proof.
  unfold Re.match_at, Re.Plus. cbn [Re.exec].
  destruct (PyStr.is_digit c) eqn:E; [ | reflexivity].
  rewrite (star_digits
             (fun s' => {| Re.whole := firstn (List.length (c :: s) - List.length s') (c :: s);
                           Re.groups := [] |})).
  pose proof (drop_digits_length s) as Hlen.
  replace (List.length (c :: s) - List.length (Spec.drop_digits s))%nat
    with (S (List.length s - List.length (Spec.drop_digits s)))
    by (cbn [List.length]; lia).
  cbn [firstn]. rewrite firstn_take_digits. reflexivity.
Qed.

Lemma scan_digits_head (s : list ascii) (prev : option ascii) :
  hd_error (map Re.whole (Re.scan (Re.Plus PyStr.is_digit) prev s 0))
  = Spec.first_digits s.
Proof.
  revert prev. induction s as [|c s IH]; intros prev.
  - reflexivity.
  - cbn [Re.scan Spec.first_digits]. rewrite match_digits_cons.
    destruct (PyStr.is_digit c); [reflexivity | apply IH].
Qed.

Lemma findall_digits_head (text : string) :
  hd_error (Re.findall0 (Re.Plus PyStr.is_digit) text)
  = Spec.first_digits (PyStr.chars text).
Proof. apply scan_digits_head. Qed.

(** The required years of the scorer are those of the specification. *)
Lemma required_years_spec (job : Job.t) : required_years job = Spec.required job.
Proof.
  unfold required_years, required_years_int, Spec.required, Spec.first_integer.
  destruct (Job.experience job) as [s|]; [ | reflexivity].
  cbn [get_or]. rewrite <- findall_digits_head.
  destruct (Re.findall0 _ s); reflexivity.
Qed.

Lemma smart_experience_ladder (r c : Q) :
  smart_experience_score r c == Spec.experience_ladder r c.
Proof.
  unfold smart_experience_score, Spec.experience_ladder.
  destruct (Qeq_dec r 0) as [E0|E0].
  { apply Qeq_bool_iff in E0. rewrite E0. reflexivity. }
  destruct (Qeq_bool r 0) eqn:B0.
  { apply Qeq_bool_iff in B0. contradiction. }
  destruct (Qlt_le_dec c r) as [L1|L1].
  2: { apply Qge_bool_iff in L1. rewrite L1. reflexivity. }
  destruct (Qge_bool c r) eqn:B1.
  { apply Qge_bool_iff in B1. lra. }
  destruct (Qlt_le_dec c (0.7 * r)) as [L2|L2].
  2: { rewrite (Qmult_comm 0.7 r) in L2. apply Qge_bool_iff in L2.
       rewrite L2. reflexivity. }
  destruct (Qge_bool c (r * 0.7)) eqn:B2.
  { apply Qge_bool_iff in B2. lra. }
  destruct (Qlt_le_dec c (0.5 * r)) as [L3|L3].
  2: { rewrite (Qmult_comm 0.5 r) in L3. apply Qge_bool_iff in L3.
       rewrite L3. reflexivity. }
  destruct (Qge_bool c (r * 0.5)) eqn:B3.
  { apply Qge_bool_iff in B3. lra. }
  reflexivity.
Qed.

(** C2: the experience sub-score of [calculate_smart_score] follows the
    ladder of the specification on the first integer of the job's experience
    string (0 by default); and for the experience string "3+", the
    requirements "Python SQL Docker", the skills Python and SQL and 5 years,
    the experience and the exact-skills sub-scores are both 1. *)
Theorem experience_follows_ladder (resume_data : Resume.t) (job : Job.t) (sem : Q) :
  Breakdown.experience (Smart.breakdown (calculate_smart_score resume_data job sem))
  == Spec.experience_ladder (Spec.required job) (candidate_years resume_data)
  /\ (Job.experience job = Some "3+"%string ->
      Job.requirements job = "Python SQL Docker"%string ->
      Resume.skills resume_data = Some ["Python"; "SQL"]%string ->
      Resume.years_of_experience resume_data = Some 5 ->
      Breakdown.experience
        (Smart.breakdown (calculate_smart_score resume_data job sem)) == 1
      /\ Breakdown.exact_skills
           (Smart.breakdown (calculate_smart_score resume_data job sem)) == 1).
Proof.
  split.
  - unfold calculate_smart_score. cbn [Smart.breakdown Breakdown.experience].
    rewrite <- required_years_spec. apply smart_experience_ladder.
  - intros Hexp Hreq Hskills Hyears.
    unfold calculate_smart_score.
    cbn [Smart.breakdown Breakdown.experience Breakdown.exact_skills].
    unfold required_years, required_years_int, candidate_years.
    rewrite Hexp, Hreq, Hskills, Hyears.
    split; vm_compute; reflexivity.
Qed.

(** The sample job and resume carry exactly these fields. *)
Lemma experience_follows_ladder_witness :
  Breakdown.experience
    (Smart.breakdown (calculate_smart_score python_sql_resume backend_job 0.5))
  == Spec.experience_ladder (Spec.required backend_job)
       (candidate_years python_sql_resume)
  /\ Breakdown.experience
       (Smart.breakdown (calculate_smart_score python_sql_resume backend_job 0.5))
     == 1
  /\ Breakdown.exact_skills
       (Smart.breakdown (calculate_smart_score python_sql_resume backend_job 0.5))
     == 1.
Proof.
  destruct (@experience_follows_ladder python_sql_resume backend_job 0.5)
    as [Hladder Hexample].
  split; [exact Hladder | apply Hexample; reflexivity].
Defined.

(** Each rung of the ladder on a requirement of ten years. *)
Example experience_ladder_rungs :
  smart_experience_score 10 10 == 1 /\ smart_experience_score 10 7 == 0.85
  /\ smart_experience_score 10 5 == 0.65 /\ smart_experience_score 10 4 == 0.4
  /\ smart_experience_score 0 4 == 0.8.
Proof. vm_compute. repeat split. Qed.

End RequiredYears.

(** *** Years of experience *)

Section YearsOfExperience.

Import ResumeAnalyzer.
Local Open Scope Q_scope.

Lemma py_max_upper (l : list Q) (x y : Q) :
  y <= x \/ (exists z, In z l /\ y <= z) -> y <= py_max x l.
Proof.
  unfold py_max. revert x. induction l as [|a l IH]; intros x H; simpl.
  - destruct H as [H | (z & [] & _)]. exact H.
  - apply IH. destruct H as [H | (z & [Hz | Hz] & Hyz)].
    + left. apply Qle_trans with x; [exact H | apply Q.le_max_l].
    + subst z. left. apply Qle_trans with a; [exact Hyz | apply Q.le_max_r].
    + right. exists z. split; assumption.
Qed.

Lemma py_max_attained (l : list Q) (x : Q) :
  exists z, In z (x :: l) /\ py_max x l == z.
Proof.
  unfold py_max. revert x. induction l as [|a l IH]; intros x; simpl.
  - exists x. split; [left; reflexivity | reflexivity].
  - destruct (IH (Qmax x a)) as (z & [Hz | Hz] & Hmax).
    + destruct (Q.max_dec x a) as [E | E].
      * exists x. split; [left; reflexivity | ].
        rewrite Hmax, <- Hz. exact E.
      * exists a. split; [right; left; reflexivity | ].
        rewrite Hmax, <- Hz. exact E.
    + exists z. split; [right; right; exact Hz | exact Hmax].
Qed.

(** Without any match the result is the default, exactly 2. *)
Lemma extract_years_default (text : string) :
  years_found text = [] -> extract_years_of_experience text = 2.
Proof.
  unfold extract_years_of_experience. intros H. rewrite H. reflexivity.
Qed.

(** With a match the result is the greatest of the values found. *)
Lemma extract_years_is_max (text : string) :
  years_found text <> [] ->
  (forall y, In y (years_found text) -> y <= extract_years_of_experience text)
  /\ (exists z, In z (years_found text) /\ extract_years_of_experience text == z).
Proof.
  unfold extract_years_of_experience.
  destruct (years_found text) as [|x l]; [congruence | ]. intros _. split.
  - intros y [Hy | Hy]; apply py_max_upper.
    + left. subst y. apply Qle_refl.
    + right. exists y. split; [exact Hy | apply Qle_refl].
  - apply py_max_attained.
Qed.

(** X18: the values of the explicit phrases are never negative, so the
    result of [extract_years_of_experience] is negative only when a date
    range ends before it starts: with every range in order it is at least
    0. *)
Lemma extract_years_nonneg (text : string) :
  (forall se, In se (Re.findall2 date_pattern text) ->
              (PyStr.int_of_digits (fst se) <= end_year (snd se))%Z) ->
  0 <= extract_years_of_experience text.
Proof.
  intros Hranges.
  destruct (years_found text) as [|x l] eqn:E.
  - rewrite (@extract_years_default text E). discriminate.
  - assert (Hne : years_found text <> []) by congruence.
    destruct (@extract_years_is_max text Hne) as (_ & z & Hz & Hmax).
    rewrite Hmax. unfold years_found in Hz.
    apply in_app_or in Hz. destruct Hz as [Hz | Hz].
    + apply in_flat_map in Hz. destruct Hz as (p & _ & Hz).
      apply in_map_iff in Hz. destruct Hz as (ds & <- & _).
      unfold float_of_digits, Qle. simpl.
      pose proof (int_of_digits_nonneg ds). lia.
    + apply in_map_iff in Hz. destruct Hz as (se & <- & Hse).
      specialize (Hranges se Hse). unfold Qle. simpl. lia.
Qed.

(** C3: on the text "2023-2020" the only value found is the length of the
    date range, 2020 - 2023, and [extract_years_of_experience] returns -3. *)
Theorem extract_years_reversed_range :
  years_found "2023-2020" = [inject_Z (-3)]
  /\ extract_years_of_experience "2023-2020" == -3
  /\ extract_years_of_experience "2023-2020" < 0.
Proof. vm_compute. repeat split. Qed.

Example extract_years_phrases :
  extract_years_of_experience
    "5+ years of experience, 2018 - present; 10 yrs exp" == 10
  /\ extract_years_of_experience "Experience: 7 years" == 7
  /\ extract_years_of_experience "no number here" == 2.
Proof. vm_compute. repeat split. Qed.

Lemma extract_years_nonneg_witness :
  0 <= extract_years_of_experience "3 years of experience, 2019 - 2021".
Proof.
  apply (@extract_years_nonneg "3 years of experience, 2019 - 2021").
  intros se Hin. vm_compute in Hin.
  destruct Hin as [<- | []]. vm_compute. discriminate.
Defined.

(** X19: [extract_years_of_experience] returns 2 when neither the phrase
    patterns nor the date-range pattern match, and otherwise the greatest
    of the values found, whatever their order. *)
Theorem extract_years_max_or_default (text : string) :
  (years_found text = [] /\ extract_years_of_experience text = 2)
  \/ (years_found text <> []
      /\ (forall y, In y (years_found text) ->
                    y <= extract_years_of_experience text)
      /\ (exists z, In z (years_found text)
                    /\ extract_years_of_experience text == z)).
Proof.
  destruct (years_found text) as [|x l] eqn:E.
  - left. split; [reflexivity | apply (@extract_years_default text E)].
  - right. assert (Hne : years_found text <> []) by congruence.
    destruct (@extract_years_is_max text Hne) as (Hmax & Hin).
    rewrite E in Hmax, Hin. split; [discriminate | split; assumption].
Qed.

End YearsOfExperience.

(** *** Skills *)

Section Skills.

Import ResumeAnalyzer.

Lemma mem_true_iff (x : string) (l : list string) :
  PyStr.mem x l = true <-> In x l.
Proof.
  unfold PyStr.mem. rewrite existsb_exists. split.
  - intros (y & Hy & E). apply String.eqb_eq in E. subst y. exact Hy.
  - intros H. exists x. split; [exact H | apply String.eqb_refl].
Qed.

Lemma unique_skills_fresh (found seen : list string) (x : string) :
  In x (unique_skills found seen) -> ~ In (PyStr.lower x) seen.
Proof.
  revert seen. induction found as [|skill rest IH]; intros seen; simpl.
  - intros [].
  - destruct (PyStr.mem (PyStr.lower skill) seen) eqn:E.
    + apply IH.
    + intros [Hx | Hx].
      * subst x. intros Hin. apply mem_true_iff in Hin. congruence.
      * intros Hin. apply (IH _ Hx). right. exact Hin.
Qed.

(** No two returned skills are equal up to lower-casing. *)
Lemma unique_skills_nodup (found seen : list string) :
  NoDup (map PyStr.lower (unique_skills found seen)).
Proof.
  revert seen. induction found as [|skill rest IH]; intros seen; simpl.
  - constructor.
  - destruct (PyStr.mem (PyStr.lower skill) seen); [apply IH | ].
    simpl. constructor; [ | apply IH].
    intros Hin. apply in_map_iff in Hin. destruct Hin as (y & Hy & Hin).
    apply unique_skills_fresh in Hin. apply Hin. left. symmetry. exact Hy.
Qed.

Lemma extract_skills_no_case_duplicates (text : string) :
  NoDup (map PyStr.lower (extract_skills text)).
Proof. apply unique_skills_nodup. Qed.

(** Every returned skill is a vocabulary entry, in the vocabulary's casing,
    whose pattern matches the lower-cased text. *)
Lemma unique_skills_incl (found seen : list string) (x : string) :
  In x (unique_skills found seen) -> In x found.
Proof.
  revert seen. induction found as [|skill rest IH]; intros seen; simpl.
  - intros [].
  - destruct (PyStr.mem (PyStr.lower skill) seen).
    + intros H. right. apply (IH _ H).
    + intros [H | H]; [left; exact H | right; apply (IH _ H)].
Qed.

Lemma extract_skills_sound (text x : string) :
  In x (extract_skills text) ->
  In x skill_keywords
  /\ Re.search (skill_pattern x) (PyStr.lower text) = true.
Proof.
  unfold extract_skills, extract_skills_from. intros H.
  apply unique_skills_incl in H.
  exact (proj1 (filter_In _ x skill_keywords) H).
Qed.

(** **** Skills that start and end with a word character are found *)

Lemma nodupb_sound (l : list string) : Spec.nodupb l = true -> NoDup l.
Proof.
  induction l as [|x r IH]; cbn [Spec.nodupb]; intros H.
  - constructor.
  - apply andb_true_iff in H. destruct H as [Hx Hr].
    constructor; [ | apply IH, Hr].
    intros Hin. apply mem_true_iff in Hin. rewrite Hin in Hx. discriminate Hx.
Qed.

(** The vocabulary has no two entries equal up to case. *)
Lemma skill_keywords_case_distinct : NoDup (map PyStr.lower skill_keywords).
Proof. apply nodupb_sound. vm_compute. reflexivity. Qed.

(** Filtering keeps a list free of case duplicates. *)
Lemma filter_case_distinct (keep : string -> bool) (skills : list string) :
  NoDup (map PyStr.lower skills) ->
  NoDup (map PyStr.lower (filter keep skills)).
Proof.
  induction skills as [|skill rest IH]; cbn [filter map]; intros Hnd.
  - constructor.
  - inversion Hnd as [|? ? Hfresh Hrest]; subst.
    destruct (keep skill); [ | apply IH, Hrest].
    cbn [map]. constructor; [ | apply IH, Hrest].
    intros Hin. apply Hfresh.
    apply in_map_iff in Hin. destruct Hin as (other & Hlow & Hin).
    apply filter_In in Hin. rewrite <- Hlow. apply in_map. tauto.
Qed.

(** On a list without case duplicates the second loop removes nothing. *)
Lemma unique_skills_id (found seen : list string) :
  NoDup (map PyStr.lower found) ->
  (forall x, In x found -> ~ In (PyStr.lower x) seen) ->
  unique_skills found seen = found.
Proof.
  revert seen. induction found as [|skill rest IH]; intros seen Hnd Hseen;
    cbn [unique_skills]; [reflexivity | ].
  cbn [map] in Hnd. inversion Hnd as [|? ? Hx Hrest]; subst.
  destruct (PyStr.mem (PyStr.lower skill) seen) eqn:E.
  - apply mem_true_iff in E. exfalso. apply (Hseen skill); [left; reflexivity | exact E].
  - f_equal. apply IH; [exact Hrest | ].
    intros x Hin [Heq | Hin'].
    + apply Hx. rewrite Heq. apply in_map, Hin.
    + apply (Hseen x); [right; exact Hin | exact Hin'].
Qed.

(** [extract_skills] is the vocabulary filtered by the patterns: the result
    is in vocabulary order and in the vocabulary's casing. *)
Lemma extract_skills_is_filter (text : string) :
  extract_skills text
  = filter (fun skill => Re.search (skill_pattern skill) (PyStr.lower text))
           skill_keywords.
Proof.
  unfold extract_skills, extract_skills_from. apply unique_skills_id.
  - apply filter_case_distinct, skill_keywords_case_distinct.
  - intros x _ [].
Qed.

(** A literal read from its own characters. *)
Lemma exec_lit (B : Type) (cs q : list ascii) (prev : option ascii)
    (g : Re.captures)
    (k : option ascii -> list ascii -> Re.captures -> option B) :
  Re.exec (Re.seqs (map Re.chr cs)) prev (cs ++ q) g k
  = k (Spec.last_char prev cs) q g.
Proof.
  revert prev. induction cs as [|c cs IH]; intros prev.
  - reflexivity.
  - cbn [map Re.seqs fold_right]. change (fold_right Re.Seq Re.Eps (map Re.chr cs))
      with (Re.seqs (map Re.chr cs)).
    cbn [Re.exec app Re.chr]. rewrite Ascii.eqb_refl. apply IH.
Qed.

Lemma skill_pattern_matches (skill : string) (prev : option ascii) (b : list ascii) :
  Spec.word_shaped skill = true ->
  Spec.is_word_opt prev = false ->
  Spec.is_word_opt (hd_error b) = false ->
  Re.match_at (skill_pattern skill) prev (PyStr.chars (PyStr.lower skill) ++ b)
  <> None.
Proof.
  unfold Spec.word_shaped, Re.match_at, skill_pattern, Re.escape, Re.lit.
  intros Hshape Hprev Hb.
  destruct (PyStr.chars (PyStr.lower skill)) as [|c r] eqn:Ecs; [discriminate | ].
  apply andb_true_iff in Hshape. destruct Hshape as [Hc Hlast].
  cbn [Re.seqs fold_right]. change (fold_right Re.Seq Re.Eps (map Re.chr (c :: r)))
    with (Re.seqs (map Re.chr (c :: r))).
  cbn [Re.exec].
  assert (B1 : Re.at_boundary prev ((c :: r) ++ b) = true).
  { unfold Re.at_boundary. cbn [app]. rewrite Hc.
    destruct prev as [x|]; cbn [Spec.is_word_opt] in Hprev;
      [rewrite Hprev | ]; reflexivity. }
  rewrite B1. rewrite exec_lit. cbn [Re.exec].
  assert (B2 : Re.at_boundary (Spec.last_char prev (c :: r)) b = true).
  { unfold Re.at_boundary. change (Spec.last_char prev (c :: r))
      with (Spec.last_char (Some c) r).
    destruct (Spec.last_char (Some c) r) as [x|];
      cbn [Spec.is_word_opt] in Hlast; [ | discriminate].
    rewrite Hlast. destruct b as [|y b]; [reflexivity | ].
    cbn [hd_error Spec.is_word_opt] in Hb. rewrite Hb. reflexivity. }
  rewrite B2. discriminate.
Qed.

(** The scan reports a match when the pattern matches somewhere. *)
Lemma scan_finds (r : Re.regex) (a b : list ascii) (prev : option ascii) :
  Re.match_at r (Spec.last_char prev a) b <> None ->
  Re.scan r prev (a ++ b) 0 <> [].
Proof.
  revert prev. induction a as [|c a IH]; intros prev Hm.
  - cbn [app]. cbn [Spec.last_char fold_left] in Hm.
    destruct b as [|y b]; cbn [Re.scan];
      destruct (Re.match_at r prev _); try discriminate; congruence.
  - cbn [app Re.scan].
    destruct (Re.match_at r prev (c :: a ++ b)); [discriminate | ].
    apply IH. exact Hm.
Qed.

(** X20: a vocabulary skill that starts and ends with a word character is
    returned by [extract_skills] for every text in which it occurs as a
    word, in any casing. *)
Lemma extract_skills_finds_word (skill text : string) (a b : list ascii) :
  In skill skill_keywords ->
  Spec.word_shaped skill = true ->
  Spec.occurs_as_word skill text a b ->
  In skill (extract_skills text).
Proof.
  intros Hvoc Hshape (Htext & Ha & Hb).
  rewrite extract_skills_is_filter. apply filter_In. split; [exact Hvoc | ].
  unfold Re.search, Re.finditer. rewrite Htext.
  pose proof (@scan_finds (skill_pattern skill) a
                (PyStr.chars (PyStr.lower skill) ++ b) None
                (@skill_pattern_matches skill _ b Hshape Ha Hb)) as Hscan.
  destruct (Re.scan _ _ _ _); [congruence | reflexivity].
Qed.

(** All entries of the vocabulary but two have that shape. *)
Lemma skills_not_word_shaped :
  filter (fun skill => negb (Spec.word_shaped skill)) skill_keywords
  = ["C++"; "C#"]%string.
Proof. vm_compute. reflexivity. Qed.

Lemma extract_skills_finds_word_witness :
  In "Node.js"%string (extract_skills "Built with node.js, daily").
Proof.
  apply (@extract_skills_finds_word "Node.js" "Built with node.js, daily"
           (PyStr.chars "built with ") (PyStr.chars ", daily")).
  - vm_compute. tauto.
  - reflexivity.
  - repeat split.
Defined.

(** X21: [extract_skills] returns the vocabulary entries whose pattern
    matches the lower-cased text, in vocabulary order and in the
    vocabulary's casing (the second loop removes nothing, the vocabulary
    having no two entries equal up to case); no two returned skills are
    equal up to case. *)
Theorem extract_skills_in_vocabulary_order (text : string) :
  extract_skills text
  = filter (fun skill => Re.search (skill_pattern skill) (PyStr.lower text))
           skill_keywords
  /\ NoDup (map PyStr.lower (extract_skills text)).
Proof.
  split; [apply extract_skills_is_filter | apply extract_skills_no_case_duplicates].
Qed.

(** C9: the pattern of "C++" ends in a word boundary after "+", which a
    following space or the end of the text never is: the text below contains
    "C++" as a word, and [extract_skills] returns "Java" and "C" without
    "C++". *)
Theorem extract_skills_misses_cpp :
  extract_skills "Skilled in C++ and Java" = ["Java"; "C"]%string
  /\ ~ In "C++"%string (extract_skills "Skilled in C++ and Java")
  /\ Re.search (skill_pattern "C++") "c++" = false.
Proof.
  assert (E : extract_skills "Skilled in C++ and Java" = ["Java"; "C"]%string)
    by (vm_compute; reflexivity).
  split; [exact E | split; [ | vm_compute; reflexivity]].
  rewrite E. intros [H | [H | []]]; discriminate H.
Qed.

Example extract_skills_python_once :
  extract_skills "Python and python, also PYTHON" = ["Python"]%string.
Proof. vm_compute. reflexivity. Qed.

End Skills.

(** *** The vector index front end *)

Section MatcherReady.

Variables Vec Index : Type.
Variable encode : string -> Vec.
Variable index_search : Index -> Vec -> nat -> list (Z * Q).

(** The loop over the hits raises nothing but [IndexError]. *)
Lemma collect_results_no_value_error (stored : list Job.t)
    (hits : list (Z * Q)) (msg : string) :
  JobMatcher.collect_results stored hits <> Raise (ValueError msg).
Proof.
  induction hits as [|[idx distance] rest IH]; simpl.
  - discriminate.
  - destruct (idx <? Z.of_nat (List.length stored))%Z; [ | exact IH].
    unfold py_index.
    destruct ((0 <=? _)%Z && _)%bool; simpl; [ | discriminate].
    destruct (nth_error stored _); simpl; [ | discriminate].
    destruct (JobMatcher.collect_results stored rest); simpl;
      [discriminate | exact IH].
Qed.

Lemma py_index_ok (A : Type) (l : list A) (i : Z) :
  l <> [] -> (-1 <= i < Z.of_nat (List.length l))%Z ->
  exists x, py_index l i = Ok x.
Proof.
  intros Hne Hi. unfold py_index.
  assert (Hlen : (0 < Z.of_nat (List.length l))%Z).
  { destruct l; [congruence | simpl; lia]. }
  set (j := if (i <? 0)%Z then (i + Z.of_nat (List.length l))%Z else i).
  assert (Hj : (0 <= j < Z.of_nat (List.length l))%Z).
  { subst j. destruct (i <? 0)%Z eqn:E; [apply Z.ltb_lt in E | apply Z.ltb_ge in E]; lia. }
  replace ((0 <=? j)%Z && (j <? Z.of_nat (List.length l))%Z)%bool with true.
  2: { symmetry. apply andb_true_iff. split; [apply Z.leb_le | apply Z.ltb_lt]; lia. }
  destruct (nth_error l (Z.to_nat j)) as [x|] eqn:E.
  - exists x. reflexivity.
  - apply nth_error_None in E. lia.
Qed.

Lemma collect_results_ok (stored : list Job.t) (hits : list (Z * Q)) :
  stored <> [] ->
  (forall i d, In (i, d) hits -> (-1 <= i)%Z) ->
  exists results, JobMatcher.collect_results stored hits = Ok results.
Proof.
  intros Hne. induction hits as [|[idx distance] rest IH]; intros Hhits; simpl.
  - exists []. reflexivity.
  - destruct IH as (results & Hrest).
    { intros i d Hin. apply (Hhits i d). right. exact Hin. }
    destruct (idx <? Z.of_nat (List.length stored))%Z eqn:E.
    + apply Z.ltb_lt in E.
      destruct (@py_index_ok _ stored idx Hne) as (job & Hjob).
      { split; [apply (Hhits idx distance); left; reflexivity | exact E]. }
      rewrite Hjob, Hrest. simpl. eexists. reflexivity.
    + exists results. exact Hrest.
Qed.

(** C7: [find_matching_jobs] raises the "index not built" error exactly when
    the index is unbuilt or the stored job list is empty; with an index and
    jobs, and a search that returns positions or -1, it returns a list. *)
Theorem find_matching_jobs_not_ready
    (self : JobMatcher.t Index) (profile : Profile.t) (top_k : nat) :
  (JobMatcher.find_matching_jobs encode index_search self profile top_k
     = Raise JobMatcher.not_built
   <-> JobMatcher.index self = None \/ JobMatcher.jobs self = [])
  /\ (JobMatcher.index self <> None -> JobMatcher.jobs self <> [] ->
      (forall ix v k i d, In (i, d) (index_search ix v k) -> (-1 <= i)%Z) ->
      exists results,
        JobMatcher.find_matching_jobs encode index_search self profile top_k
        = Ok results).
Proof.
  unfold JobMatcher.find_matching_jobs.
  destruct (JobMatcher.index self) as [ix|]; [ | split].
  - destruct (JobMatcher.jobs self) as [|job rest] eqn:Ejobs.
    + split; [split; [right; reflexivity | reflexivity] | congruence].
    + split.
      * split.
        -- intros H. apply collect_results_no_value_error in H. destruct H.
        -- intros [H | H]; discriminate H.
      * intros _ Hne Hhits. apply collect_results_ok; [exact Hne | ].
        intros i d Hin. exact (Hhits _ _ _ i d Hin).
  - split; [left; reflexivity | reflexivity].
  - congruence.
Qed.

End MatcherReady.

(** A matcher built over the two sample jobs answers a query. *)
Lemma find_matching_jobs_not_ready_witness :
  exists results,
    JobMatcher.find_matching_jobs toy_encode toy_search
      (fst (JobMatcher.build_job_index toy_encode toy_index_of
              (JobMatcher.init (list string)) [backend_job; senior_job]))
      (App.profile_of toy_session) 10
    = Ok results.
Proof.
  apply (proj2 (@find_matching_jobs_not_ready string (list string) toy_encode
                  toy_search
                  (fst (JobMatcher.build_job_index toy_encode toy_index_of
                          (JobMatcher.init (list string))
                          [backend_job; senior_job]))
                  (App.profile_of toy_session) 10)).
  - simpl. discriminate.
  - simpl. discriminate.
  - intros ix v k i d Hin. unfold toy_search in Hin.
    apply in_map_iff in Hin. destruct Hin as (n & Hn & _).
    inversion Hn. lia.
Defined.

(** Before [build_job_index] the query raises the error. *)
Example find_matching_jobs_before_build :
  JobMatcher.find_matching_jobs toy_encode toy_search
    (JobMatcher.init (list string)) (App.profile_of toy_session) 10
  = Raise JobMatcher.not_built.
Proof. reflexivity. Qed.

(** *** The matching loop *)

Section Sorting.

Import App.
Local Open Scope Q_scope.

Lemma insert_desc_perm (x : scored) (l : list scored) :
  Permutation (insert_desc x l) (x :: l).
Proof.
  induction l as [|y l IH]; simpl.
  - apply Permutation_refl.
  - destruct (Qle_bool (score_of y) (score_of x)).
    + apply Permutation_refl.
    + apply perm_trans with (y :: x :: l);
        [apply perm_skip, IH | apply perm_swap].
Qed.

Lemma sort_desc_perm (l : list scored) : Permutation (sort_desc l) l.
Proof.
  induction l as [|x l IH]; simpl.
  - apply Permutation_refl.
  - apply perm_trans with (x :: sort_desc l);
      [apply insert_desc_perm | apply perm_skip, IH].
Qed.

Lemma insert_desc_hd (x y : scored) (l : list scored) :
  HdRel by_score_desc y l -> by_score_desc y x ->
  HdRel by_score_desc y (insert_desc x l).
Proof.
  intros Hl Hx. destruct l as [|z l]; simpl.
  - constructor. exact Hx.
  - destruct (Qle_bool (score_of z) (score_of x)); constructor.
    + exact Hx.
    + inversion Hl. assumption.
Qed.

Lemma insert_desc_sorted (x : scored) (l : list scored) :
  Sorted by_score_desc l -> Sorted by_score_desc (insert_desc x l).
Proof.
  induction l as [|y l IH]; intros Hl; simpl.
  - repeat constructor.
  - destruct (Qle_bool (score_of y) (score_of x)) eqn:E.
    + constructor; [exact Hl | ]. constructor.
      apply Qle_bool_iff. exact E.
    + inversion Hl as [|? ? Hs Hh]; subst.
      constructor; [apply IH, Hs | ].
      apply insert_desc_hd; [exact Hh | ].
      unfold by_score_desc. apply Qlt_le_weak, Qnot_le_lt.
      intros Hle. apply Qle_bool_iff in Hle. congruence.
Qed.

Lemma sort_desc_sorted (l : list scored) :
  StronglySorted by_score_desc (sort_desc l).
Proof.
  apply Sorted_StronglySorted.
  - intros a b c Hab Hbc. unfold by_score_desc in *.
    apply Qle_trans with (score_of b); assumption.
  - induction l as [|x l IH]; simpl.
    + constructor.
    + apply insert_desc_sorted, IH.
Qed.

End Sorting.

Section MatchPipeline.

Import App.
Local Open Scope Q_scope.

Variables Vec Index : Type.
Variable encode : string -> Vec.
Variable index_of : list Vec -> Index.
Variable index_search : Index -> Vec -> nat -> list (Z * Q).

Lemma filter_jobs_spec (roles : list string) (jobs : list Job.t) (job : Job.t) :
  In job (filter_jobs roles jobs)
  <-> In job jobs
      /\ exists role, In role roles
           /\ PyStr.contains (PyStr.lower role) (PyStr.lower (Job.title job)) = true.
Proof.
  unfold filter_jobs, role_matches. rewrite filter_In, existsb_exists.
  reflexivity.
Qed.

(** A job whose id is not among the semantic results gets 0.5. *)
Lemma lookup_semantic_default (ml : list (Job.t * Q)) (job : Job.t) :
  (forall matched_job score, In (matched_job, score) ml ->
                             Job.id matched_job <> Job.id job) ->
  lookup_semantic ml job = 0.5.
Proof.
  induction ml as [|[matched_job score] rest IH]; intros H; simpl.
  - reflexivity.
  - destruct (Job.id matched_job =? Job.id job)%Z eqn:E.
    + apply Z.eqb_eq in E. exfalso.
      apply (H matched_job score); [left; reflexivity | exact E].
    + apply IH. intros mj sc Hin. apply (H mj sc). right. exact Hin.
Qed.

(** A job whose id is among the semantic results gets the score of the
    first result that carries its id. *)
Lemma lookup_semantic_found (front back : list (Job.t * Q))
    (matched_job job : Job.t) (score : Q) :
  (forall mj sc, In (mj, sc) front -> Job.id mj <> Job.id job) ->
  Job.id matched_job = Job.id job ->
  lookup_semantic (front ++ (matched_job, score) :: back) job = score.
Proof.
  intros Hfront Hid.
  induction front as [|[mj sc] front IH]; cbn [app lookup_semantic].
  - rewrite Hid, Z.eqb_refl. reflexivity.
  - destruct (Job.id mj =? Job.id job)%Z eqn:E.
    + apply Z.eqb_eq in E. exfalso.
      apply (Hfront mj sc); [left; reflexivity | exact E].
    + apply IH. intros mj' sc' Hin. apply (Hfront mj' sc'). right. exact Hin.
Qed.

Lemma score_all_ok (m : JobMatcher.t Index) (st : session Index) (n : nat)
    (ml : list (Job.t * Q)) (l : list Job.t) :
  JobMatcher.find_matching_jobs encode index_search m (profile_of st) n = Ok ml ->
  score_all encode index_search m st n l
  = Ok (map (scored_entry (parsed_resume_data st) ml) l).
Proof.
  intros Hml. induction l as [|job rest IH]; simpl.
  - reflexivity.
  - unfold score_job. rewrite Hml. simpl. rewrite IH. reflexivity.
Qed.

(** Building over at least one job returns the index and stores it with the
    jobs. *)
Lemma build_job_index_some (self : JobMatcher.t Index) (job : Job.t)
    (rest : list Job.t) :
  JobMatcher.build_job_index encode index_of self (job :: rest)
  = ({| JobMatcher.index :=
          Some (index_of (map (JobMatcher.create_job_embedding encode)
                              (job :: rest)));
        JobMatcher.jobs := job :: rest |},
     Ok (index_of (map (JobMatcher.create_job_embedding encode) (job :: rest)))).
Proof. reflexivity. Qed.

(** The matcher of a session that has none yet is the one built over the
    catalog, when the catalog has a job. *)
Lemma matcher_of_fresh (st : session Index) (jobs : list Job.t) :
  job_matcher st = None -> jobs <> [] ->
  matcher_of encode index_of st jobs
  = Ok (fst (JobMatcher.build_job_index encode index_of (JobMatcher.init Index)
               jobs)).
Proof.
  intros Hfresh Hjobs. unfold matcher_of, initialize_matcher. rewrite Hfresh.
  destruct jobs as [|job rest]; [congruence | ].
  rewrite build_job_index_some. reflexivity.
Qed.

(** [matcher_of] raises only in a session without a matcher and on the empty
    catalog. *)
Lemma matcher_of_raises (st : session Index) (jobs : list Job.t) (e : exn) :
  matcher_of encode index_of st jobs = Raise e
  <-> job_matcher st = None /\ jobs = [] /\ e = JobMatcher.add_rejected.
Proof.
  unfold matcher_of, initialize_matcher.
  destruct (job_matcher st) as [m|].
  - split; [discriminate | intros (H & _); discriminate H].
  - destruct jobs as [|job rest].
    + cbn. split.
      * intros H. injection H as <-. repeat split.
      * intros (_ & _ & ->). reflexivity.
    + rewrite build_job_index_some. cbn [snd fst bind].
      split; [discriminate | intros (_ & H & _); discriminate H].
Qed.

(** C4: in a session that has no matcher yet, [show_job_results] on an empty
    catalog raises instead of returning the empty list: the matcher is built
    before the roles are looked at, and [build_job_index] raises the
    [ValueError] of [self.index.add] for an empty list of jobs.  No job
    passes the role filter, and the session is left without a matcher. *)
Theorem show_job_results_empty_catalog (roles : list string)
    (resume_data : Resume.t) :
  let st := {| job_matcher := None; selected_roles := roles;
               parsed_resume_data := resume_data |} in
  filter_jobs roles [] = []
  /\ show_job_results encode index_of index_search st []
     = (st, Raise JobMatcher.add_rejected).
Proof.
  split; reflexivity.
Qed.

(** In every other case the loop does what is said of it.  With a matcher in
    the session, or one built over a catalog that has a job, the jobs scored
    are those whose title contains a selected role as a case-insensitive
    substring; with no such job the list is empty and the matcher is not
    queried; otherwise, when the matcher answers, each of them is scored with
    its semantic score from the answer (that of the first result with its
    id), 0.5 when the job is absent from it, and the list is sorted by final
    score, largest first. *)
Theorem show_job_results_ranked (st : session Index) (jobs : list Job.t)
    (m : JobMatcher.t Index) :
  matcher_of encode index_of st jobs = Ok m ->
  let filtered := filter_jobs (selected_roles st) jobs in
  let out := snd (show_job_results encode index_of index_search st jobs) in
  (forall job,
     In job filtered
     <-> In job jobs
         /\ exists role, In role (selected_roles st)
              /\ PyStr.contains (PyStr.lower role) (PyStr.lower (Job.title job))
                 = true)
  /\ (filtered = [] -> out = Ok [])
  /\ (forall ml,
        JobMatcher.find_matching_jobs encode index_search m (profile_of st)
          (List.length filtered) = Ok ml ->
        exists matches,
          out = Ok matches
          /\ Permutation (map job_of matches) filtered
          /\ Forall (fun x =>
                       score_of x
                       = Smart.final_score
                           (ResumeAnalyzer.calculate_smart_score
                              (parsed_resume_data st) (job_of x)
                              (lookup_semantic ml (job_of x)))) matches
          /\ (forall job,
                (forall matched_job score, In (matched_job, score) ml ->
                                           Job.id matched_job <> Job.id job) ->
                lookup_semantic ml job = 0.5)
          /\ (forall front back matched_job score job,
                ml = (front ++ (matched_job, score) :: back)%list ->
                (forall mj sc, In (mj, sc) front -> Job.id mj <> Job.id job) ->
                Job.id matched_job = Job.id job ->
                lookup_semantic ml job = score)
          /\ StronglySorted by_score_desc matches).
Proof.
  intros Hm filtered out. split; [ | split].
  - intros job. apply filter_jobs_spec.
  - intros Hnone. subst out. unfold show_job_results. rewrite Hm.
    fold filtered. rewrite Hnone. reflexivity.
  - intros ml Hml.
    exists (sort_desc (map (scored_entry (parsed_resume_data st) ml) filtered)).
    split; [ | split; [ | split; [ | split; [ | split]]]].
    + subst out. unfold show_job_results. rewrite Hm. fold filtered.
      destruct filtered as [|job rest] eqn:E; [reflexivity | ].
      cbn [snd]. erewrite score_all_ok; [reflexivity | exact Hml].
    + apply perm_trans
        with (map job_of (map (scored_entry (parsed_resume_data st) ml) filtered)).
      * apply Permutation_map, sort_desc_perm.
      * rewrite map_map. rewrite map_id. apply Permutation_refl.
    + apply Forall_forall. intros x Hx.
      apply (Permutation_in _ (sort_desc_perm _)) in Hx.
      apply in_map_iff in Hx. destruct Hx as (job & <- & _). reflexivity.
    + apply lookup_semantic_default.
    + intros front back matched_job score job -> Hfront Hid.
      apply lookup_semantic_found; assumption.
    + apply sort_desc_sorted.
Qed.

(** X29: in a session without a matcher yet and with a catalog that has a
    job, [show_job_results] builds the matcher over the whole catalog, keeps
    it in the session, and returns a list, without raising, whenever the
    search yields positions or -1. *)
Lemma show_job_results_returns (st : session Index) (jobs : list Job.t) :
  job_matcher st = None ->
  jobs <> [] ->
  (forall ix v k i d, In (i, d) (index_search ix v k) -> (-1 <= i)%Z) ->
  exists matches,
    show_job_results encode index_of index_search st jobs
    = ({| job_matcher :=
            Some (fst (JobMatcher.build_job_index encode index_of
                         (JobMatcher.init Index) jobs));
          selected_roles := selected_roles st;
          parsed_resume_data := parsed_resume_data st |},
       Ok matches).
Proof.
  intros Hfresh Hjobs Hsearch. unfold show_job_results.
  rewrite (matcher_of_fresh st Hfresh Hjobs).
  destruct (filter_jobs (selected_roles st) jobs) as [|job rest] eqn:E.
  - exists []. reflexivity.
  - assert (Hquery : exists ml,
      JobMatcher.find_matching_jobs encode index_search
        (fst (JobMatcher.build_job_index encode index_of (JobMatcher.init Index)
                jobs))
        (profile_of st) (List.length (job :: rest)) = Ok ml).
    { destruct jobs as [|j js]; [congruence | ].
      rewrite build_job_index_some. cbn [fst].
      unfold JobMatcher.find_matching_jobs.
      cbn [JobMatcher.index JobMatcher.jobs].
      apply collect_results_ok; [discriminate | ].
      intros i d Hin. exact (Hsearch _ _ _ i d Hin). }
    destruct Hquery as (ml & Hml).
    erewrite score_all_ok; [ | exact Hml].
    eexists. reflexivity.
Qed.

End MatchPipeline.

(** On the two sample jobs, both selected by the roles of the toy session,
    the toy matcher answers and the loop returns both jobs, ranked. *)
Lemma show_job_results_ranked_witness :
  exists ml matches,
    JobMatcher.find_matching_jobs toy_encode toy_search
      (fst (JobMatcher.build_job_index toy_encode toy_index_of
              (JobMatcher.init (list string)) [backend_job; senior_job]))
      (App.profile_of toy_session) 2 = Ok ml
    /\ snd (App.show_job_results toy_encode toy_index_of toy_search toy_session
              [backend_job; senior_job]) = Ok matches
    /\ Permutation (map App.job_of matches) [backend_job; senior_job]
    /\ StronglySorted App.by_score_desc matches.
Proof.
  destruct (@show_job_results_ranked string (list string) toy_encode
              toy_index_of toy_search toy_session [backend_job; senior_job]
              (fst (JobMatcher.build_job_index toy_encode toy_index_of
                      (JobMatcher.init (list string))
                      [backend_job; senior_job]))
              eq_refl)
    as (_ & _ & H).
  specialize (H [(backend_job, 1 / (1 + 1)); (senior_job, 1 / (1 + 1))]).
  destruct H as (matches & Hout & Hperm & _ & _ & _ & Hsorted).
  - reflexivity.
  - exists [(backend_job, 1 / (1 + 1)); (senior_job, 1 / (1 + 1))], matches.
    split; [reflexivity | split; [exact Hout | split; [exact Hperm | exact Hsorted]]].
Defined.

(** With roles that no title contains the list is empty, and the matcher,
    here not even built, is not queried. *)
Example show_job_results_no_role :
  snd (App.show_job_results toy_encode toy_index_of toy_search
         {| App.job_matcher := Some (JobMatcher.init (list string));
            App.selected_roles := ["Cloud Engineer"]%string;
            App.parsed_resume_data := python_sql_resume |}
         [backend_job; senior_job])
  = Ok [].
Proof. reflexivity. Qed.

(** The same roles on a catalog that has jobs, in a session without a
    matcher: the matcher is built and the list is empty. *)
Example show_job_results_no_role_fresh :
  snd (App.show_job_results toy_encode toy_index_of toy_search
         {| App.job_matcher := None;
            App.selected_roles := ["Cloud Engineer"]%string;
            App.parsed_resume_data := python_sql_resume |}
         [backend_job; senior_job])
  = Ok [].
Proof. reflexivity. Qed.

(** The ranking on the sample jobs: the backend job comes first. *)
Example show_job_results_sample :
  match snd (App.show_job_results toy_encode toy_index_of toy_search toy_session
               [senior_job; backend_job]) with
  | Ok matches => map (fun x => Job.id (App.job_of x)) matches = [1; 2]%Z
  | Raise _ => False
  end.
Proof. vm_compute. reflexivity. Qed.

(** With a search whose distances differ, every job is scored with the
    semantic score of its own result: 1/(1+0) for the first job of the
    catalog, which then ranks first, and 1/(1+3) for the second. *)
Example show_job_results_own_scores :
  match snd (App.show_job_results toy_encode toy_index_of toy_search_spread
               toy_session [senior_job; backend_job]) with
  | Ok matches =>
      map (fun x =>
             (Job.id (App.job_of x),
              option_map (fun s => Qred (Breakdown.semantic (Smart.breakdown s)))
                         (Detailed.smart_score (snd x)))) matches
      = [(2%Z, Some 1); (1%Z, Some (1 # 4))]
  | Raise _ => False
  end.
Proof. vm_compute. reflexivity. Qed.

(** ** Further properties of the scorers *)

Section SmartScoreMore.

Import ResumeAnalyzer.
Local Open Scope Q_scope.





Example exact_skills_half :
  Breakdown.exact_skills
    (Smart.breakdown
       (calculate_smart_score
          (resume_of ["Python"; "Go"; "Rust"; "SQL"]%string "" 1 []) backend_job 0.5))
  == 1.
Proof. vm_compute. reflexivity. Qed.

(** X2: the final score of [calculate_smart_score] does not decrease when
    the semantic score grows, the resume and the job being fixed. *)
Theorem final_score_monotone_semantic
    (resume_data : Resume.t) (job : Job.t) (sem_a sem_b : Q) :
  sem_a <= sem_b ->
  Smart.final_score (calculate_smart_score resume_data job sem_a)
  <= Smart.final_score (calculate_smart_score resume_data job sem_b).
Proof.
  intros Hsem. unfold calculate_smart_score. cbn [Smart.final_score].
  apply Q.min_le_compat_r.
  apply Qplus_le_compat; [ | apply Qle_refl].
  apply Qplus_le_compat; [apply Qle_refl | ].
  apply Qmult_le_compat_r; [exact Hsem | discriminate].
Qed.

Lemma final_score_monotone_semantic_witness :
  Smart.final_score (calculate_smart_score python_sql_resume backend_job 0.2)
  <= Smart.final_score (calculate_smart_score python_sql_resume backend_job 0.9).
Proof.
  apply (@final_score_monotone_semantic python_sql_resume backend_job 0.2 0.9).
  vm_compute. discriminate.
Defined.

(** X3: the final score of [calculate_smart_score] does not decrease when
    the years of experience of the resume grow, the rest of the resume, the
    job and the semantic score being fixed. *)
Theorem final_score_monotone_years
    (resume_data : Resume.t) (job : Job.t) (sem years_a years_b : Q) :
  years_a <= years_b ->
  Smart.final_score
    (calculate_smart_score (with_years resume_data (Some years_a)) job sem)
  <= Smart.final_score
       (calculate_smart_score (with_years resume_data (Some years_b)) job sem).
Proof.
  intros Hyears. unfold calculate_smart_score.
  cbn [Smart.final_score with_years Resume.skills Resume.projects].
  apply Q.min_le_compat_r.
  apply Qplus_le_compat; [ | apply Qle_refl].
  apply Qplus_le_compat; [ | apply Qle_refl].
  apply Qplus_le_compat; [apply Qle_refl | ].
  apply Qmult_le_compat_r; [ | discriminate].
  apply smart_experience_monotone; [apply required_years_cases | exact Hyears].
Qed.

Lemma final_score_monotone_years_witness :
  Smart.final_score
    (calculate_smart_score (with_years python_sql_resume (Some 4)) senior_job 0.5)
  <= Smart.final_score
       (calculate_smart_score (with_years python_sql_resume (Some 8)) senior_job 0.5).
Proof.
  apply (@final_score_monotone_years python_sql_resume senior_job 0.5 4 8).
  vm_compute. discriminate.
Defined.

End SmartScoreMore.

Section SmartScoreFlags.

Import ResumeAnalyzer.
Local Open Scope Q_scope.

(** X4: for a job that states a number of years, [experience_gap] is 0
    exactly when the experience sub-score is 1; the gap is never negative. *)
Theorem experience_gap_zero_iff (resume_data : Resume.t) (job : Job.t) (sem : Q) :
  0 < required_years job ->
  let r := calculate_smart_score resume_data job sem in
  0 <= Smart.experience_gap r
  /\ (Smart.experience_gap r == 0
      <-> Breakdown.experience (Smart.breakdown r) == 1).
Proof.
  intros Hreq r. subst r. unfold calculate_smart_score.
  cbn [Smart.experience_gap Smart.breakdown Breakdown.experience].
  set (req := required_years job) in *.
  set (c := candidate_years resume_data).
  assert (Hreq1 : 1 <= req).
  { destruct (required_years_cases job) as [H | H]; [ | exact H].
    fold req in H. rewrite H in Hreq. discriminate Hreq. }
  split; [apply Q.le_max_l | ].
  unfold smart_experience_score.
  destruct (Qeq_bool req 0) eqn:E0.
  { apply Qeq_bool_iff in E0. rewrite E0 in Hreq. discriminate Hreq. }
  destruct (Qge_bool c req) eqn:E1.
  - apply Qge_bool_iff in E1. split; intros _; [reflexivity | ].
    apply Q.max_l. lra.
  - apply Qge_bool_false in E1.
    assert (Hgap : ~ Qmax 0 (req - c) == 0).
    { intros H. pose proof (Q.le_max_r 0 (req - c)) as Hle. rewrite H in Hle. lra. }
    split; [intros H; contradiction | ].
    intros H. exfalso.
    destruct (Qge_bool c (req * 0.7)); [discriminate H | ].
    destruct (Qge_bool c (req * 0.5)) eqn:E3; [discriminate H | ].
    apply Qge_bool_false in E3.
    pose proof (low_ratio_bound Hreq1 E3) as Hlow.
    apply Q.min_r_iff in H. lra.
Qed.

Lemma experience_gap_zero_iff_witness :
  let r := calculate_smart_score python_sql_resume backend_job 0.5 in
  0 <= Smart.experience_gap r
  /\ (Smart.experience_gap r == 0
      <-> Breakdown.experience (Smart.breakdown r) == 1).
Proof.
  apply (@experience_gap_zero_iff python_sql_resume backend_job 0.5).
  vm_compute. reflexivity.
Defined.

(** X5: [education_sufficient] is false exactly when the education
    sub-score is one of the two penalised values, 0.85 and 0.6: a
    sufficient degree or a job without requirement gives 1 or 0.8. *)
Theorem education_sufficient_iff (resume_data : Resume.t) (job : Job.t) (sem : Q) :
  let r := calculate_smart_score resume_data job sem in
  Smart.education_sufficient r = false
  <-> (Breakdown.education (Smart.breakdown r) == 0.85
       \/ Breakdown.education (Smart.breakdown r) == 0.6).
Proof.
  intros r. subst r. unfold calculate_smart_score.
  cbn [Smart.education_sufficient Smart.breakdown Breakdown.education].
  unfold smart_education_score.
  destruct (required_level job =? 0)%Z eqn:E0.
  - apply Z.eqb_eq in E0. rewrite E0. cbn [Z.gtb Z.compare].
    split; [discriminate | intros [H | H]; discriminate H].
  - apply Z.eqb_neq in E0.
    assert (Hpos : (0 <= required_level job)%Z).
    { unfold required_level, edu_level. apply edu_fold_ge. }
    replace (required_level job >? 0)%Z with true
      by (symmetry; apply Z.gtb_lt; lia).
    destruct (candidate_level resume_data >=? required_level job)%Z.
    + split; [discriminate | intros [H | H]; discriminate H].
    + split; intros _; [ | reflexivity].
      destruct (candidate_level resume_data =? required_level job - 1)%Z;
        [left | right]; reflexivity.
Qed.

(** X6: a resume dict without any key is scored without error, on the
    defaults: no skill matches, zero years of experience, no degree and no
    project. *)
Theorem empty_resume_scores (job : Job.t) (sem : Q) :
  let r := calculate_smart_score empty_resume job sem in
  Smart.exact_matches r = 0%nat /\ Smart.related_matches r = 0%nat
  /\ Breakdown.exact_skills (Smart.breakdown r) == 0
  /\ Breakdown.related_skills (Smart.breakdown r) == 0
  /\ Breakdown.experience (Smart.breakdown r)
     == (if Qeq_bool (required_years job) 0 then 0.8 else 0)
  /\ Breakdown.education (Smart.breakdown r)
     == (if (required_level job =? 0)%Z then 0.8
         else if (required_level job =? 1)%Z then 0.85 else 0.6)
  /\ Breakdown.projects (Smart.breakdown r)
     == (if asks_for_projects job then 0.4 else 0.7)
  /\ Smart.experience_gap r == required_years job.
Proof.
  intros r. subst r. unfold calculate_smart_score, empty_resume.
  cbn [Smart.exact_matches Smart.related_matches Smart.breakdown
       Smart.experience_gap Breakdown.exact_skills Breakdown.related_skills
       Breakdown.experience Breakdown.education Breakdown.projects
       Resume.skills Resume.projects get_or map].
  unfold candidate_years, candidate_level.
  cbn [Resume.years_of_experience Resume.education get_or Education.level].
  change (edu_level (PyStr.lower "")) with 0%Z.
  change (count_exact [] (PyStr.lower (Job.requirements job))) with 0%nat.
  change (count_related [] (PyStr.lower (Job.requirements job))) with 0%nat.
  set (req := required_years job).
  assert (Hreq : req == 0 \/ 1 <= req) by apply required_years_cases.
  assert (Hlevel : (0 <= required_level job)%Z).
  { unfold required_level, edu_level. apply edu_fold_ge. }
  repeat split; try reflexivity.
  - unfold smart_experience_score.
    destruct (Qeq_bool req 0) eqn:E0; [reflexivity | ].
    destruct Hreq as [H | H]; [apply Qeq_bool_iff in H; congruence | ].
    destruct (Qge_bool 0 req) eqn:E1; [apply Qge_bool_iff in E1; lra | ].
    destruct (Qge_bool 0 (req * 0.7)) eqn:E2; [apply Qge_bool_iff in E2; lra | ].
    destruct (Qge_bool 0 (req * 0.5)) eqn:E3; [apply Qge_bool_iff in E3; lra | ].
    reflexivity.
  - unfold smart_education_score.
    destruct (required_level job =? 0)%Z eqn:E0; [reflexivity | ].
    apply Z.eqb_neq in E0.
    replace (0 >=? required_level job)%Z with false
      by (symmetry; rewrite Z.geb_leb; apply Z.leb_gt; lia).
    destruct (required_level job =? 1)%Z eqn:E1.
    + apply Z.eqb_eq in E1. rewrite E1. reflexivity.
    + apply Z.eqb_neq in E1.
      replace (0 =? required_level job - 1)%Z with false
        by (symmetry; apply Z.eqb_neq; lia).
      reflexivity.
  - rewrite Q.max_r; [ring | ].
    destruct Hreq as [H | H]; [rewrite H; discriminate | lra].
Qed.

End SmartScoreFlags.

(** ** The detailed breakdown *)

Section DetailedBreakdown.

Import ResumeAnalyzer.
Local Open Scope Q_scope.

Lemma detailed_education_unit (cl rl : Z) : in_unit (detailed_education_score cl rl).
Proof.
  unfold detailed_education_score.
  destruct (rl =? 0)%Z; [split; discriminate | ].
  destruct (cl >=? rl)%Z; [split; discriminate | ].
  destruct (cl =? rl - 1)%Z; split; discriminate.
Qed.

Lemma detailed_experience_unit (r c : Q) :
  0 <= c -> in_unit (detailed_experience_score r c).
Proof.
  intros Hc. unfold detailed_experience_score. apply Qmin1_unit.
  destruct (Qeq_bool r 0); [discriminate | ].
  destruct (Qge_bool c r); [discriminate | ].
  destruct (Qge_bool c (r * 0.7)); [discriminate | ].
  apply Qdiv_max1_nonneg, Hc.
Qed.

Lemma detailed_projects_unit (A : Type) (l : list A) :
  in_unit match l with
          | [] => 0.5
          | _ :: _ => Qmin (Qnat (List.length l) / 2) 1
          end.
Proof.
  destruct l as [|x l]; [split; discriminate | apply project_count_unit].
Qed.

(** The four weights of the overall score add up to 1. *)
Lemma average_unit (s e x p : Q) :
  in_unit s -> in_unit e -> in_unit x -> in_unit p ->
  in_unit (s * 0.40 + e * 0.25 + x * 0.25 + p * 0.10).
Proof.
  unfold in_unit. intros [? ?] [? ?] [? ?] [? ?]. split; lra.
Qed.

(** X7: for a resume whose years of experience are not negative, the four
    category scores of [calculate_detailed_breakdown] and its overall score,
    which is not capped, lie in [0,1]. *)
Theorem detailed_scores_in_unit (resume_data : Resume.t) (job : Job.t) :
  0 <= candidate_years resume_data ->
  let d := calculate_detailed_breakdown resume_data job in
  in_unit (SkillsDetail.score (Detailed.skills d))
  /\ in_unit (EducationDetail.score (Detailed.education d))
  /\ in_unit (ExperienceDetail.score (Detailed.experience d))
  /\ in_unit (ProjectsDetail.score (Detailed.projects d))
  /\ in_unit (Detailed.overall d).
Proof.
  intros Hyears d. subst d. unfold calculate_detailed_breakdown.
  cbn [Detailed.skills Detailed.education Detailed.experience Detailed.projects
       Detailed.overall SkillsDetail.score EducationDetail.score
       ExperienceDetail.score ProjectsDetail.score].
  assert (Hs := ratio_unit
    (count_exact (map PyStr.lower (get_or (Resume.skills resume_data) []))
                 (PyStr.lower (Job.requirements job)))
    (Qnat (total_skills (map PyStr.lower (get_or (Resume.skills resume_data) [])))
     * 0.5)).
  assert (He := detailed_education_unit (candidate_level resume_data)
                                        (required_level job)).
  assert (Hx := detailed_experience_unit (required_years job) Hyears).
  assert (Hp := detailed_projects_unit (get_or (Resume.projects resume_data) [])).
  repeat split; try apply Hs; try apply He; try apply Hx; try apply Hp;
    apply average_unit; assumption.
Qed.

Lemma detailed_scores_in_unit_witness :
  let d := calculate_detailed_breakdown python_sql_resume senior_job in
  in_unit (SkillsDetail.score (Detailed.skills d))
  /\ in_unit (EducationDetail.score (Detailed.education d))
  /\ in_unit (ExperienceDetail.score (Detailed.experience d))
  /\ in_unit (ProjectsDetail.score (Detailed.projects d))
  /\ in_unit (Detailed.overall d).
Proof.
  apply (@detailed_scores_in_unit python_sql_resume senior_job).
  vm_compute. discriminate.
Defined.

Lemma mid_ratio_bound (r c : Q) :
  1 <= r -> c < r * 0.7 -> c / Qmax r 1 <= 0.7.
Proof.
  intros Hr Hc.
  apply Qle_shift_div_r; [apply Qmax_1_pos | ].
  rewrite (Q.max_l r 1 Hr). lra.
Qed.

(** X8: the experience score of [calculate_detailed_breakdown] does not
    decrease when the years of experience grow, the job being fixed. *)
Theorem detailed_experience_monotone
    (resume_a resume_b : Resume.t) (job : Job.t) :
  candidate_years resume_a <= candidate_years resume_b ->
  ExperienceDetail.score
    (Detailed.experience (calculate_detailed_breakdown resume_a job))
  <= ExperienceDetail.score
       (Detailed.experience (calculate_detailed_breakdown resume_b job)).
Proof.
  intros Hab. unfold calculate_detailed_breakdown.
  cbn [Detailed.experience ExperienceDetail.score].
  set (r := required_years job).
  set (a := candidate_years resume_a) in *.
  set (b := candidate_years resume_b) in *.
  unfold detailed_experience_score. apply Q.min_le_compat_r.
  destruct (Qeq_bool r 0) eqn:E0; [apply Qle_refl | ].
  assert (Hr : 1 <= r).
  { destruct (required_years_cases job) as [H | H]; [ | exact H].
    apply Qeq_bool_iff in H. fold r in H. congruence. }
  destruct (Qge_bool b r) eqn:Eb1.
  { destruct (Qge_bool a r); [apply Qle_refl | ].
    destruct (Qge_bool a (r * 0.7)) eqn:Ea2; [discriminate | ].
    apply Qge_bool_false in Ea2.
    pose proof (mid_ratio_bound Hr Ea2). lra. }
  apply Qge_bool_false in Eb1.
  destruct (Qge_bool a r) eqn:Ea1.
  { apply Qge_bool_iff in Ea1. lra. }
  destruct (Qge_bool b (r * 0.7)) eqn:Eb2.
  { destruct (Qge_bool a (r * 0.7)) eqn:Ea2; [apply Qle_refl | ].
    apply Qge_bool_false in Ea2.
    pose proof (mid_ratio_bound Hr Ea2). lra. }
  apply Qge_bool_false in Eb2.
  destruct (Qge_bool a (r * 0.7)) eqn:Ea2.
  { apply Qge_bool_iff in Ea2. lra. }
  apply ratio_monotone, Hab.
Qed.

Lemma detailed_experience_monotone_witness :
  ExperienceDetail.score
    (Detailed.experience
       (calculate_detailed_breakdown (resume_of [] "" 4 []) senior_job))
  <= ExperienceDetail.score
       (Detailed.experience
          (calculate_detailed_breakdown (resume_of [] "" 7 []) senior_job)).
Proof.
  apply (@detailed_experience_monotone
           (resume_of [] "" 4 []) (resume_of [] "" 7 []) senior_job).
  vm_compute. discriminate.
Defined.

(** X9: the two scorers agree on what they share: the skills score of the
    detailed breakdown is the exact-skills sub-score of the smart score,
    with the same match count, and the experience gaps are equal; and the
    education sub-score of the smart score is never below the education
    score of the detailed breakdown. *)
Theorem scorers_agree (resume_data : Resume.t) (job : Job.t) (sem : Q) :
  let r := calculate_smart_score resume_data job sem in
  let d := calculate_detailed_breakdown resume_data job in
  SkillsDetail.score (Detailed.skills d) = Breakdown.exact_skills (Smart.breakdown r)
  /\ SkillsDetail.matched (Detailed.skills d) = Smart.exact_matches r
  /\ ExperienceDetail.gap (Detailed.experience d) = Smart.experience_gap r
  /\ EducationDetail.score (Detailed.education d)
     <= Breakdown.education (Smart.breakdown r).
Proof.
  intros r d. subst r d.
  unfold calculate_smart_score, calculate_detailed_breakdown.
  cbn [Detailed.skills Detailed.experience Detailed.education
       SkillsDetail.score SkillsDetail.matched ExperienceDetail.gap
       EducationDetail.score Smart.breakdown Smart.exact_matches
       Smart.experience_gap Breakdown.exact_skills Breakdown.education].
  repeat split.
  unfold smart_education_score, detailed_education_score.
  destruct (required_level job =? 0)%Z; [discriminate | ].
  destruct (candidate_level resume_data >=? required_level job)%Z;
    [discriminate | ].
  destruct (candidate_level resume_data =? required_level job - 1)%Z;
    discriminate.
Qed.

(** The experience scores of the two scorers are not ordered: at 68% of
    the requirement the smart score gives 0.65 and the detailed breakdown
    the ratio 0.68, at 80% the smart score gives 0.85 and the detailed
    breakdown 0.8, below 50% both give the ratio. *)
Example experience_scores_cross :
  smart_experience_score 10 6.8 < detailed_experience_score 10 6.8
  /\ detailed_experience_score 10 8 < smart_experience_score 10 8
  /\ smart_experience_score 10 3 == detailed_experience_score 10 3.
Proof. repeat split; vm_compute; reflexivity. Qed.

End DetailedBreakdown.

(** ** Missing skills *)

Section MissingSkills.

Import ResumeAnalyzer.
Local Open Scope string_scope.

Lemma prefix_append (sub rest : string) : String.prefix sub (sub ++ rest) = true.
Proof.
  induction sub as [|c sub IH]; cbn [append String.prefix].
  - destruct rest; reflexivity.
  - destruct (ascii_dec c c) as [_ | Hne]; [exact IH | congruence].
Qed.

Lemma prefix_split (sub s : string) :
  String.prefix sub s = true -> exists rest, s = sub ++ rest.
Proof.
  revert sub. induction s as [|c s IH]; intros sub H.
  - destruct sub; [exists ""; reflexivity | discriminate H].
  - destruct sub as [|d sub]; [exists (String c s); reflexivity | ].
    cbn [String.prefix] in H. destruct (ascii_dec d c) as [E | _];
      [ | discriminate H].
    destruct (IH sub H) as (rest & Hrest).
    exists rest. subst d. cbn [append]. rewrite <- Hrest. reflexivity.
Qed.

(** [sub in s] holds exactly when [s] is some text, [sub], some text. *)
Lemma contains_append (before sub after : string) :
  PyStr.contains sub (before ++ sub ++ after) = true.
Proof.
  induction before as [|c before IH]; cbn [append].
  - destruct (sub ++ after) eqn:E; cbn [PyStr.contains];
      rewrite <- E, prefix_append; reflexivity.
  - cbn [PyStr.contains]. rewrite IH. apply orb_true_r.
Qed.

Lemma contains_split (sub s : string) :
  PyStr.contains sub s = true -> exists before after, s = before ++ sub ++ after.
Proof.
  induction s as [|c s IH]; cbn [PyStr.contains]; intros H.
  - rewrite orb_false_r in H. apply prefix_split in H.
    destruct H as (rest & H). exists "", rest. exact H.
  - apply orb_true_iff in H. destruct H as [H | H].
    + apply prefix_split in H. destruct H as (rest & H).
      exists "", rest. exact H.
    + destruct (IH H) as (before & after & Hs).
      exists (String c before), after. cbn [append]. rewrite Hs. reflexivity.
Qed.

Lemma append_assoc (a b c : string) : (a ++ b) ++ c = a ++ b ++ c.
Proof.
  induction a as [|x a IH]; cbn [append]; [reflexivity | rewrite IH; reflexivity].
Qed.

Lemma contains_trans (x y z : string) :
  PyStr.contains x y = true -> PyStr.contains y z = true ->
  PyStr.contains x z = true.
Proof.
  intros Hxy Hyz.
  apply contains_split in Hxy. destruct Hxy as (a & b & Hy).
  apply contains_split in Hyz. destruct Hyz as (c & d & Hz).
  subst y z.
  replace (c ++ (a ++ x ++ b) ++ d) with ((c ++ a) ++ x ++ (b ++ d)).
  - apply contains_append.
  - rewrite !append_assoc. reflexivity.
Qed.

Lemma append_empty (s : string) : s ++ "" = s.
Proof.
  induction s as [|c s IH]; cbn [append]; [reflexivity | rewrite IH; reflexivity].
Qed.

Lemma contains_self (x : string) : PyStr.contains x x = true.
Proof.
  pose proof (contains_append "" x "") as H.
  cbn [append] in H. rewrite append_empty in H. exact H.
Qed.

(** Every element of a list occurs in the joined text. *)
Lemma contains_join (x : string) (l : list string) :
  In x l -> PyStr.contains x (PyStr.join l) = true.
Proof.
  unfold PyStr.join. induction l as [|y l IH]; intros Hin; [destruct Hin | ].
  destruct l as [|z l].
  - destruct Hin as [-> | []]. apply contains_self.
  - change (String.concat " " (y :: z :: l))
      with (y ++ " " ++ String.concat " " (z :: l)).
    destruct Hin as [-> | Hin].
    + apply (contains_append "" x).
    + apply contains_trans with (String.concat " " (z :: l)); [apply IH, Hin | ].
      replace (y ++ " " ++ String.concat " " (z :: l))
        with ((y ++ " ") ++ String.concat " " (z :: l) ++ "")
        by (rewrite append_assoc, append_empty; reflexivity).
      apply contains_append.
Qed.

Lemma top_skills_incl (n : nat) (skills : list string) (x : string) :
  In x (firstn n skills) -> In x skills.
Proof.
  revert n. induction skills as [|y rest IH]; intros [|n]; cbn [firstn];
    intros Hin; try (destruct Hin; fail).
  destruct Hin as [Hin | Hin]; [left; exact Hin | right; apply (IH n), Hin].
Qed.

Lemma top_skills_nodup (n : nat) (skills : list string) :
  NoDup skills -> NoDup (firstn n skills).
Proof.
  revert n. induction skills as [|y rest IH]; intros [|n] Hnd; cbn [firstn];
    try constructor.
  - inversion Hnd as [|? ? Hy Hrest]; subst.
    intros Hin. apply Hy. apply (top_skills_incl n), Hin.
  - inversion Hnd; subst. apply IH. assumption.
Qed.

(** X10: [identify_missing_skills] returns at most five skills, without
    repetition; each is a vocabulary skill whose lower-case form occurs in
    the job's requirements and does not occur in the joined lower-case
    skills of the resume. *)
Theorem missing_skills_sound (resume_data : Resume.t) (job : Job.t) :
  let missing := identify_missing_skills resume_data job in
  (List.length missing <= 5)%nat
  /\ NoDup missing
  /\ Forall (fun skill =>
               In skill skill_keywords
               /\ PyStr.contains (PyStr.lower skill)
                    (PyStr.lower (Job.requirements job)) = true
               /\ PyStr.contains (PyStr.lower skill)
                    (PyStr.join (map PyStr.lower
                                   (get_or (Resume.skills resume_data) [])))
                  = false) missing.
Proof.
  intros missing. subst missing. unfold identify_missing_skills.
  split; [apply firstn_le_length | split].
  - apply top_skills_nodup, NoDup_filter.
    apply (NoDup_map_inv PyStr.lower), skill_keywords_case_distinct.
  - apply Forall_forall. intros skill Hin.
    assert (Hin' := top_skills_incl _ _ _ Hin).
    apply filter_In in Hin'. destruct Hin' as (Hvoc & Hcond).
    apply andb_true_iff in Hcond. destruct Hcond as (Hreq & Hres).
    apply negb_true_iff in Hres. tauto.
Qed.

Lemma missing_skill_unlisted (resume_data : Resume.t) (job : Job.t)
    (skill : string) :
  In skill (identify_missing_skills resume_data job) ->
  PyStr.contains (PyStr.lower skill)
    (PyStr.join (map PyStr.lower (get_or (Resume.skills resume_data) []))) = false.
Proof.
  unfold identify_missing_skills. intros Hin.
  assert (Hin' := top_skills_incl _ _ _ Hin).
  apply filter_In in Hin'. destruct Hin' as (_ & Hcond).
  apply andb_true_iff in Hcond. destruct Hcond as (_ & Hres).
  apply negb_true_iff in Hres. exact Hres.
Qed.

(** X11: a vocabulary skill whose lower-case form occurs inside a skill the
    resume lists (in any casing) is never reported missing; in particular a
    listed skill is never reported. *)
Theorem listed_skill_never_missing (resume_data : Resume.t) (job : Job.t)
    (skill listed : string) :
  In listed (get_or (Resume.skills resume_data) []) ->
  PyStr.contains (PyStr.lower skill) (PyStr.lower listed) = true ->
  ~ In skill (identify_missing_skills resume_data job).
Proof.
  intros Hlisted Hsub Hin.
  pose proof (missing_skill_unlisted _ _ _ Hin) as Hres.
  assert (Hjoin : PyStr.contains (PyStr.lower skill)
                    (PyStr.join (map PyStr.lower
                                   (get_or (Resume.skills resume_data) []))) = true).
  { apply contains_trans with (PyStr.lower listed); [exact Hsub | ].
    apply contains_join, in_map, Hlisted. }
  congruence.
Qed.

(** A resume listing JavaScript is not told that Java is missing. *)
Lemma listed_skill_never_missing_witness :
  ~ In "Java"
      (identify_missing_skills (resume_of ["JavaScript"] "" 1 [])
         {| Job.id := 3; Job.title := "Developer"; Job.company := "";
            Job.description := ""; Job.requirements := "Java and SQL";
            Job.experience := None; Job.education_required := None;
            Job.projects_required := None |}).
Proof.
  apply (@listed_skill_never_missing
           (resume_of ["JavaScript"] "" 1 [])
           {| Job.id := 3; Job.title := "Developer"; Job.company := "";
              Job.description := ""; Job.requirements := "Java and SQL";
              Job.experience := None; Job.education_required := None;
              Job.projects_required := None |}
           "Java" "JavaScript").
  - simpl. left. reflexivity.
  - vm_compute. reflexivity.
Defined.

(** The first five missing skills, in vocabulary order; "R" and "C" are
    among them because the letters occur in the requirements. *)
Example missing_skills_sample :
  identify_missing_skills python_sql_resume
    {| Job.id := 3; Job.title := "Developer"; Job.company := "";
       Job.description := ""; Job.requirements := "React, Docker and AWS";
       Job.experience := None; Job.education_required := None;
       Job.projects_required := None |}
  = ["R"; "C"; "React"; "AWS"; "Docker"].
Proof. vm_compute. reflexivity. Qed.

End MissingSkills.

(** ** Further properties of the vector index front end *)

Section MatcherMore.

Local Open Scope Q_scope.

Variables Vec Index : Type.
Variable encode : string -> Vec.
Variable index_of : list Vec -> Index.
Variable index_search : Index -> Vec -> nat -> list (Z * Q).

(** X12: [build_job_index] raises exactly when the list of jobs is empty,
    with the [ValueError] of [self.index.add]; when it returns, it returns
    the index it stored, the stored jobs are the new list, and the matcher
    is ready whatever it was before: [find_matching_jobs] does not raise the
    "index not built" error. *)
Theorem build_makes_matcher_ready
    (self : JobMatcher.t Index) (new_jobs : list Job.t) (profile : Profile.t)
    (top_k : nat) :
  let built := JobMatcher.build_job_index encode index_of self new_jobs in
  match snd built with
  | Raise e => new_jobs = [] /\ e = JobMatcher.add_rejected
  | Ok ix =>
      new_jobs <> []
      /\ JobMatcher.index (fst built) = Some ix
      /\ JobMatcher.jobs (fst built) = new_jobs
      /\ JobMatcher.find_matching_jobs encode index_search (fst built)
           profile top_k
         <> Raise JobMatcher.not_built
  end.
Proof.
  destruct new_jobs as [|job rest].
  - cbn. split; reflexivity.
  - cbv zeta. rewrite build_job_index_some.
    cbn [snd fst JobMatcher.index JobMatcher.jobs].
    split; [discriminate | split; [reflexivity | split; [reflexivity | ]]].
    unfold JobMatcher.find_matching_jobs.
    cbn [JobMatcher.index JobMatcher.jobs].
    intros H. apply collect_results_no_value_error in H. destruct H.
Qed.

Lemma py_index_last (A : Type) (front : list A) (x : A) :
  py_index (front ++ [x]) (-1) = Ok x.
Proof.
  unfold py_index. rewrite length_app. cbn [List.length Z.ltb Z.compare].
  replace ((0 <=? -1 + Z.of_nat (List.length front + 1))%Z
           && (-1 + Z.of_nat (List.length front + 1)
               <? Z.of_nat (List.length front + 1))%Z)%bool with true
    by (symmetry; apply andb_true_iff; split;
        [apply Z.leb_le | apply Z.ltb_lt]; lia).
  replace (Z.to_nat (-1 + Z.of_nat (List.length front + 1)))
    with (List.length front) by lia.
  rewrite nth_error_app2 by lia. rewrite Nat.sub_diag. reflexivity.
Qed.

(** X13: the test [idx < len(self.jobs)] lets negative indices through: when
    the search answers with the single label -1, [find_matching_jobs]
    returns the last stored job, scored from the distance given with it. *)
Theorem no_result_label_gives_last_job
    (self : JobMatcher.t Index) (ix : Index) (front : list Job.t) (job : Job.t)
    (profile : Profile.t) (top_k : nat) (distance : Q) :
  JobMatcher.index self = Some ix ->
  JobMatcher.jobs self = front ++ [job] ->
  index_search ix (JobMatcher.create_profile_embedding encode profile)
    (Nat.min top_k (List.length (front ++ [job]))) = [((-1)%Z, distance)] ->
  JobMatcher.find_matching_jobs encode index_search self profile top_k
  = Ok [(job, 1 / (1 + distance))].
Proof.
  intros Hix Hjobs Hhits. unfold JobMatcher.find_matching_jobs.
  rewrite Hix, Hjobs, Hhits.
  destruct (front ++ [job]) as [|j0 rest] eqn:E.
  { destruct front; discriminate E. }
  rewrite <- E. cbn [JobMatcher.collect_results].
  replace (-1 <? Z.of_nat (List.length (front ++ [job])))%Z with true
    by (symmetry; apply Z.ltb_lt; lia).
  rewrite py_index_last. reflexivity.
Qed.

(** The scores of the returned pairs, and the jobs. *)
Lemma collect_results_spec (stored : list Job.t) (hits : list (Z * Q))
    (results : list (Job.t * Q)) :
  JobMatcher.collect_results stored hits = Ok results ->
  (List.length results <= List.length hits)%nat
  /\ Forall (fun r => In (fst r) stored) results
  /\ ((forall i d, In (i, d) hits -> 0 <= d) ->
      Forall (fun r => 0 < snd r /\ snd r <= 1) results).
Proof.
  revert results. induction hits as [|[idx distance] rest IH]; intros results;
    cbn [JobMatcher.collect_results].
  - intros H. inversion H. repeat split; constructor.
  - destruct (idx <? Z.of_nat (List.length stored))%Z.
    + destruct (py_index stored idx) as [job | e] eqn:Ejob;
        cbn [bind]; [ | discriminate].
      destruct (JobMatcher.collect_results stored rest) as [rs | e];
        cbn [bind]; [ | discriminate].
      intros H. inversion H. subst results. clear H.
      destruct (IH rs eq_refl) as (Hlen & Hin & Hscore).
      split; [cbn [List.length]; lia | split].
      * constructor; [ | exact Hin]. cbn [fst].
        unfold py_index in Ejob.
        destruct ((0 <=? _)%Z && _)%bool; [ | discriminate Ejob].
        destruct (nth_error stored _) as [x|] eqn:En; [ | discriminate Ejob].
        inversion Ejob. subst x. apply nth_error_In in En. exact En.
      * intros Hd. constructor.
        -- cbn [snd].
           assert (H0 : 0 <= distance) by (apply (Hd idx); left; reflexivity).
           assert (Hpos : 0 < 1 + distance) by lra.
           split.
           ++ apply Qlt_shift_div_l; [exact Hpos | lra].
           ++ apply Qle_shift_div_r; [exact Hpos | lra].
        -- apply Hscore. intros i d Hi. apply (Hd i). right. exact Hi.
    + intros H. destruct (IH results H) as (Hlen & Hin & Hscore).
      split; [cbn [List.length]; lia | split; [exact Hin | ]].
      intros Hd. apply Hscore. intros i d Hi. apply (Hd i). right. exact Hi.
Qed.

(** X14: when the search returns at most [k] hits for [k] requested,
    [find_matching_jobs] returns at most [min(top_k, len(jobs))] pairs, and
    every returned job is one of the stored jobs. *)
Theorem find_matching_jobs_bounded
    (self : JobMatcher.t Index) (profile : Profile.t) (top_k : nat)
    (results : list (Job.t * Q)) :
  (forall ix v k, (List.length (index_search ix v k) <= k)%nat) ->
  JobMatcher.find_matching_jobs encode index_search self profile top_k
  = Ok results ->
  (List.length results <= Nat.min top_k (List.length (JobMatcher.jobs self)))%nat
  /\ Forall (fun r => In (fst r) (JobMatcher.jobs self)) results.
Proof.
  intros Hk. unfold JobMatcher.find_matching_jobs.
  destruct (JobMatcher.index self) as [ix|]; [ | discriminate].
  destruct (JobMatcher.jobs self) as [|job rest] eqn:E; [discriminate | ].
  intros H. apply collect_results_spec in H. destruct H as (Hlen & Hin & _).
  split; [ | exact Hin].
  eapply Nat.le_trans; [exact Hlen | apply Hk].
Qed.

(** X15: when the search returns no negative distance, every similarity
    score returned by [find_matching_jobs] is greater than 0 and at most
    1. *)
Theorem similarity_scores_in_unit
    (self : JobMatcher.t Index) (profile : Profile.t) (top_k : nat)
    (results : list (Job.t * Q)) :
  (forall ix v k i d, In (i, d) (index_search ix v k) -> 0 <= d) ->
  JobMatcher.find_matching_jobs encode index_search self profile top_k
  = Ok results ->
  Forall (fun r => 0 < snd r /\ snd r <= 1) results.
Proof.
  intros Hd. unfold JobMatcher.find_matching_jobs.
  destruct (JobMatcher.index self) as [ix|]; [ | discriminate].
  destruct (JobMatcher.jobs self) as [|job rest] eqn:E; [discriminate | ].
  intros H. apply collect_results_spec in H. destruct H as (_ & _ & Hscore).
  apply Hscore. intros i d Hi. exact (Hd _ _ _ i d Hi).
Qed.

End MatcherMore.

Lemma no_result_label_gives_last_job_witness :
  JobMatcher.find_matching_jobs toy_encode toy_search_none
    {| JobMatcher.index := Some (toy_index_of []);
       JobMatcher.jobs := [backend_job; senior_job] |}
    (App.profile_of toy_session) 10
  = Ok [(senior_job, 1 / (1 + 3))].
Proof.
  apply (@no_result_label_gives_last_job string (list string) toy_encode
           toy_search_none
           {| JobMatcher.index := Some (toy_index_of []);
              JobMatcher.jobs := [backend_job; senior_job] |}
           (toy_index_of []) [backend_job] senior_job
           (App.profile_of toy_session) 10 3); reflexivity.
Defined.

Lemma find_matching_jobs_bounded_witness :
  (List.length [(backend_job, 1 / (1 + 1))] <= Nat.min 1 2)%nat
  /\ Forall (fun r => In (fst r) [backend_job; senior_job])
       [(backend_job, 1 / (1 + 1))].
Proof.
  apply (@find_matching_jobs_bounded string (list string) toy_encode toy_search
           (fst (JobMatcher.build_job_index toy_encode toy_index_of
                   (JobMatcher.init (list string)) [backend_job; senior_job]))
           (App.profile_of toy_session) 1 [(backend_job, 1 / (1 + 1))]).
  - intros ix v k. unfold toy_search. rewrite length_map, length_seq. lia.
  - reflexivity.
Defined.

Lemma similarity_scores_in_unit_witness :
  Forall (fun r => 0 < snd r /\ snd r <= 1)%Q [(backend_job, 1 / (1 + 1))].
Proof.
  apply (@similarity_scores_in_unit string (list string) toy_encode toy_search
           (fst (JobMatcher.build_job_index toy_encode toy_index_of
                   (JobMatcher.init (list string)) [backend_job; senior_job]))
           (App.profile_of toy_session) 1 [(backend_job, 1 / (1 + 1))]).
  - intros ix v k i d Hin. unfold toy_search in Hin.
    apply in_map_iff in Hin. destruct Hin as (n & Hn & _).
    inversion Hn. discriminate.
  - reflexivity.
Defined.

(** ** Further properties of the matching loop *)

Section Ties.

Import App.
Local Open Scope Q_scope.

(** Inserting keeps the entries of a given score in their order, the
    inserted one first. *)
Lemma insert_desc_same_score (c : Q) (x : scored) (l : list scored) :
  filter (fun y => Qeq_bool (score_of y) c) (insert_desc x l)
  = if Qeq_bool (score_of x) c
    then x :: filter (fun y => Qeq_bool (score_of y) c) l
    else filter (fun y => Qeq_bool (score_of y) c) l.
Proof.
  induction l as [|y l IH]; cbn [insert_desc filter].
  - reflexivity.
  - destruct (Qle_bool (score_of y) (score_of x)) eqn:Ele; cbn [filter].
    + reflexivity.
    + rewrite IH.
      destruct (Qeq_bool (score_of x) c) eqn:Ex; [ | reflexivity].
      replace (Qeq_bool (score_of y) c) with false; [reflexivity | ].
      symmetry. apply not_true_is_false. intros Ey.
      apply Qeq_bool_iff in Ex. apply Qeq_bool_iff in Ey.
      assert (Hle : score_of y <= score_of x)
        by (rewrite Ex, Ey; apply Qle_refl).
      apply Qle_bool_iff in Hle. congruence.
Qed.

Lemma sort_desc_same_score (c : Q) (l : list scored) :
  filter (fun y => Qeq_bool (score_of y) c) (sort_desc l)
  = filter (fun y => Qeq_bool (score_of y) c) l.
Proof.
  induction l as [|x l IH]; cbn [sort_desc fold_right filter]; [reflexivity | ].
  change (fold_right insert_desc [] l) with (sort_desc l).
  rewrite insert_desc_same_score, IH. reflexivity.
Qed.

End Ties.

Section MatchPipelineMore.

Import App.
Local Open Scope Q_scope.

Variables Vec Index : Type.
Variable encode : string -> Vec.
Variable index_of : list Vec -> Index.
Variable index_search : Index -> Vec -> nat -> list (Z * Q).

Lemma show_job_results_value (st : session Index) (jobs : list Job.t)
    (m : JobMatcher.t Index) (ml : list (Job.t * Q)) :
  matcher_of encode index_of st jobs = Ok m ->
  JobMatcher.find_matching_jobs encode index_search m (profile_of st)
    (List.length (filter_jobs (selected_roles st) jobs)) = Ok ml ->
  snd (show_job_results encode index_of index_search st jobs)
  = Ok (sort_desc (map (scored_entry (parsed_resume_data st) ml)
                       (filter_jobs (selected_roles st) jobs))).
Proof.
  intros Hm Hml. unfold show_job_results. rewrite Hm.
  destruct (filter_jobs (selected_roles st) jobs) as [|job rest] eqn:E;
    [reflexivity | ].
  cbn [snd]. erewrite score_all_ok; [reflexivity | exact Hml].
Qed.

(** X16: jobs that get the same final score are ranked in catalog order:
    for every score, the returned jobs with that score are the
    role-filtered jobs with that score, in the order of the catalog. *)
Theorem ties_keep_catalog_order (st : session Index) (jobs : list Job.t)
    (m : JobMatcher.t Index) (ml : list (Job.t * Q)) (matches : list scored)
    (c : Q) :
  matcher_of encode index_of st jobs = Ok m ->
  JobMatcher.find_matching_jobs encode index_search m (profile_of st)
    (List.length (filter_jobs (selected_roles st) jobs)) = Ok ml ->
  snd (show_job_results encode index_of index_search st jobs) = Ok matches ->
  map job_of (filter (fun x => Qeq_bool (score_of x) c) matches)
  = filter (fun job =>
              Qeq_bool (Smart.final_score
                          (ResumeAnalyzer.calculate_smart_score
                             (parsed_resume_data st) job (lookup_semantic ml job)))
                       c)
           (filter_jobs (selected_roles st) jobs).
Proof.
  intros Hm Hml Hout. rewrite (show_job_results_value _ _ Hm Hml) in Hout.
  inversion Hout. subst matches. clear Hout.
  rewrite sort_desc_same_score. clear Hml.
  generalize (filter_jobs (selected_roles st) jobs). intros l.
  induction l as [|job rest IH]; cbn [map filter]; [reflexivity | ].
  change (score_of (scored_entry (parsed_resume_data st) ml job))
    with (Smart.final_score
            (ResumeAnalyzer.calculate_smart_score
               (parsed_resume_data st) job (lookup_semantic ml job))).
  destruct (Qeq_bool _ c); cbn [map]; rewrite IH; reflexivity.
Qed.

Lemma scored_entry_fields (resume_data : Resume.t) (ml : list (Job.t * Q))
    (job : Job.t) :
  let x := scored_entry resume_data ml job in
  let d := ResumeAnalyzer.calculate_detailed_breakdown resume_data (job_of x) in
  Detailed.overall (snd x) = score_of x
  /\ option_map Smart.final_score (Detailed.smart_score (snd x))
     = Some (score_of x)
  /\ Detailed.skills (snd x) = Detailed.skills d
  /\ Detailed.education (snd x) = Detailed.education d
  /\ Detailed.experience (snd x) = Detailed.experience d
  /\ Detailed.projects (snd x) = Detailed.projects d.
Proof.
  cbv beta zeta delta [scored_entry score_of job_of snd fst option_map
                       Detailed.overall Detailed.smart_score Detailed.skills
                       Detailed.education Detailed.experience Detailed.projects]
      iota.
  repeat split.
Qed.

(** X17: in every returned entry the [overall] field of the breakdown is
    overwritten with the final score of the smart score, which is stored
    under [smart_score]; the four categories are those of
    [calculate_detailed_breakdown]. *)
Theorem breakdown_overall_is_smart_score (st : session Index)
    (jobs : list Job.t) (matches : list scored) :
  snd (show_job_results encode index_of index_search st jobs) = Ok matches ->
  Forall (fun x =>
            let d := ResumeAnalyzer.calculate_detailed_breakdown
                       (parsed_resume_data st) (job_of x) in
            Detailed.overall (snd x) = score_of x
            /\ option_map Smart.final_score (Detailed.smart_score (snd x))
               = Some (score_of x)
            /\ Detailed.skills (snd x) = Detailed.skills d
            /\ Detailed.education (snd x) = Detailed.education d
            /\ Detailed.experience (snd x) = Detailed.experience d
            /\ Detailed.projects (snd x) = Detailed.projects d) matches.
Proof.
  unfold show_job_results.
  destruct (matcher_of encode index_of st jobs) as [m | e]; [ | discriminate].
  destruct (filter_jobs (selected_roles st) jobs) as [|job rest] eqn:E.
  - intros H. inversion H. constructor.
  - cbn [snd].
    destruct (JobMatcher.find_matching_jobs encode index_search
                m (profile_of st)
                (List.length (job :: rest))) as [ml | e] eqn:Hml.
    + erewrite score_all_ok; [ | exact Hml]. cbn [bind].
      intros H. injection H as H. subst matches.
      apply Forall_forall. intros x Hx.
      apply (Permutation_in _
               (sort_desc_perm
                  (map (scored_entry (parsed_resume_data st) ml) (job :: rest))))
        in Hx.
      apply in_map_iff in Hx. destruct Hx as (j & <- & _).
      apply scored_entry_fields.
    + cbn [score_all]. unfold score_job. rewrite Hml. cbn [bind]. discriminate.
Qed.

End MatchPipelineMore.

(** Two different postings tie: [staff_job] and [senior_job] ask for the
    same and get the same final score, below that of [backend_job], which
    stands between them in the catalog.  Among the ranked matches the two
    are found in catalog order, the one with the larger id first. *)
Lemma ties_keep_catalog_order_witness :
  map App.job_of
    (filter (fun x => Qeq_bool (App.score_of x) 0.81%Q)
       (App.sort_desc
          (map (App.scored_entry python_sql_resume
                  [(staff_job, 1 / (1 + 1)); (backend_job, 1 / (1 + 1));
                   (senior_job, 1 / (1 + 1))])
               [staff_job; backend_job; senior_job])))
  = [staff_job; senior_job].
Proof.
  etransitivity.
  - apply (@ties_keep_catalog_order string (list string) toy_encode
             toy_index_of toy_search toy_session
             [staff_job; backend_job; senior_job]
             (fst (JobMatcher.build_job_index toy_encode toy_index_of
                     (JobMatcher.init (list string))
                     [staff_job; backend_job; senior_job]))
             [(staff_job, 1 / (1 + 1)); (backend_job, 1 / (1 + 1));
              (senior_job, 1 / (1 + 1))]
             _ 0.81%Q); reflexivity.
  - vm_compute. reflexivity.
Defined.

(** The whole ranking of that catalog: the backend job, then the two tied
    postings as the catalog has them. *)
Example ties_sample :
  match snd (App.show_job_results toy_encode toy_index_of toy_search toy_session
               [staff_job; backend_job; senior_job]) with
  | Ok matches =>
      map (fun x => (Job.id (App.job_of x), Qred (App.score_of x))) matches
      = [(1%Z, 0.9%Q); (3%Z, 0.81%Q); (2%Z, 0.81%Q)]
  | Raise _ => False
  end.
Proof. vm_compute. reflexivity. Qed.

Lemma breakdown_overall_is_smart_score_witness :
  Forall (fun x =>
            let d := ResumeAnalyzer.calculate_detailed_breakdown
                       python_sql_resume (App.job_of x) in
            Detailed.overall (snd x) = App.score_of x
            /\ option_map Smart.final_score (Detailed.smart_score (snd x))
               = Some (App.score_of x)
            /\ Detailed.skills (snd x) = Detailed.skills d
            /\ Detailed.education (snd x) = Detailed.education d
            /\ Detailed.experience (snd x) = Detailed.experience d
            /\ Detailed.projects (snd x) = Detailed.projects d)
    (App.sort_desc
       (map (App.scored_entry python_sql_resume
               [(backend_job, 1 / (1 + 1)); (senior_job, 1 / (1 + 1))])
            [backend_job; senior_job])).
Proof.
  apply (@breakdown_overall_is_smart_score string (list string) toy_encode
           toy_index_of toy_search toy_session [backend_job; senior_job]).
  reflexivity.
Defined.

(** ** The role selection *)

Section Roles.

Import RoleSelection.
Local Open Scope string_scope.

Lemma lower_empty_iff (s : string) : PyStr.lower s = "" <-> s = "".
Proof.
  destruct s; cbn [PyStr.lower]; split; intros H; try reflexivity; discriminate H.
Qed.

(** X22: the role search is case-insensitive: two queries equal up to case
    show the same roles (an empty query shows all of them), every role
    shown is one of [JOB_ROLES], and searching for a role's full name in
    any casing shows that role. *)
Theorem role_search_case_insensitive (query_a query_b : string) :
  PyStr.lower query_a = PyStr.lower query_b ->
  filter_roles query_a = filter_roles query_b
  /\ (forall role, In role (filter_roles query_a) -> In role JOB_ROLES)
  /\ (forall role, In role JOB_ROLES ->
                   PyStr.lower role = PyStr.lower query_a ->
                   In role (filter_roles query_a)).
Proof.
  intros Hlow. split; [ | split].
  - unfold filter_roles.
    destruct query_a as [|a qa]; destruct query_b as [|b qb];
      try reflexivity; try discriminate Hlow.
    rewrite Hlow. reflexivity.
  - intros role. unfold filter_roles. destruct query_a; [tauto | ].
    intros Hin. apply filter_In in Hin. tauto.
  - intros role Hrole Hname. unfold filter_roles.
    destruct query_a as [|a qa]; [exact Hrole | ].
    apply filter_In. split; [exact Hrole | ].
    rewrite <- Hname. apply contains_self.
Qed.

Lemma role_search_case_insensitive_witness :
  filter_roles "DATA" = filter_roles "data"
  /\ (forall role, In role (filter_roles "DATA") -> In role JOB_ROLES)
  /\ (forall role, In role JOB_ROLES ->
                   PyStr.lower role = PyStr.lower "DATA" ->
                   In role (filter_roles "DATA")).
Proof.
  apply (@role_search_case_insensitive "DATA" "data"). reflexivity.
Defined.

Example role_search_sample :
  filter_roles "DATA" = ["Data Scientist"; "Senior Data Scientist"; "Data Engineer"].
Proof. vm_compute. reflexivity. Qed.

Lemma remove_first_in (x y : string) (l : list string) :
  NoDup l -> (In y (remove_first x l) <-> In y l /\ y <> x).
Proof.
  induction l as [|z l IH]; intros Hnd; cbn [remove_first].
  - cbn [In]. tauto.
  - inversion Hnd as [|? ? Hz Hl]; subst.
    destruct (String.eqb x z) eqn:E.
    + apply String.eqb_eq in E. subst z. cbn [In]. split.
      * intros H. split; [right; exact H | ]. intros ->. contradiction.
      * intros [[H | H] Hne]; [congruence | exact H].
    + apply String.eqb_neq in E. cbn [In]. rewrite (IH Hl). split.
      * intros [H | [H Hne]]; [subst z; split; [left; reflexivity | congruence] | ].
        split; [right; exact H | exact Hne].
      * intros [[H | H] Hne]; [left; exact H | right; split; assumption].
Qed.

Lemma remove_first_nodup (x : string) (l : list string) :
  NoDup l -> NoDup (remove_first x l).
Proof.
  induction l as [|z l IH]; intros Hnd; cbn [remove_first]; [constructor | ].
  inversion Hnd as [|? ? Hz Hl]; subst.
  destruct (String.eqb x z); [exact Hl | ].
  constructor; [ | apply IH, Hl].
  intros Hin. apply (remove_first_in x z Hl) in Hin. tauto.
Qed.

Lemma checkbox_step_spec (checked : bool) (role : string) (selected : list string) :
  NoDup selected ->
  NoDup (checkbox_step checked role selected)
  /\ (forall x, In x (checkbox_step checked role selected)
                <-> (x = role /\ checked = true) \/ (x <> role /\ In x selected)).
Proof.
  intros Hnd. unfold checkbox_step.
  destruct checked; destruct (PyStr.mem role selected) eqn:E.
  - apply mem_true_iff in E. split; [exact Hnd | ].
    intros x. destruct (string_dec x role) as [-> | Hne]; [tauto | ].
    split; [intros H; right; tauto | intros [[? _] | [_ ?]]; [contradiction | assumption]].
  - assert (Hnot : ~ In role selected).
    { intros H. apply mem_true_iff in H. congruence. }
    split.
    + apply NoDup_app; [exact Hnd | repeat constructor; intros [] | ].
      intros a Ha [<- | []]. contradiction.
    + intros x. rewrite in_app_iff. cbn [In].
      destruct (string_dec x role) as [-> | Hne]; [tauto | ].
      split; [intros [H | [H | []]]; [right; tauto | congruence] | ].
      intros [[? _] | [_ ?]]; [contradiction | left; assumption].
  - split; [apply remove_first_nodup, Hnd | ].
    intros x. rewrite (remove_first_in role x Hnd).
    split; [intros [? ?]; right; tauto | ].
    intros [[_ H] | [? ?]]; [discriminate H | tauto].
  - assert (Hnot : ~ In role selected).
    { intros H. apply mem_true_iff in H. congruence. }
    split; [exact Hnd | ].
    intros x. split.
    + intros H. right. split; [intros ->; contradiction | exact H].
    + intros [[_ H] | [_ ?]]; [discriminate H | assumption].
Qed.

(** X23: starting from a selection without repetition, the checkbox loop
    leaves a selection without repetition in which a displayed role is
    selected exactly when its checkbox is checked, and a role that is not
    displayed is selected exactly when it was before. *)
Theorem checkbox_loop_syncs (checkbox : string -> bool)
    (filtered_roles selected_roles : list string) :
  NoDup selected_roles ->
  NoDup (sync_roles checkbox filtered_roles selected_roles)
  /\ (forall role,
        In role (sync_roles checkbox filtered_roles selected_roles)
        <-> (In role filtered_roles /\ checkbox role = true)
            \/ (~ In role filtered_roles /\ In role selected_roles)).
Proof.
  unfold sync_roles. revert selected_roles.
  induction filtered_roles as [|r rest IH]; intros selected Hnd; cbn [fold_left].
  - split; [exact Hnd | ]. intros role. cbn [In]. tauto.
  - destruct (checkbox_step_spec (checkbox r) r Hnd) as (Hnd1 & Hstep).
    destruct (IH _ Hnd1) as (Hnd2 & Hrest).
    split; [exact Hnd2 | ].
    intros role. rewrite Hrest, Hstep. cbn [In].
    destruct (string_dec role r) as [-> | Hne].
    + destruct (in_dec string_dec r rest) as [Hin | Hout]; tauto.
    + assert (Hne' : r <> role) by congruence. tauto.
Qed.

Lemma checkbox_loop_syncs_witness :
  NoDup (sync_roles (String.eqb "Data Engineer") (filter_roles "data")
           ["Data Scientist"; "Cloud Engineer"])
  /\ (forall role,
        In role (sync_roles (String.eqb "Data Engineer") (filter_roles "data")
                   ["Data Scientist"; "Cloud Engineer"])
        <-> (In role (filter_roles "data")
             /\ String.eqb "Data Engineer" role = true)
            \/ (~ In role (filter_roles "data")
                /\ In role ["Data Scientist"; "Cloud Engineer"])).
Proof.
  apply (@checkbox_loop_syncs (String.eqb "Data Engineer") (filter_roles "data")
           ["Data Scientist"; "Cloud Engineer"]).
  repeat constructor; simpl; intuition discriminate.
Defined.

Example checkbox_loop_sample :
  sync_roles (String.eqb "Data Engineer") (filter_roles "data")
    ["Data Scientist"; "Cloud Engineer"]
  = ["Cloud Engineer"; "Data Engineer"].
Proof. vm_compute. reflexivity. Qed.

(** With a repeated entry, unchecking removes one copy only. *)
Example checkbox_loop_repeated :
  sync_roles (fun _ => false) ["ML Engineer"] ["ML Engineer"; "ML Engineer"]
  = ["ML Engineer"].
Proof. reflexivity. Qed.

End Roles.

(** ** Education, projects and the parsed resume *)

Section Stripping.

Lemma rstrip_chars_cons (c : ascii) (s : list ascii) :
  PyStr.is_space c = false ->
  exists kept, PyStr.rstrip_chars (c :: s) = c :: kept.
Proof.
  intros Hc. cbn [PyStr.rstrip_chars].
  destruct (PyStr.rstrip_chars s) as [|x kept].
  - rewrite Hc. exists []. reflexivity.
  - exists (x :: kept). reflexivity.
Qed.

Lemma rstrip_chars_last (s : list ascii) (d : ascii) :
  PyStr.rstrip_chars s <> [] ->
  PyStr.is_space (last (PyStr.rstrip_chars s) d) = false.
Proof.
  induction s as [|c s IH]; cbn [PyStr.rstrip_chars]; [congruence | ].
  destruct (PyStr.rstrip_chars s) as [|x kept] eqn:E.
  - destruct (PyStr.is_space c) eqn:Ec; [congruence | ].
    intros _. exact Ec.
  - intros _. change (last (c :: x :: kept) d) with (last (x :: kept) d).
    apply IH. discriminate.
Qed.

Lemma lstrip_chars_head (s : list ascii) :
  match PyStr.lstrip_chars s with
  | [] => True
  | c :: _ => PyStr.is_space c = false
  end.
Proof.
  induction s as [|c s IH]; cbn [PyStr.lstrip_chars]; [exact I | ].
  destruct (PyStr.is_space c) eqn:E; [exact IH | exact E].
Qed.

(** What [strip] returns has no white space at either end. *)
Lemma strip_chars_no_outer_space (s : list ascii) :
  Spec.no_outer_space (PyStr.strip_chars s) = true.
Proof.
  unfold PyStr.strip_chars.
  pose proof (lstrip_chars_head s) as Hhead.
  destruct (PyStr.lstrip_chars s) as [|c r]; [reflexivity | ].
  destruct (@rstrip_chars_cons c r Hhead) as (kept & Hkept).
  pose proof (@rstrip_chars_last (c :: r) c) as Hlast.
  rewrite Hkept in *. cbn [Spec.no_outer_space].
  rewrite Hhead. cbn [negb andb].
  assert (Hl : last kept c = last (c :: kept) c).
  { destruct kept; reflexivity. }
  rewrite Hl, Hlast; [reflexivity | discriminate].
Qed.

Lemma chars_of_list (l : list ascii) :
  PyStr.chars (string_of_list_ascii l) = l.
Proof. apply list_ascii_of_string_of_list_ascii. Qed.

End Stripping.

Section Education.

Import ResumeAnalyzer.
Local Open Scope string_scope.

Lemma find_level_spec (levels : list string) (text level field : string) :
  find_level levels text = Some (level, field) ->
  In level levels /\ Spec.no_outer_space (PyStr.chars field) = true.
Proof.
  induction levels as [|l rest IH]; cbn [find_level]; [discriminate | ].
  destruct (Re.find_first (level_pattern l) None (PyStr.chars text) 0)
    as [[start m]|].
  - destruct (field_search None _) as [found|]; intros H; inversion H; subst.
    + split; [left; reflexivity | ].
      rewrite chars_of_list. apply strip_chars_no_outer_space.
    + split; [left; reflexivity | reflexivity].
  - intros H. destruct (IH H) as (Hin & Hf). split; [right; exact Hin | exact Hf].
Qed.

Lemma education_levels_nonempty (level : string) :
  In level education_levels -> level <> "".
Proof.
  intros Hin ->. revert Hin. unfold education_levels. cbn [In].
  intuition discriminate.
Qed.

(** X24: the dict returned by [extract_education] has [degree] equal to
    [level], an empty [institution], a [level] that is empty or one of
    [education_levels], and a [field] without white space at its ends;
    without a level the field is empty and the summary is the fallback
    text, with one the summary is the level, followed by " in " and the
    field when there is a field. *)
Theorem extract_education_shape (resume_text : string) :
  let info := extract_education resume_text in
  EducationInfo.degree info = EducationInfo.level info
  /\ EducationInfo.institution info = ""
  /\ (EducationInfo.level info = "" \/ In (EducationInfo.level info) education_levels)
  /\ Spec.no_outer_space (PyStr.chars (EducationInfo.field info)) = true
  /\ (EducationInfo.level info = "" ->
      EducationInfo.field info = ""
      /\ EducationInfo.summary info = "Education details from resume")
  /\ (EducationInfo.level info <> "" ->
      EducationInfo.summary info
      = if String.eqb (EducationInfo.field info) ""
        then EducationInfo.level info
        else EducationInfo.level info ++ " in " ++ EducationInfo.field info).
Proof.
  intros info. subst info. unfold extract_education.
  cbn [EducationInfo.degree EducationInfo.level EducationInfo.institution
       EducationInfo.field EducationInfo.summary].
  set (section := education_section (PyStr.split_lines resume_text) false).
  set (text := match section with [] => resume_text | _ :: _ => PyStr.join section end).
  destruct (find_level education_levels text) as [[level field]|] eqn:E;
    cbn [get_or fst snd].
  - apply find_level_spec in E. destruct E as (Hin & Hfield).
    pose proof (@education_levels_nonempty level Hin) as Hne.
    repeat split; try (right; exact Hin); try exact Hfield; try contradiction.
    intros _. destruct level as [|c level]; [congruence | ].
    destruct field; reflexivity.
  - repeat split; try (left; reflexivity). intros H. congruence.
Qed.

Example extract_education_sample :
  extract_education
    ("Jane Doe" ++ String PyStr.newline "Education" ++ String PyStr.newline
       "M.S in Biology from Yale University (2015)" ++ String PyStr.newline
       "Experience" ++ String PyStr.newline "PhD student mentor")
  = {| EducationInfo.degree := "M.S"; EducationInfo.field := "Biology";
       EducationInfo.institution := ""; EducationInfo.level := "M.S";
       EducationInfo.summary := "M.S in Biology" |}.
Proof. vm_compute. reflexivity. Qed.

Lemma extract_education_shape_level (resume_text : string) :
  EducationInfo.level (extract_education resume_text) = ""
  \/ In (EducationInfo.level (extract_education resume_text)) education_levels.
Proof.
  unfold extract_education. cbn [EducationInfo.level].
  set (section := education_section (PyStr.split_lines resume_text) false).
  set (text := match section with [] => resume_text | _ :: _ => PyStr.join section end).
  destruct (find_level education_levels text) as [[level field]|] eqn:E;
    cbn [get_or fst].
  - right. apply find_level_spec in E. tauto.
  - left. reflexivity.
Qed.

(** The tier of each level of the vocabulary: "B.A" alone has none. *)
Lemma education_level_tiers :
  forallb (fun level =>
             if String.eqb level "B.A"
             then (edu_level (PyStr.lower level) =? 0)%Z
             else (0 <? edu_level (PyStr.lower level))%Z)
          education_levels = true.
Proof. vm_compute. reflexivity. Qed.

(** X25: for a resume parsed by [parse_resume], the candidate tier the
    scorers compute is the tier of the level found by [extract_education];
    it is positive for every level of the vocabulary but "B.A", which like
    an empty level gives tier 0: a candidate detected with a B.A is scored
    as having no degree. *)
Theorem parsed_degree_tier (resume_text : string) :
  let level := EducationInfo.level (extract_education resume_text) in
  candidate_level (parse_resume resume_text) = edu_level (PyStr.lower level)
  /\ (level = "" \/ level = "B.A" -> candidate_level (parse_resume resume_text) = 0%Z)
  /\ (level <> "" -> level <> "B.A" ->
      (0 < candidate_level (parse_resume resume_text))%Z).
Proof.
  intros level.
  assert (Hcl : candidate_level (parse_resume resume_text)
                = edu_level (PyStr.lower level)) by reflexivity.
  rewrite Hcl. split; [reflexivity | ].
  destruct (extract_education_shape_level resume_text) as [Hempty | Hin];
    fold level in Hempty || fold level in Hin.
  - rewrite Hempty. split; [reflexivity | congruence].
  - pose proof (proj1 (forallb_forall _ _) education_level_tiers level Hin) as Ht.
    cbv beta in Ht.
    destruct (String.eqb level "B.A") eqn:E.
    + apply String.eqb_eq in E. apply Z.eqb_eq in Ht.
      split; [intros _; exact Ht | congruence].
    + apply String.eqb_neq in E. apply Z.ltb_lt in Ht.
      split; [ | intros _ _; exact Ht].
      intros [H | H]; [ | contradiction].
      apply education_levels_nonempty in Hin. contradiction.
Qed.

(** A resume that states a B.A, against a job that asks for a bachelor's
    degree: the level is found, the tier is 0, and the education is scored
    as insufficient. *)
Example bachelor_of_arts_scored :
  EducationInfo.level (extract_education "B.A in History, 2015") = "B.A"
  /\ candidate_level (parse_resume "B.A in History, 2015") = 0%Z
  /\ (let r := calculate_smart_score (parse_resume "B.A in History, 2015")
                 {| Job.id := 4; Job.title := "Analyst"; Job.company := "";
                    Job.description := ""; Job.requirements := "";
                    Job.experience := None;
                    Job.education_required := Some "Bachelor";
                    Job.projects_required := None |} 0.5 in
      Smart.education_sufficient r = false
      /\ (Breakdown.education (Smart.breakdown r) == 0.6)%Q).
Proof. vm_compute. repeat split. Qed.

End Education.

Section Projects.

Import ResumeAnalyzer.
Local Open Scope string_scope.

Lemma length_of_list (l : list ascii) :
  String.length (string_of_list_ascii l) = List.length l.
Proof.
  induction l as [|c l IH]; cbn [string_of_list_ascii String.length List.length];
    [reflexivity | rewrite IH; reflexivity].
Qed.

Lemma length_chars (s : string) : List.length (PyStr.chars s) = String.length s.
Proof.
  unfold PyStr.chars.
  induction s as [|c s IH]; cbn [list_ascii_of_string String.length List.length];
    [reflexivity | rewrite IH; reflexivity].
Qed.

Lemma length_append (a b : string) :
  String.length (a ++ b) = (String.length a + String.length b)%nat.
Proof.
  induction a as [|c a IH]; cbn [append String.length];
    [reflexivity | rewrite IH; reflexivity].
Qed.

(** What the last loop makes of one line. *)
Lemma project_of_line_spec (line : string) (project : Project.t) :
  project_of_line line = Some project ->
  (10 < String.length (Project.description project) <= 103)%nat
  /\ Spec.no_outer_space (PyStr.chars (Project.title project)) = true
  /\ PyStr.chars (Project.description project)
     = (if (100 <? String.length (PyStr.strip line))%nat
        then (firstn 100 (PyStr.chars (PyStr.strip line)) ++ PyStr.chars "...")%list
        else PyStr.chars (PyStr.strip line)).
Proof.
  unfold project_of_line.
  remember (PyStr.strip line) as stripped eqn:Estripped.
  remember (firstn 100 (PyStr.chars stripped)) as cut eqn:Ecut.
  destruct (10 <? String.length stripped)%nat eqn:E10; [ | discriminate].
  apply Nat.ltb_lt in E10.
  destruct (title_match (PyStr.chars stripped)) as [found|]; [ | discriminate].
  intros H. injection H as <-.
  cbn [Project.title Project.description].
  split; [ | split].
  - destruct (100 <? String.length stripped)%nat eqn:E100.
    + apply Nat.ltb_lt in E100.
      rewrite length_append, length_of_list, Ecut, length_firstn, length_chars.
      cbn [String.length]. lia.
    + apply Nat.ltb_ge in E100. lia.
  - rewrite chars_of_list. apply strip_chars_no_outer_space.
  - destruct (100 <? String.length stripped)%nat; [ | reflexivity].
    clear Ecut. unfold PyStr.chars.
    induction cut as [|c l IH];
      cbn [string_of_list_ascii append app list_ascii_of_string];
      [reflexivity | rewrite IH; reflexivity].
Qed.

Lemma projects_of_lines_length (lines : list string) :
  (List.length
     (flat_map (fun line => match project_of_line line with
                            | Some project => [project]
                            | None => []
                            end) lines)
   <= List.length lines)%nat.
Proof.
  induction lines as [|line rest IH]; cbn [flat_map List.length]; [lia | ].
  rewrite length_app. destruct (project_of_line line); cbn [List.length]; lia.
Qed.

Lemma project_section_incl (line : string) (lines : list string) (b : bool) :
  In line (project_section lines b) -> In line lines.
Proof.
  revert b. induction lines as [|x l IH]; intros b; cbn [project_section];
    [tauto | ].
  destruct (Re.search projects_header _); [intros H; right; apply (IH _ H) | ].
  destruct (b && Re.search projects_end _)%bool; [intros [] | ].
  destruct (b && negb _)%bool; [ | intros H; right; apply (IH _ H)].
  intros [H | H]; [left; exact H | right; apply (IH _ H)].
Qed.

(** X26: [extract_projects] returns at most 5 projects; each description
    is a stripped line of the resume of more than 10 characters, cut to its
    first 100 characters followed by "..." when it is longer than 100, so
    that it has between 11 and 103 characters; each title has no white
    space at its ends. *)
Theorem extract_projects_bounds (resume_text : string) :
  (List.length (extract_projects resume_text) <= 5)%nat
  /\ Forall (fun project =>
               (10 < String.length (Project.description project) <= 103)%nat
               /\ Spec.no_outer_space (PyStr.chars (Project.title project)) = true
               /\ exists line,
                    In line (PyStr.split_lines resume_text)
                    /\ PyStr.chars (Project.description project)
                       = (if (100 <? String.length (PyStr.strip line))%nat
                          then (firstn 100 (PyStr.chars (PyStr.strip line))
                                ++ PyStr.chars "...")%list
                          else PyStr.chars (PyStr.strip line)))
            (extract_projects resume_text).
Proof.
  unfold extract_projects.
  set (lines := PyStr.split_lines resume_text).
  set (section := match project_section lines false with
                  | [] => indicator_lines lines
                  | _ :: _ => project_section lines false
                  end).
  assert (Hsection : forall line, In line section -> In line lines).
  { intros line. subst section.
    destruct (project_section lines false) eqn:E.
    - unfold indicator_lines. intros H. apply filter_In in H. tauto.
    - rewrite <- E. apply project_section_incl. }
  split.
  - eapply Nat.le_trans; [apply projects_of_lines_length | apply firstn_le_length].
  - apply Forall_forall. intros project Hin.
    apply in_flat_map in Hin. destruct Hin as (line & Hline & Hp).
    destruct (project_of_line line) as [q|] eqn:E; [ | destruct Hp].
    destruct Hp as [<- | []].
    destruct (project_of_line_spec _ E) as (Hlen & Htitle & Hdesc).
    split; [exact Hlen | split; [exact Htitle | ]].
    exists line. split; [ | exact Hdesc].
    apply Hsection. apply (top_skills_incl 5), Hline.
Qed.

Example extract_projects_sample :
  extract_projects
    ("Projects" ++ String PyStr.newline
       "- Chatbot: an NLP assistant in Python" ++ String PyStr.newline
       "short" ++ String PyStr.newline
       "Web Shop (React, Node.js)" ++ String PyStr.newline
       "Skills" ++ String PyStr.newline "Built a compiler for fun and profit")
  = [ {| Project.title := "Chatbot";
         Project.description := "- Chatbot: an NLP assistant in Python" |};
      {| Project.title := "Web Shop";
         Project.description := "Web Shop (React, Node.js)" |} ].
Proof. vm_compute. reflexivity. Qed.

End Projects.

(** ** Reading the uploaded file *)

Section Parser.

Import ResumeParser.
Local Open Scope string_scope.

Lemma strip_no_outer_space (s : string) :
  Spec.no_outer_space (PyStr.chars (PyStr.strip s)) = true.
Proof.
  unfold PyStr.strip. rewrite chars_of_list. apply strip_chars_no_outer_space.
Qed.

(** X27: [ResumeParser.parse_resume] raises the "Unsupported file format"
    error exactly when the lower-cased file name ends with none of ".pdf",
    ".docx" and ".txt"; whatever a reader raises reaches the caller as a
    [ValueError]; and a text that is returned has no white space at its
    ends. *)
Theorem parse_resume_outcomes (f : file) :
  (parse_resume f = Raise unsupported
   <-> endswith ".pdf" (PyStr.lower (name f)) = false
       /\ endswith ".docx" (PyStr.lower (name f)) = false
       /\ endswith ".txt" (PyStr.lower (name f)) = false)
  /\ (forall e, parse_resume f = Raise e -> exists message, e = ValueError message)
  /\ (forall text, parse_resume f = Ok text ->
                   Spec.no_outer_space (PyStr.chars text) = true).
Proof.
  unfold parse_resume, extract_text_from_pdf, extract_text_from_docx,
    extract_text_from_txt, unsupported.
  destruct (endswith ".pdf" (PyStr.lower (name f))).
  { destruct (pdf_pages f) as [e | pages]; split; try split.
    - intros H. discriminate H.
    - intros (H & _). discriminate H.
    - intros e' H. injection H as <-. eexists. reflexivity.
    - intros text H. discriminate H.
    - intros H. discriminate H.
    - intros (H & _). discriminate H.
    - intros e' H. discriminate H.
    - intros text H. injection H as <-. apply strip_no_outer_space. }
  destruct (endswith ".docx" (PyStr.lower (name f))).
  { destruct (docx_paragraphs f) as [e | paragraphs]; split; try split.
    - intros H. discriminate H.
    - intros (_ & H & _). discriminate H.
    - intros e' H. injection H as <-. eexists. reflexivity.
    - intros text H. discriminate H.
    - intros H. discriminate H.
    - intros (_ & H & _). discriminate H.
    - intros e' H. discriminate H.
    - intros text H. injection H as <-. apply strip_no_outer_space. }
  destruct (endswith ".txt" (PyStr.lower (name f))).
  { destruct (txt_content f) as [e | content]; split; try split.
    - intros H. discriminate H.
    - intros (_ & _ & H). discriminate H.
    - intros e' H. injection H as <-. eexists. reflexivity.
    - intros text H. discriminate H.
    - intros H. discriminate H.
    - intros (_ & _ & H). discriminate H.
    - intros e' H. discriminate H.
    - intros text H. injection H as <-. apply strip_no_outer_space. }
  split; [tauto | split].
  - intros e H. injection H as <-. eexists. reflexivity.
  - intros text H. discriminate H.
Qed.

(** The extension is compared in lower case, and ".pdf" is tried first. *)
Example parse_resume_samples :
  parse_resume {| name := "CV.PDF"; pdf_pages := inr ["  page one "; "page two  "];
                  docx_paragraphs := inl "not a docx"; txt_content := inl "" |}
  = Ok "page one page two"
  /\ parse_resume {| name := "cv.doc"; pdf_pages := inr []; docx_paragraphs := inr [];
                     txt_content := inr "text" |}
     = Raise unsupported
  /\ parse_resume {| name := "cv.txt"; pdf_pages := inr []; docx_paragraphs := inr [];
                     txt_content := inl "invalid start byte" |}
     = Raise (ValueError "Error parsing TXT: invalid start byte").
Proof. repeat split. Qed.

End Parser.

(** ** The reply of the resume optimizer *)

Section OptimizerReply.

Import ClaudeAssistant.
Local Open Scope string_scope.

Lemma string_of_chars (s : string) : string_of_list_ascii (PyStr.chars s) = s.
Proof. apply string_of_list_ascii_of_string. Qed.

(** The marker is found by [split_once] exactly when it occurs in the
    text. *)
Lemma split_once_none (sep s : string) :
  split_once sep (PyStr.chars s) = None <-> PyStr.contains sep s = false.
Proof.
  induction s as [|c s IH].
  - cbn [PyStr.chars list_ascii_of_string split_once string_of_list_ascii
         PyStr.contains].
    destruct (String.prefix sep ""); cbn [orb]; split; intros H;
      try reflexivity; discriminate H.
  - change (PyStr.chars (String c s)) with (c :: PyStr.chars s).
    cbn [split_once PyStr.contains].
    change (string_of_list_ascii (c :: PyStr.chars s))
      with (String c (string_of_list_ascii (PyStr.chars s))).
    rewrite string_of_chars.
    destruct (String.prefix sep (String c s)); cbn [orb].
    + split; intros H; discriminate H.
    + rewrite <- IH.
      destruct (split_once sep (PyStr.chars s)) as [[before after]|];
        split; intros H; try reflexivity; discriminate H.
Qed.

Lemma change_of_line_stripped (line : list ascii) :
  Forall (fun change => Spec.no_outer_space (PyStr.chars change) = true)
         (change_of_line line).
Proof.
  unfold change_of_line.
  destruct (startswith "-" (PyStr.strip_chars line)).
  { repeat constructor. rewrite chars_of_list. apply strip_chars_no_outer_space. }
  destruct (startswith bullet (PyStr.strip_chars line)).
  { repeat constructor. rewrite chars_of_list. apply strip_chars_no_outer_space. }
  pose proof (strip_chars_no_outer_space line) as Hline.
  destruct (PyStr.strip_chars line) as [|c rest] eqn:E; [constructor | ].
  destruct (startswith "#" (c :: rest)); repeat constructor.
  rewrite chars_of_list. exact Hline.
Qed.

Lemma changes_stripped (lines : list (list ascii)) (n : nat) :
  Forall (fun change => Spec.no_outer_space (PyStr.chars change) = true)
         (firstn n (flat_map change_of_line lines)).
Proof.
  apply Forall_forall. intros change Hin.
  apply top_skills_incl in Hin. apply in_flat_map in Hin.
  destruct Hin as (line & _ & Hin).
  exact (proj1 (Forall_forall _ _) (change_of_line_stripped line) change Hin).
Qed.

Lemma chars_append (a b : string) :
  PyStr.chars (a ++ b) = (PyStr.chars a ++ PyStr.chars b)%list.
Proof.
  unfold PyStr.chars.
  induction a as [|c a IH]; cbn [append list_ascii_of_string app];
    [reflexivity | rewrite IH; reflexivity].
Qed.

Lemma skipn_chars (a b : string) :
  skipn (String.length a) (PyStr.chars (a ++ b)) = PyStr.chars b.
Proof.
  unfold PyStr.chars.
  induction a as [|c a IH]; cbn [append list_ascii_of_string String.length skipn];
    [reflexivity | exact IH].
Qed.

(** What [split_once] returns surrounds the first occurrence. *)
Lemma split_once_some (sep : string) (s before after : list ascii) :
  split_once sep s = Some (before, after) ->
  s = (before ++ PyStr.chars sep ++ after)%list.
Proof.
  revert before. induction s as [|c s IH]; intros before; cbn [split_once].
  - destruct (String.prefix sep (string_of_list_ascii [])) eqn:E; [ | discriminate].
    intros H. injection H as <- <-.
    apply prefix_split in E. destruct E as (rest & E).
    cbn [string_of_list_ascii] in E.
    destruct sep; [reflexivity | discriminate E].
  - destruct (String.prefix sep (string_of_list_ascii (c :: s))) eqn:E.
    + intros H. injection H as <- <-.
      apply prefix_split in E. destruct E as (rest & E).
      assert (Hs : c :: s = PyStr.chars (sep ++ rest)).
      { rewrite <- E. symmetry. apply chars_of_list. }
      rewrite Hs, skipn_chars, chars_append. reflexivity.
    + destruct (split_once sep s) as [[b a]|]; [ | discriminate].
      intros H. injection H as <- <-.
      rewrite (IH b eq_refl). reflexivity.
Qed.

(** No occurrence of the separator starts before the one that [split_once]
    finds. *)
Lemma split_once_first (sep : string) (s before after : list ascii) :
  split_once sep s = Some (before, after) ->
  forall pre post,
    s = (pre ++ PyStr.chars sep ++ post)%list ->
    (List.length before <= List.length pre)%nat.
Proof.
  revert before. induction s as [|c s IH]; intros before; cbn [split_once].
  - destruct (String.prefix sep (string_of_list_ascii [])); [ | discriminate].
    intros H. injection H as <- <-. intros pre post _. cbn [List.length]. lia.
  - destruct (String.prefix sep (string_of_list_ascii (c :: s))) eqn:E.
    + intros H. injection H as <- <-. intros pre post _.
      cbn [List.length]. lia.
    + destruct (split_once sep s) as [[b a]|] eqn:Es; [ | discriminate].
      intros H. injection H as <- <-. intros pre post Hs.
      destruct pre as [|c' pre].
      * exfalso. cbn [app] in Hs.
        assert (Hp : string_of_list_ascii (PyStr.chars sep ++ post)
                     = sep ++ string_of_list_ascii post).
        { rewrite <- (chars_of_list post) at 1. rewrite <- chars_append.
          apply string_of_chars. }
        rewrite Hs, Hp, prefix_append in E. discriminate E.
      * cbn [app] in Hs. injection Hs as _ Hs. cbn [List.length].
        pose proof (IH b eq_refl pre post Hs) as Hle. lia.
Qed.

(** X28: [optimize_resume_with_diff] reports failure exactly when the call
    to the model raised, with an empty resume and no change; otherwise it
    returns at most 7 changes, none with white space at its ends; a reply
    without the marker "### CHANGES MADE:" is returned whole with the one
    default change, and with the marker the resume is the text before its
    first occurrence, stripped: the marker follows that text, and it starts
    nowhere earlier in the reply. *)
Theorem optimizer_reply_shape (reply : sum string string) :
  let r := optimize_resume_with_diff reply in
  (List.length (changes r) <= 7)%nat
  /\ Forall (fun change => Spec.no_outer_space (PyStr.chars change) = true)
            (changes r)
  /\ (success r = false <-> exists e, reply = inl e)
  /\ (success r = false -> optimized_resume r = "" /\ changes r = [])
  /\ (forall text, reply = inr text ->
        PyStr.contains changes_marker text = false ->
        optimized_resume r = text
        /\ changes r = ["Resume optimized for this position"])
  /\ (forall text, reply = inr text ->
        PyStr.contains changes_marker text = true ->
        exists before after,
          PyStr.chars text
          = (before ++ PyStr.chars changes_marker ++ after)%list
          /\ (forall pre post,
                PyStr.chars text
                = (pre ++ PyStr.chars changes_marker ++ post)%list ->
                (List.length before <= List.length pre)%nat)
          /\ PyStr.chars (optimized_resume r) = PyStr.strip_chars before).
Proof.
  intros r. subst r. unfold optimize_resume_with_diff.
  destruct reply as [e | text].
  - cbn [changes success optimized_resume List.length].
    split; [lia | split; [constructor | split; [ | split; [ | split]]]].
    + split; [intros _; exists e; reflexivity | reflexivity].
    + intros _. split; reflexivity.
    + intros text H. discriminate H.
    + intros text H. discriminate H.
  - destruct (split_once changes_marker (PyStr.chars text))
      as [[part0 rest]|] eqn:E.
    + cbn [changes success optimized_resume].
      split; [apply firstn_le_length | split; [apply changes_stripped | ]].
      split; [split; [discriminate | intros (e & H); discriminate H] | ].
      split; [discriminate | split].
      * intros text' H Hnone. injection H as <-.
        apply split_once_none in Hnone. congruence.
      * intros text' H _. injection H as <-.
        exists part0, rest.
        split; [apply split_once_some, E | split; [ | apply chars_of_list]].
        exact (@split_once_first _ _ _ _ E).
    + cbn [changes success optimized_resume List.length].
      split; [lia | split; [repeat constructor | ]].
      split; [split; [discriminate | intros (e & H); discriminate H] | ].
      split; [discriminate | split].
      * intros text' H _. injection H as <-. split; reflexivity.
      * intros text' H Hsome. injection H as <-.
        apply split_once_none in E. congruence.
Qed.

Example optimizer_reply_sample :
  optimize_resume_with_diff
    (inr ("  Jane Doe, engineer " ++ String PyStr.newline
          "### CHANGES MADE:" ++ String PyStr.newline
          "- Added keyword Docker" ++ String PyStr.newline
          "## note" ++ String PyStr.newline
          "Reordered sections" ++ String PyStr.newline
          "### CHANGES MADE: ignored"))
  = {| optimized_resume := "Jane Doe, engineer";
       changes := ["Added keyword Docker"; "Reordered sections"];
       success := true; error := None |}.
Proof. vm_compute. reflexivity. Qed.

End OptimizerReply.

Lemma show_job_results_returns_witness :
  exists matches,
    App.show_job_results toy_encode toy_index_of toy_search toy_session
      [backend_job; senior_job]
    = ({| App.job_matcher :=
            Some (fst (JobMatcher.build_job_index toy_encode toy_index_of
                         (JobMatcher.init (list string))
                         [backend_job; senior_job]));
          App.selected_roles := App.selected_roles toy_session;
          App.parsed_resume_data := App.parsed_resume_data toy_session |},
       Ok matches).
Proof.
  apply (@show_job_results_returns string (list string) toy_encode toy_index_of
           toy_search toy_session [backend_job; senior_job]).
  - reflexivity.
  - discriminate.
  - intros ix v k i d Hin. unfold toy_search in Hin.
    apply in_map_iff in Hin. destruct Hin as (n & Hn & _).
    inversion Hn. lia.
Defined.

(** ** The weights returned with the smart score *)

Section ReturnedWeights.

Import ResumeAnalyzer.
Local Open Scope Q_scope.


End ReturnedWeights.
